(** * dra-example-driver (InfiniBand profile): a shallow embedding

    The development follows the package layout of the Go sources:

    - [golang]   : the few Go values and standard-library functions the
                   driver relies on (errors, [fmt.Sprintf] verbs,
                   [strings.SplitN], ...);
    - [host]     : the operating system, the clock, external programs and
                   libibverbs, as an interface;
    - [sysfs]    : internal/sysfs (topology reader);
    - [ibverbs]  : internal/ibverbs (port attribute query);
    - [netns]    : internal/netns (namespace moves);
    - [sriov]    : internal/sriov (VF lifecycle manager);
    - [v1alpha1] : api/example.com/resource/ib/v1alpha1 (configuration);
    - [ib]       : internal/profiles/ib (fusion, config applier, hook helper);
    - [laws]     : assumptions on the host that some theorems need;
    - [sim], [machines] : a simulated host and concrete machines on which
                   the driver runs by computation;
    - [spec]     : the tables and notions of the specification.

    Effects are explicit. A computation runs in a state made of the
    host's world and the trace of the effects performed so far. Reading a
    file, a directory, the clock or a device attribute is an observation
    of the world and does not change it; writing a file, sleeping and
    running a program are effects, and it is during an effect that time
    passes and that the kernel does its work. Logging is left out. The
    poll loop of [waitForVFs] takes fuel; the theorems show that fuel for
    61 turns is always enough. *)

From Stdlib Require Import ZArith String Ascii List Lia.
From Stdlib Require Import DecimalString DecimalZ DecimalPos.
From stdpp Require Import base option list gmap strings.

Local Open Scope string_scope.
Local Open Scope Z_scope.
Local Open Scope list_scope.

(* ===================================================================== *)
(** * Go values and standard-library functions *)
(* ===================================================================== *)

Module golang.

(** A non-nil Go [error]: its message and whether [os.IsNotExist] holds
    of it. *)
Record goerr := MkErr { Error : string; IsNotExist : bool }.

(** Go's [error] interface value; [None] is [nil]. *)
Definition error := option goerr.

(** [fmt.Errorf]: a fresh error; [os.IsNotExist] does not look through
    the [%w] wrapping. *)
Definition Errorf (msg : string) : error :=
  Some {| Error := msg; IsNotExist := false |}.

Definition is_nil (e : error) : bool :=
  match e with None => true | Some _ => false end.

(** The text of an error, as [%w] and [%v] print it. *)
Definition errtext (e : goerr) : string := Error e.

(** ** Integers *)

(** Go's [int] is 64 bits wide on the supported platforms. *)
Definition int_wrap (z : Z) : Z := (z + 2 ^ 63) mod 2 ^ 64 - 2 ^ 63.

Definition int_mul (a b : Z) : Z := int_wrap (a * b).

Definition in_int (z : Z) : Prop := - 2 ^ 63 <= z < 2 ^ 63.

(** The range of a C [int], which is what libibverbs hands over. *)
Definition in_cint (z : Z) : Prop := - 2 ^ 31 <= z < 2 ^ 31.

Definition uint8 (z : Z) : Z := z mod 2 ^ 8.
Definition uint16 (z : Z) : Z := z mod 2 ^ 16.
Definition uint32 (z : Z) : Z := z mod 2 ^ 32.
Definition uint64 (z : Z) : Z := z mod 2 ^ 64.

(** ** Formatting *)

(** [strconv.Itoa] and the [%d] verb: decimal, with a leading minus sign
    for negative numbers. *)
Definition Itoa (z : Z) : string := NilZero.string_of_int (Z.to_int z).

Definition hexdigit (upper : bool) (d : Z) : ascii :=
  if d <? 10 then ascii_of_N (Z.to_N (48 + d))
  else ascii_of_N (Z.to_N ((if upper then 55 else 87) + d)).

Fixpoint hex_go (fuel : nat) (upper : bool) (z : Z) (acc : string) : string :=
  match fuel with
  | O => acc
  | S fuel' =>
      let acc' := String (hexdigit upper (z mod 16)) acc in
      if z <? 16 then acc' else hex_go fuel' upper (z / 16) acc'
  end.

(** The [%x] ([upper = false]) and [%X] verbs on an unsigned value. *)
Definition FormatHex (upper : bool) (z : Z) : string :=
  hex_go (S (Z.to_nat (Z.log2 z))) upper z "".

Fixpoint zeros (n : nat) : string :=
  match n with O => "" | S n' => String "0" (zeros n') end.

(** The [0<width>] flag: left padding with zeros up to [width]. *)
Definition pad0 (width : nat) (s : string) : string :=
  zeros (width - String.length s) +:+ s.

(** ** Package strings *)

Definition HasPrefix (s pre : string) : bool := String.prefix pre s.

Fixpoint TrimPrefix_opt (pre s : string) : option string :=
  match pre, s with
  | "", _ => Some s
  | String a pre', String b s' =>
      if Ascii.eqb a b then TrimPrefix_opt pre' s' else None
  | String _ _, "" => None
  end.

(** [strings.Cut]: the text before and after the first occurrence of
    [sep]. *)
Fixpoint Cut (s sep : string) : option (string * string) :=
  match TrimPrefix_opt sep s with
  | Some rest => Some ("", rest)
  | None =>
      match s with
      | "" => None
      | String c s' =>
          match Cut s' sep with
          | Some (before, after) => Some (String c before, after)
          | None => None
          end
      end
  end.

(** [strings.SplitN(s, sep, 2)] for a non-empty [sep]: at most two
    pieces, split at the first occurrence of [sep]. *)
Definition SplitN2 (s sep : string) : list string :=
  match Cut s sep with
  | Some (before, after) => [before; after]
  | None => [s]
  end.

Definition Join (elems : list string) (sep : string) : string :=
  String.concat sep elems.

(** [strings.Contains] *)
Definition Contains (s substr : string) : bool :=
  match Cut s substr with
  | Some _ => true
  | None => false
  end.

End golang.
Export golang.

(* ===================================================================== *)
(** * The host: operating system, clock, processes and libibverbs *)
(* ===================================================================== *)

Module host.

(** A side effect performed on the host. Reads are observations of the
    world and leave no trace. *)
Inductive Event :=
| EvWriteFile (path data : string)          (* os.WriteFile(path, data, 0644) *)
| EvSleep (d : Z)                           (* time.Sleep(d), in nanoseconds *)
| EvExec (name : string) (args : list string). (* exec.Command(...).CombinedOutput() *)

(** [struct ibv_device], as far as the driver looks at it. *)
Record ibv_device := {
  dev_name : string;          (* ibv_get_device_name *)
  node_type : Z;
  transport_type : Z
}.

(** [struct ibv_device_attr], as far as the driver looks at it. *)
Record ibv_device_attr := {
  fw_ver : string;
  phys_port_cnt : Z;          (* uint8_t *)
  vendor_id : Z;
  vendor_part_id : Z
}.

(** What [query_port_compat] stores through its out-parameters. *)
Record ibv_port_attr := {
  state : Z;
  active_mtu : Z;
  active_speed : Z;
  active_width : Z;
  lid : Z;
  link_layer : Z
}.

(** Everything outside the repository: the Go runtime functions whose
    result depends on the machine, and the C library. [W] is the state
    of the machine (file systems, kernel, clock). *)
Class Host (W : Type) := {
  (* path/filepath, strings, strconv *)
  filepath_Join : list string -> string;
  filepath_Base : string -> string;
  strings_TrimSpace : string -> string;
  strconv_Atoi : string -> Z * error;
  (* os, path/filepath: observations *)
  os_ReadFile : string -> W -> string * error;
  os_ReadDir : string -> W -> list string * error;   (* entry names *)
  os_Stat : string -> W -> error;
  os_Lstat : string -> W -> error;
  filepath_EvalSymlinks : string -> W -> string * error;
  time_Now : W -> Z;                                 (* nanoseconds *)
  (* os, time, os/exec: effects *)
  os_WriteFile : string -> string -> W -> error * W;
  time_Sleep : Z -> W -> W;
  exec_CombinedOutput : string -> list string -> W -> (string * error) * W;
  (* libibverbs: observations *)
  ibv_get_device_list : W -> option (list (option ibv_device));
  ibv_open_device : ibv_device -> W -> bool;          (* context is not NULL *)
  ibv_query_device : ibv_device -> W -> Z * ibv_device_attr;
  ibv_get_device_guid : ibv_device -> W -> Z;
  query_port_compat : ibv_device -> Z -> W -> Z * ibv_port_attr;
  ibv_query_gid : ibv_device -> Z -> Z -> W -> Z * list Z
}.

(** The state a computation runs in: the world, and the effects so far. *)
Record St (W : Type) := MkSt { world : W; trace : list Event }.
Arguments MkSt {W} _ _.
Arguments world {W} _.
Arguments trace {W} _.

Section Effects.
Context {W : Type} `{Host W}.

Definition WriteFile (path data : string) (s : St W) : error * St W :=
  let '(err, w') := os_WriteFile path data (world s) in
  (err, MkSt w' (trace s ++ [EvWriteFile path data])).

Definition Sleep (d : Z) (s : St W) : St W :=
  MkSt (time_Sleep d (world s)) (trace s ++ [EvSleep d]).

Definition CombinedOutput (name : string) (args : list string) (s : St W)
  : (string * error) * St W :=
  let '(r, w') := exec_CombinedOutput name args (world s) in
  (r, MkSt w' (trace s ++ [EvExec name args])).

End Effects.

(** The files written, in order. *)
Definition writes (t : list Event) : list (string * string) :=
  omap (fun e => match e with EvWriteFile p d => Some (p, d) | _ => None end) t.

(** The commands run, in order. *)
Definition commands (t : list Event) : list (string * list string) :=
  omap (fun e => match e with EvExec n a => Some (n, a) | _ => None end) t.

Definition Second : Z := 1000000000.
Definition Millisecond : Z := 1000000.

End host.
Export host.

(* ===================================================================== *)
(** * internal/sysfs *)
(* ===================================================================== *)

Module sysfs.

Definition sysClassInfiniband := "/sys/class/infiniband".
Definition sysClassNet := "/sys/class/net".
Definition sysBusPCI := "/sys/bus/pci/devices".

Record IBDeviceInfo := {
  Name : string;
  PCIAddress : string;
  NUMANode : Z;
  IsPF : bool;
  IsVF : bool;
  SRIOVTotalVFs : Z;
  SRIOVNumVFs : Z;
  ParentPF : string;
  NetDevices : list string;
  NodeGUID : string;
  PortGUIDs : gmap Z string
}.

Section WithHost.
Context {W : Type} `{Host W}.

Definition readIntFileErr (path : string) (w : W) : Z * error :=
  let '(data, err) := os_ReadFile path w in
  match err with
  | Some _ => (0, err)
  | None => strconv_Atoi (strings_TrimSpace data)
  end.

Definition readIntFile (path : string) (defaultVal : Z) (w : W) : Z :=
  let '(val, err) := readIntFileErr path w in
  match err with
  | Some _ => defaultVal
  | None => val
  end.

Definition readStringFile (path : string) (w : W) : string :=
  let '(data, err) := os_ReadFile path w in
  match err with
  | Some _ => ""
  | None => strings_TrimSpace data
  end.

Definition isPF (pciPath : string) (w : W) : bool :=
  is_nil (os_Stat (filepath_Join [pciPath; "sriov_totalvfs"]) w).

Definition isVF (pciPath : string) (w : W) : bool :=
  is_nil (os_Lstat (filepath_Join [pciPath; "physfn"]) w).

Definition findNetDevices (ibDevName : string) (w : W) : list string :=
  let netPath := filepath_Join [sysClassInfiniband; ibDevName; "device"; "net"] in
  let '(entries, err) := os_ReadDir netPath w in
  match err with
  | Some _ => []
  | None => entries
  end.

(** The loop over [ports/]: one GUID per entry whose name is a number
    and whose GID file is not empty. *)
Definition readPortGUIDs (portsPath : string) (portEntries : list string) (w : W)
  : gmap Z string :=
  foldl (fun guids pe =>
           let '(portNum, err) := strconv_Atoi pe in
           match err with
           | Some _ => guids
           | None =>
               let gidPath := filepath_Join [portsPath; pe; "gids"; "0"] in
               let gid := readStringFile gidPath w in
               if String.eqb gid "" then guids else <[portNum := gid]> guids
           end) ∅ portEntries.

Definition GetIBDeviceInfo (devName : string) (w : W) : IBDeviceInfo * error :=
  let devPath := filepath_Join [sysClassInfiniband; devName] in
  let deviceLink := filepath_Join [devPath; "device"] in
  let '(pciPath, err) := filepath_EvalSymlinks deviceLink w in
  let resolved := is_nil err in
  let isPF_ := if resolved then isPF pciPath w else false in
  let isVF_ := if resolved then isVF pciPath w else false in
  let portsPath := filepath_Join [devPath; "ports"] in
  let '(portEntries, perr) := os_ReadDir portsPath w in
  ({| Name := devName;
      PCIAddress := if resolved then filepath_Base pciPath else "";
      NUMANode :=
        if resolved then readIntFile (filepath_Join [pciPath; "numa_node"]) (-1) w
        else -1;
      IsPF := isPF_;
      IsVF := isVF_;
      SRIOVTotalVFs :=
        if isPF_ then readIntFile (filepath_Join [pciPath; "sriov_totalvfs"]) 0 w
        else 0;
      SRIOVNumVFs :=
        if isPF_ then readIntFile (filepath_Join [pciPath; "sriov_numvfs"]) 0 w
        else 0;
      ParentPF :=
        if isVF_ then
          let '(pfPath, lerr) :=
            filepath_EvalSymlinks (filepath_Join [pciPath; "physfn"]) w in
          if is_nil lerr then filepath_Base pfPath else ""
        else "";
      NetDevices := findNetDevices devName w;
      NodeGUID := readStringFile (filepath_Join [devPath; "node_guid"]) w;
      PortGUIDs :=
        if is_nil perr then readPortGUIDs portsPath portEntries w else ∅
   |}, None).

Definition ListIBDevices (w : W) : list IBDeviceInfo * error :=
  let '(entries, err) := os_ReadDir sysClassInfiniband w in
  match err with
  | Some e =>
      if IsNotExist e then ([], None)
      else ([], Errorf ("read " +:+ sysClassInfiniband +:+ ": " +:+ errtext e))
  | None =>
      (omap (fun devName =>
               let '(info, ierr) := GetIBDeviceInfo devName w in
               match ierr with
               | Some _ => None
               | None => Some info
               end) entries, None)
  end.

Definition numvfs_path (pciAddr : string) : string :=
  filepath_Join [sysBusPCI; pciAddr; "sriov_numvfs"].

Definition totalvfs_path (pciAddr : string) : string :=
  filepath_Join [sysBusPCI; pciAddr; "sriov_totalvfs"].

Definition GetSRIOVTotalVFs (pciAddr : string) (w : W) : Z * error :=
  readIntFileErr (totalvfs_path pciAddr) w.

Definition GetSRIOVNumVFs (pciAddr : string) (w : W) : Z * error :=
  readIntFileErr (numvfs_path pciAddr) w.

Definition SetSRIOVNumVFs (pciAddr : string) (count : Z) (s : St W)
  : error * St W :=
  WriteFile (numvfs_path pciAddr) (Itoa count) s.

Definition ListVFs (pfPCIAddr : string) (w : W) : list string * error :=
  let pfPath := filepath_Join [sysBusPCI; pfPCIAddr] in
  let '(entries, err) := os_ReadDir pfPath w in
  match err with
  | Some e => ([], Errorf ("read " +:+ pfPath +:+ ": " +:+ errtext e))
  | None =>
      (omap (fun name =>
               if negb (HasPrefix name "virtfn") then None
               else
                 let vfLink := filepath_Join [pfPath; name] in
                 let '(vfPath, lerr) := filepath_EvalSymlinks vfLink w in
                 match lerr with
                 | Some _ => None
                 | None => Some (filepath_Base vfPath)
                 end) entries, None)
  end.

Definition GetParentPF (vfPCIAddr : string) (w : W) : string * error :=
  let physfnLink := filepath_Join [sysBusPCI; vfPCIAddr; "physfn"] in
  let '(pfPath, err) := filepath_EvalSymlinks physfnLink w in
  match err with
  | Some e =>
      ("", Errorf ("read physfn symlink for " +:+ vfPCIAddr +:+ ": " +:+ errtext e))
  | None => (filepath_Base pfPath, None)
  end.

(** The loop of [FindIBDeviceByPCI]: the first entry whose device link
    resolves to the PCI address. *)
Fixpoint findByPCI (pciAddr : string) (entries : list string) (w : W)
  : option string :=
  match entries with
  | [] => None
  | entry :: rest =>
      let devLink := filepath_Join [sysClassInfiniband; entry; "device"] in
      let '(resolved, err) := filepath_EvalSymlinks devLink w in
      match err with
      | Some _ => findByPCI pciAddr rest w
      | None =>
          if String.eqb (filepath_Base resolved) pciAddr then Some entry
          else findByPCI pciAddr rest w
      end
  end.

Definition FindIBDeviceByPCI (pciAddr : string) (w : W) : string * error :=
  let '(entries, err) := os_ReadDir sysClassInfiniband w in
  match err with
  | Some e => ("", Errorf ("read " +:+ sysClassInfiniband +:+ ": " +:+ errtext e))
  | None =>
      match findByPCI pciAddr entries w with
      | Some name => (name, None)
      | None => ("", Errorf ("no IB device found for PCI address " +:+ pciAddr))
      end
  end.

End WithHost.

End sysfs.

(* ===================================================================== *)
(** * internal/ibverbs *)
(* ===================================================================== *)

Module ibverbs.

Definition PortStateNOP : Z := 0.
Definition PortStateDown : Z := 1.
Definition PortStateInit : Z := 2.
Definition PortStateArmed : Z := 3.
Definition PortStateActive : Z := 4.

Definition PortState_String (s : Z) : string :=
  match s with
  | 1 => "Down"
  | 2 => "Init"
  | 3 => "Armed"
  | 4 => "Active"
  | _ => "Unknown"
  end.

Definition LinkSpeed_String (s : Z) : string :=
  match s with
  | 1 => "2.5Gb/s"
  | 2 => "5Gb/s"
  | 4 | 8 => "10Gb/s"
  | 16 => "14Gb/s"
  | 32 => "25Gb/s"
  | 64 => "50Gb/s"
  | 128 => "100Gb/s"
  | 256 => "200Gb/s"
  | 512 => "400Gb/s"
  | _ => Itoa s +:+ "Gb/s"
  end.

Record PortInfo := {
  PortNum : Z;
  State : Z;            (* PortState *)
  ActiveSpeed : Z;      (* LinkSpeed *)
  ActiveWidth : Z;
  LID : Z;              (* uint16 *)
  ActiveMTU : Z;
  GID : list Z;         (* [16]byte *)
  LinkLayer : string
}.

Definition EffectiveSpeed (p : PortInfo) : string :=
  let widthMultiplier :=
    match ActiveWidth p with
    | 1 => 1
    | 2 => 4
    | 4 => 8
    | 8 => 12
    | _ => 1
    end in
  let baseSpeed :=
    match ActiveSpeed p with
    | 1 => Some 2
    | 2 => Some 5
    | 4 => Some 10
    | 8 => Some 10
    | 16 => Some 14
    | 32 => Some 25
    | 64 => Some 50
    | 128 => Some 100
    | 256 => Some 200
    | _ => None
    end in
  match baseSpeed with
  | None => Itoa (int_mul (ActiveSpeed p) widthMultiplier) +:+ "Gb/s"
  | Some baseSpeed =>
      let totalSpeed := int_mul baseSpeed widthMultiplier in
      Itoa totalSpeed +:+ "Gb/s"
  end.

Record DeviceInfo := {
  Name : string;
  NodeGUID : Z;         (* uint64 *)
  FirmwareVersion : string;
  NumPorts : Z;
  Ports : list PortInfo;
  NodeType : Z;
  TransportType : Z;
  VendorID : Z;         (* uint32 *)
  DeviceID : Z          (* uint32 *)
}.

Definition NodeGUIDString (d : DeviceInfo) : string :=
  pad0 16 (FormatHex false (NodeGUID d)).

Definition mtuEnumToBytes (mtuEnum : Z) : Z :=
  match mtuEnum with
  | 1 => 256
  | 2 => 512
  | 3 => 1024
  | 4 => 2048
  | 5 => 4096
  | _ => 0
  end.

(** [enum ibv_link_layer] of infiniband/verbs.h. *)
Definition IBV_LINK_LAYER_INFINIBAND : Z := 1.
Definition IBV_LINK_LAYER_ETHERNET : Z := 2.

(** A [16]byte array filled by [copy] from the 16 raw bytes of the GID. *)
Definition gid_array (raw : list Z) : list Z :=
  take 16 ((uint8 <$> raw) ++ replicate 16 0).

Section WithHost.
Context {W : Type} `{Host W}.

Definition queryPort (ctx : ibv_device) (portNum : Z) (w : W)
  : option PortInfo * error :=
  let '(rc, attr) := query_port_compat ctx (uint8 portNum) w in
  if negb (rc =? 0) then
    (None, Errorf ("ibv_query_port failed for port " +:+ Itoa portNum
                   +:+ ": " +:+ Itoa rc))
  else
    let '(grc, raw) := ibv_query_gid ctx (uint8 portNum) 0 w in
    (Some {| PortNum := portNum;
             State := state attr;
             ActiveSpeed := active_speed attr;
             ActiveWidth := active_width attr;
             LID := uint16 (lid attr);
             ActiveMTU := mtuEnumToBytes (active_mtu attr);
             GID := if grc =? 0 then gid_array raw else replicate 16 0;
             LinkLayer :=
               if link_layer attr =? IBV_LINK_LAYER_INFINIBAND then "InfiniBand"
               else if link_layer attr =? IBV_LINK_LAYER_ETHERNET then "Ethernet"
               else "Unknown" |}, None).

(** The loop [for port := 1; port <= info.NumPorts; port++]: the ports
    whose query succeeded, in increasing order. *)
Definition queryPorts (ctx : ibv_device) (numPorts : Z) (w : W) : list PortInfo :=
  omap (fun port =>
          match queryPort ctx port w with
          | (Some portInfo, None) => Some portInfo
          | _ => None
          end) (seqZ 1 numPorts).

Definition queryDevice (dev : ibv_device) (w : W) : option DeviceInfo * error :=
  if negb (ibv_open_device dev w) then
    (None, Errorf ("ibv_open_device failed for " +:+ dev_name dev))
  else
    let name := dev_name dev in
    let '(rc, deviceAttr) := ibv_query_device dev w in
    if negb (rc =? 0) then
      (None, Errorf ("ibv_query_device failed for " +:+ name +:+ ": " +:+ Itoa rc))
    else
      let numPorts := uint8 (phys_port_cnt deviceAttr) in
      (Some {| Name := name;
               NodeGUID := uint64 (ibv_get_device_guid dev w);
               FirmwareVersion := fw_ver deviceAttr;
               NumPorts := numPorts;
               VendorID := uint32 (vendor_id deviceAttr);
               DeviceID := uint32 (vendor_part_id deviceAttr);
               NodeType := node_type dev;
               TransportType := transport_type dev;
               Ports := queryPorts dev numPorts w |}, None).

Definition ListDevices (w : W) : list DeviceInfo * error :=
  match ibv_get_device_list w with
  | None => ([], Errorf "ibv_get_device_list failed")
  | Some devSlice =>
      if (length devSlice =? 0)%nat then ([], None)
      else
        (omap (fun dev =>
                 match dev with
                 | None => None
                 | Some dev =>
                     match queryDevice dev w with
                     | (Some devInfo, None) => Some devInfo
                     | _ => None
                     end
                 end) devSlice, None)
  end.

End WithHost.

End ibverbs.

(* ===================================================================== *)
(** * internal/netns *)
(* ===================================================================== *)

Module netns.

Section WithHost.
Context {W : Type} `{Host W}.

Definition MoveNetdevToContainerNetns (netdev : string) (containerPID : Z)
  (s : St W) : error * St W :=
  (* ip link set <netdev> netns <pid> *)
  let '((output, err), s1) :=
    CombinedOutput "ip" ["link"; "set"; netdev; "netns"; Itoa containerPID] s in
  match err with
  | Some e =>
      (Errorf ("move netdev " +:+ netdev +:+ " to netns of pid "
               +:+ Itoa containerPID +:+ ": " +:+ errtext e
               +:+ " (output: " +:+ strings_TrimSpace output +:+ ")"), s1)
  | None =>
      (* bring up the interface inside the container netns *)
      let '((output, err), s2) :=
        CombinedOutput "nsenter"
          ["-t"; Itoa containerPID; "-n"; "--"; "ip"; "link"; "set"; netdev; "up"]
          s1 in
      match err with
      | Some e =>
          (Errorf ("bring up netdev " +:+ netdev +:+ " in container netns: "
                   +:+ errtext e +:+ " (output: "
                   +:+ strings_TrimSpace output +:+ ")"), s2)
      | None => (None, s2)
      end
  end.

Definition MoveNetdevToHostNetns (netdev : string) (containerPID : Z)
  (s : St W) : error * St W :=
  let '((output, err), s1) :=
    CombinedOutput "nsenter"
      ["-t"; Itoa containerPID; "-n"; "--"; "ip"; "link"; "set"; netdev; "netns"; "1"]
      s in
  match err with
  | Some e =>
      (Errorf ("move netdev " +:+ netdev +:+ " back to host netns: "
               +:+ errtext e +:+ " (output: "
               +:+ strings_TrimSpace output +:+ ")"), s1)
  | None => (None, s1)
  end.

Definition MoveRDMADevToContainerNetns (rdmaDev : string) (containerPID : Z)
  (s : St W) : error * St W :=
  (* rdma dev set <rdmaDev> netns <pid> *)
  let '((output, err), s1) :=
    CombinedOutput "rdma" ["dev"; "set"; rdmaDev; "netns"; Itoa containerPID] s in
  match err with
  | Some e =>
      (Errorf ("move RDMA device " +:+ rdmaDev +:+ " to netns of pid "
               +:+ Itoa containerPID +:+ ": " +:+ errtext e
               +:+ " (output: " +:+ strings_TrimSpace output +:+ ")"), s1)
  | None => (None, s1)
  end.

Definition EnsureRDMAExclusiveMode (s : St W) : error * St W :=
  (* Check current mode *)
  let '((output, err), s1) := CombinedOutput "rdma" ["system"] s in
  match err with
  | Some e =>
      (Errorf ("query rdma system mode: " +:+ errtext e +:+ " (output: "
               +:+ strings_TrimSpace output +:+ ")"), s1)
  | None =>
      if Contains output "exclusive" then (None, s1)
      else
        let '((output, err), s2) :=
          CombinedOutput "rdma" ["system"; "set"; "netns"; "exclusive"] s1 in
        match err with
        | Some e =>
            (Errorf ("set rdma netns exclusive: " +:+ errtext e +:+ " (output: "
                     +:+ strings_TrimSpace output +:+ ")"), s2)
        | None => (None, s2)
        end
  end.

Definition GenerateMoveNetdevCommand (pluginBinary netdev rdmaDev : string)
  : string * list string :=
  let args := ["move-netdev"; "--netdev"; netdev] in
  let args :=
    if negb (String.eqb rdmaDev "") then args ++ ["--rdma-dev"; rdmaDev] else args in
  (pluginBinary, args).

End WithHost.

End netns.

(* ===================================================================== *)
(** * internal/sriov *)
(* ===================================================================== *)

Module sriov.

(** How long to wait for VFs to appear in sysfs after creation. *)
Definition vfSettleTimeout : Z := 30 * Second.
(** How frequently to poll for VF appearance. *)
Definition vfPollInterval : Z := 500 * Millisecond.

Record PFInfo := {
  PCIAddress : string;
  IBDevName : string;
  TotalVFs : Z;
  CurrentVFs : Z
}.

Section WithHost.
Context {W : Type} `{Host W}.

Definition DiscoverSRIOVPFs (w : W) : list PFInfo * error :=
  let '(ibDevices, err) := sysfs.ListIBDevices w in
  match err with
  | Some e => ([], Errorf ("list IB devices: " +:+ errtext e))
  | None =>
      (omap (fun dev =>
               if negb (sysfs.IsPF dev) || (sysfs.SRIOVTotalVFs dev =? 0) then None
               else Some {| PCIAddress := sysfs.PCIAddress dev;
                            IBDevName := sysfs.Name dev;
                            TotalVFs := sysfs.SRIOVTotalVFs dev;
                            CurrentVFs := sysfs.SRIOVNumVFs dev |}) ibDevices,
       None)
  end.

(** The loop of [waitForVFs]. Each turn tests the clock, lists the VFs
    and sleeps; [fuel] bounds the number of turns and [None] means it
    ran out. *)
Fixpoint waitForVFs_loop (fuel : nat) (pfPCIAddr : string) (expected : Z)
  (deadline : Z) (s : St W) : option (error * St W) :=
  match fuel with
  | O => None
  | S fuel' =>
      if time_Now (world s) <? deadline then
        let '(vfs, err) := sysfs.ListVFs pfPCIAddr (world s) in
        if is_nil err && (Z.of_nat (length vfs) >=? expected) then
          Some (None, s)
        else
          waitForVFs_loop fuel' pfPCIAddr expected deadline (Sleep vfPollInterval s)
      else
        Some (Errorf ("timed out waiting for " +:+ Itoa expected
                      +:+ " VFs on PF " +:+ pfPCIAddr), s)
  end.

Definition waitForVFs (fuel : nat) (pfPCIAddr : string) (expected : Z) (s : St W)
  : option (error * St W) :=
  let deadline := time_Now (world s) + vfSettleTimeout in
  waitForVFs_loop fuel pfPCIAddr expected deadline s.

Definition ProvisionVFs (fuel : nat) (pfPCIAddr : string) (desired : Z) (s : St W)
  : option (error * St W) :=
  let '(totalVFs, err) := sysfs.GetSRIOVTotalVFs pfPCIAddr (world s) in
  match err with
  | Some e =>
      Some (Errorf ("get sriov_totalvfs for " +:+ pfPCIAddr +:+ ": " +:+ errtext e), s)
  | None =>
  if desired >? totalVFs then
    Some (Errorf ("requested " +:+ Itoa desired +:+ " VFs exceeds maximum "
                  +:+ Itoa totalVFs +:+ " for PF " +:+ pfPCIAddr), s)
  else
  let '(currentVFs, err) := sysfs.GetSRIOVNumVFs pfPCIAddr (world s) in
  match err with
  | Some e =>
      Some (Errorf ("get sriov_numvfs for " +:+ pfPCIAddr +:+ ": " +:+ errtext e), s)
  | None =>
  if currentVFs =? desired then Some (None, s)
  else
  (* Must reset to 0 before changing *)
  let '(rerr, s1) :=
    if currentVFs >? 0 then
      let '(err, s') := sysfs.SetSRIOVNumVFs pfPCIAddr 0 s in
      match err with
      | Some _ => (err, s')
      | None => (None, Sleep (1 * Second) s')   (* brief pause after destroying VFs *)
      end
    else (None, s) in
  match rerr with
  | Some e =>
      Some (Errorf ("reset sriov_numvfs to 0 for " +:+ pfPCIAddr +:+ ": "
                    +:+ errtext e), s1)
  | None =>
  let '(err, s2) := sysfs.SetSRIOVNumVFs pfPCIAddr desired s1 in
  match err with
  | Some e =>
      Some (Errorf ("set sriov_numvfs to " +:+ Itoa desired +:+ " for "
                    +:+ pfPCIAddr +:+ ": " +:+ errtext e), s2)
  | None =>
  (* Wait for VFs to appear *)
  match waitForVFs fuel pfPCIAddr desired s2 with
  | None => None
  | Some (Some e, s3) =>
      Some (Errorf ("VFs did not appear for " +:+ pfPCIAddr +:+ ": "
                    +:+ errtext e), s3)
  | Some (None, s3) => Some (None, s3)
  end
  end end end end.

Definition DestroyVFs (pfPCIAddr : string) (s : St W) : error * St W :=
  sysfs.SetSRIOVNumVFs pfPCIAddr 0 s.

Definition GetVFPCIAddresses (pfPCIAddr : string) (w : W) : list string * error :=
  sysfs.ListVFs pfPCIAddr w.

End WithHost.

End sriov.

(* ===================================================================== *)
(** * api/example.com/resource/ib/v1alpha1 *)
(* ===================================================================== *)

Module v1alpha1.

Definition MTU256 : Z := 256.
Definition MTU512 : Z := 512.
Definition MTU1024 : Z := 1024.
Definition MTU2048 : Z := 2048.
Definition MTU4096 : Z := 4096.

(** [IbMTU.Validate] *)
Definition IbMTU_Validate (m : Z) : error :=
  match m with
  | 256 | 512 | 1024 | 2048 | 4096 => None
  | _ => Errorf ("invalid IB MTU value: " +:+ Itoa m
                 +:+ ", must be one of 256, 512, 1024, 2048, 4096")
  end.

(** The three optional fields; [None] is a nil pointer. *)
Record IbConfig := {
  Pkey : option Z;           (* *uint16 *)
  TrafficClass : option Z;   (* *uint8 *)
  MTU : option Z             (* *IbMTU *)
}.

Definition DefaultIbConfig : IbConfig :=
  {| Pkey := None; TrafficClass := None; MTU := None |}.

(** [IbConfig.Normalize]; the receiver may be nil. *)
Definition Normalize (c : option IbConfig) : error :=
  match c with
  | None => Errorf "config is 'nil'"
  | Some _ => None
  end.

(** Modelled from the spec: [IbConfig.Validate], whose file
    (validate.go) is not among the sources. The spec gives the partition
    key the range 1-0xFFFF, the traffic class the range 0-255 and the MTU
    the set {256, 512, 1024, 2048, 4096}; an invalid object fails. The
    messages follow the ones the webhook test expects. *)
Definition Validate (c : option IbConfig) : error :=
  match c with
  | None => Errorf "config is 'nil'"
  | Some c =>
      let pkeyErr :=
        match Pkey c with
        | Some k =>
            if (k <? 1) || (k >? 65535) then
              Errorf ("pkey must be in range 0x0001-0xFFFF, got 0x"
                      +:+ pad0 4 (FormatHex true k))
            else None
        | None => None
        end in
      match pkeyErr with
      | Some e => Some e
      | None =>
          let tcErr :=
            match TrafficClass c with
            | Some t =>
                if (t <? 0) || (t >? 255) then
                  Errorf ("trafficClass must be in range 0-255, got " +:+ Itoa t)
                else None
            | None => None
            end in
          match tcErr with
          | Some e => Some e
          | None =>
              match MTU c with
              | Some m => IbMTU_Validate m
              | None => None
              end
          end
      end
  end.

End v1alpha1.

(* ===================================================================== *)
(** * internal/profiles/ib *)
(* ===================================================================== *)

Module ib.

Definition ProfileName := "ib".

(** The combined ibverbs + sysfs info for a single IB port. *)
Record DeviceEntry := {
  DeviceName : string;
  IBDevName : string;
  PortNum : Z;
  Type_ : string;             (* the Go field Type *)
  LinkSpeed : string;
  PortState : string;
  FirmwareVersion : string;
  NodeGUID : string;
  PortGUID : string;
  NUMANode : Z;
  PCIAddress : string;
  ParentDevice : string;
  NetDevices : list string
}.

Record Profile := {
  nodeName : string;
  numVFs : Z;
  devices : list DeviceEntry
}.

Definition NewProfile (nodeName : string) (numVFs : Z) : Profile :=
  {| nodeName := nodeName; numVFs := numVFs; devices := [] |}.

(** ** The published resources (k8s.io/api/resource/v1, resourceslice) *)

Inductive DeviceAttribute :=
| StringValue (s : string)
| IntValue (z : Z).

Record Device := {
  Name : string;
  Attributes : gmap string DeviceAttribute
}.

Record Slice := { Devices : list Device }.
Record Pool := { Slices : list Slice }.
Record DriverResources := { Pools : gmap string Pool }.

(** ** The container edits (container-device-interface) *)

Record Hook := {
  HookName : string;
  Path : string;
  Args : list string
}.

Record ContainerEdits := {
  Env : list string;
  Hooks : list Hook
}.

(** [resourceapi.DeviceRequestAllocationResult], of which only the device
    name (the Go field Device) is read. *)
Record DeviceRequestAllocationResult := { Device_ : string }.

(** [formatGID]: a 16-byte GID in colon-separated hex groups. *)
Definition formatGID (gid : list Z) : string :=
  if negb (length gid =? 16)%nat then ""
  else
    let parts :=
      (fun i : nat =>
         pad0 2 (FormatHex false (nth (i * 2) gid 0))
         +:+ pad0 2 (FormatHex false (nth (i * 2 + 1) gid 0))) <$> seq 0 8 in
    Join parts ":".

(** The device name published for a port: ["%s-port%d"]. *)
Definition deviceName (ibDevName : string) (portNum : Z) : string :=
  ibDevName +:+ "-port" +:+ Itoa portNum.

(** Step 4 of [EnumerateDevices], the body of the loop over the ports of
    one device: [si] is the sysfs record of the device, if there is one,
    and [pciToIBDev] maps PCI addresses to IB device names. *)
Definition buildEntry (pciToIBDev : gmap string string)
  (si : option sysfs.IBDeviceInfo) (ibDev : ibverbs.DeviceInfo)
  (port : ibverbs.PortInfo) : DeviceEntry :=
  {| DeviceName := deviceName (ibverbs.Name ibDev) (ibverbs.PortNum port);
     IBDevName := ibverbs.Name ibDev;
     PortNum := ibverbs.PortNum port;
     LinkSpeed := ibverbs.EffectiveSpeed port;
     PortState := ibverbs.PortState_String (ibverbs.State port);
     FirmwareVersion := ibverbs.FirmwareVersion ibDev;
     NodeGUID := ibverbs.NodeGUIDString ibDev;
     PortGUID := formatGID (ibverbs.GID port);
     NUMANode :=
       match si with
       | Some si => sysfs.NUMANode si
       | None => -1
       end;
     PCIAddress :=
       match si with
       | Some si => sysfs.PCIAddress si
       | None => ""
       end;
     NetDevices :=
       match si with
       | Some si => sysfs.NetDevices si
       | None => []
       end;
     Type_ :=
       match si with
       | Some si => if sysfs.IsVF si then "VF" else "PF"
       | None => "PF"   (* default to PF if sysfs info unavailable *)
       end;
     ParentDevice :=
       match si with
       | Some si =>
           if sysfs.IsVF si && negb (String.eqb (sysfs.ParentPF si) "") then
             match pciToIBDev !! sysfs.ParentPF si with
             | Some parentIBDev => parentIBDev
             | None => ""
             end
           else ""
       | None => ""
       end |}.

(** Step 3: the sysfs records by device name; a later record replaces an
    earlier one of the same name. *)
Definition sysfsMapOf (sysfsDevices : list sysfs.IBDeviceInfo)
  : gmap string sysfs.IBDeviceInfo :=
  foldl (fun m si => <[sysfs.Name si := si]> m) ∅ sysfsDevices.

Definition pciToIBDevOf (sysfsDevices : list sysfs.IBDeviceInfo)
  : gmap string string :=
  foldl (fun m si =>
           if negb (String.eqb (sysfs.PCIAddress si) "") then
             <[sysfs.PCIAddress si := sysfs.Name si]> m
           else m) ∅ sysfsDevices.

(** Step 4: one entry per port of every device, in traversal order. *)
Definition buildEntries (ibDevices : list ibverbs.DeviceInfo)
  (sysfsDevices : list sysfs.IBDeviceInfo) : list DeviceEntry :=
  let sysfsMap := sysfsMapOf sysfsDevices in
  let pciToIBDev := pciToIBDevOf sysfsDevices in
  ibDevices ≫= (fun ibDev =>
    let si := sysfsMap !! ibverbs.Name ibDev in
    buildEntry pciToIBDev si ibDev <$> ibverbs.Ports ibDev).

(** Step 5: the published device of an entry. *)
Definition publish (e : DeviceEntry) : Device :=
  let attrs : gmap string DeviceAttribute :=
    <["pciAddress" := StringValue (PCIAddress e)]>
    (<["numaNode" := IntValue (NUMANode e)]>
    (<["portGUID" := StringValue (PortGUID e)]>
    (<["nodeGUID" := StringValue (NodeGUID e)]>
    (<["firmwareVersion" := StringValue (FirmwareVersion e)]>
    (<["portState" := StringValue (PortState e)]>
    (<["linkSpeed" := StringValue (LinkSpeed e)]>
    (<["type" := StringValue (Type_ e)]> ∅))))))) in
  {| Name := DeviceName e;
     Attributes :=
       if negb (String.eqb (ParentDevice e) "") then
         <["parentDevice" := StringValue (ParentDevice e)]> attrs
       else attrs |}.

(** [GetDeviceEntryByName] *)
Definition GetDeviceEntryByName (p : Profile) (name : string) : option DeviceEntry :=
  list_find (fun d => DeviceName d = name) (devices p) ≫= fun r => Some r.2.

(** ** Config applier *)

Definition hookPath := "/usr/bin/dra-example-kubeletplugin".

(** The body of the loop of [applyIbConfig]: the edits of the [i]-th
    allocation result. *)
Definition deviceEdits (config : v1alpha1.IbConfig) (i : Z)
  (result : DeviceRequestAllocationResult) : ContainerEdits :=
  let pre := "IB_DEVICE_" +:+ Itoa i in
  let envs := [pre +:+ "=" +:+ Device_ result] in
  (* Parse IB device name and port from the device name *)
  let parts := SplitN2 (Device_ result) "-port" in
  let envs :=
    if (length parts =? 2)%nat then
      (envs ++ [pre +:+ "_IBDEV=" +:+ nth 0 parts "";
                pre +:+ "_PORT=" +:+ nth 1 parts ""])%list
    else envs in
  (* Config-specific env vars *)
  let envs :=
    match v1alpha1.Pkey config with
    | Some pkey => (envs ++ [pre +:+ "_PKEY=0x" +:+ pad0 4 (FormatHex true pkey)])%list
    | None => envs
    end in
  let envs :=
    match v1alpha1.TrafficClass config with
    | Some tc => (envs ++ [pre +:+ "_TRAFFIC_CLASS=" +:+ Itoa tc])%list
    | None => envs
    end in
  let envs :=
    match v1alpha1.MTU config with
    | Some mtu => (envs ++ [pre +:+ "_MTU=" +:+ Itoa mtu])%list
    | None => envs
    end in
  {| Env := envs;
     Hooks :=
       if (length parts =? 2)%nat then
         let ibDevName := nth 0 parts "" in
         [ {| HookName := "createRuntime";
              Path := hookPath;
              Args := [hookPath; "move-netdev"; "--ib-dev"; ibDevName] |} ]
       else [] |}.

(** [for i, result := range results]: the edits are stored under the
    device name, so a later result of the same name replaces an earlier
    one. *)
Fixpoint applyIbConfig_loop (config : v1alpha1.IbConfig) (i : Z)
  (results : list DeviceRequestAllocationResult)
  (perDeviceEdits : gmap string ContainerEdits) : gmap string ContainerEdits :=
  match results with
  | [] => perDeviceEdits
  | result :: rest =>
      applyIbConfig_loop config (i + 1) rest
        (<[Device_ result := deviceEdits config i result]> perDeviceEdits)
  end.

(** [applyIbConfig]; the configuration is a pointer and may be nil, the
    map is nil when an error is returned. *)
Definition applyIbConfig (config : option v1alpha1.IbConfig)
  (results : list DeviceRequestAllocationResult)
  : option (gmap string ContainerEdits) * error :=
  match v1alpha1.Normalize config with
  | Some e => (None, Errorf ("error normalizing IB config: " +:+ errtext e))
  | None =>
      match v1alpha1.Validate config with
      | Some e => (None, Errorf ("error validating IB config: " +:+ errtext e))
      | None =>
          match config with
          | Some c => (Some (applyIbConfig_loop c 0 results ∅), None)
          | None => (None, Errorf "error normalizing IB config: config is 'nil'")
          end
      end
  end.

(** A [runtime.Object]: a pointer to an [IbConfig], which may be nil, or
    an object of another type. *)
Inductive Object :=
| IbConfigObject (c : option v1alpha1.IbConfig)
| OtherObject (typeName : string).

(** [ApplyConfig]; [None] is the nil interface value. *)
Definition ApplyConfig (config : option Object)
  (results : list DeviceRequestAllocationResult)
  : option (gmap string ContainerEdits) * error :=
  let config :=
    match config with
    | None => IbConfigObject (Some v1alpha1.DefaultIbConfig)
    | Some o => o
    end in
  match config with
  | IbConfigObject c => applyIbConfig c results
  | OtherObject _ => (None, Errorf "runtime object is not a recognized configuration")
  end.

Section WithHost.
Context {W : Type} `{Host W}.

(** ** VF auto-provisioning *)

(** The loop of [provisionVFs] over the discovered PFs. *)
Fixpoint provisionVFs_loop (fuel : nat) (numVFs : Z) (pfs : list sriov.PFInfo)
  (s : St W) : option (error * St W) :=
  match pfs with
  | [] => Some (None, s)
  | pf :: rest =>
      let desired :=
        if numVFs >? sriov.TotalVFs pf then sriov.TotalVFs pf else numVFs in
      match sriov.ProvisionVFs fuel (sriov.PCIAddress pf) desired s with
      | None => None
      | Some (Some e, s') =>
          Some (Errorf ("provision VFs on " +:+ sriov.PCIAddress pf +:+ ": "
                        +:+ errtext e), s')
      | Some (None, s') => provisionVFs_loop fuel numVFs rest s'
      end
  end.

Definition provisionVFs (fuel : nat) (p : Profile) (s : St W)
  : option (error * St W) :=
  let '(pfs, err) := sriov.DiscoverSRIOVPFs (world s) in
  match err with
  | Some e => Some (Errorf ("discover SR-IOV PFs: " +:+ errtext e), s)
  | None =>
      if (length pfs =? 0)%nat then Some (None, s)
      else provisionVFs_loop fuel (numVFs p) pfs s
  end.

(** ** Enumeration *)

Definition noResources : DriverResources := {| Pools := ∅ |}.

(** Steps 2 to 5 of [EnumerateDevices], which observe the host and
    change nothing on it: the published resources and the error, and the
    profile with its new snapshot. *)
Definition enumerateExisting (p : Profile) (w : W)
  : DriverResources * error * Profile :=
  (* Step 2: discover all IB devices using ibverbs *)
  let '(ibDevices, err) := ibverbs.ListDevices w in
  match err with
  | Some e => (noResources, Errorf ("ibverbs.ListDevices: " +:+ errtext e), p)
  | None =>
      if (length ibDevices =? 0)%nat then (noResources, None, p)
      else
        (* Step 3: augment with sysfs info; an error leaves no records *)
        let '(sysfsDevices, _) := sysfs.ListIBDevices w in
        (* Step 4: build device entries *)
        let entries := buildEntries ibDevices sysfsDevices in
        (* Step 5: build DRA DriverResources *)
        let devs := publish <$> entries in
        ({| Pools :=
              {[ nodeName p := {| Slices := [ {| Devices := devs |} ] |} ]} |},
         None,
         {| nodeName := nodeName p; numVFs := numVFs p; devices := entries |})
  end.

(** [EnumerateDevices]. Step 1 provisions the VFs when [numVFs > 0]; its
    error is logged and does not end the enumeration. *)
Definition EnumerateDevices (fuel : nat) (p : Profile) (s : St W)
  : option (DriverResources * error * Profile * St W) :=
  (* Step 1: auto-provision VFs on SR-IOV capable PFs *)
  let step1 :=
    if numVFs p >? 0 then provisionVFs fuel p s else Some (None, s) in
  match step1 with
  | None => None
  | Some (_, s1) => Some (enumerateExisting p (world s1), s1)
  end.

(** ** The hook helper *)

(** The loop of [MoveNetdevHookHelper] over the network devices. *)
Fixpoint moveNetdevs (netDevs : list string) (containerPID : Z) (s : St W)
  : error * St W :=
  match netDevs with
  | [] => (None, s)
  | netDev :: rest =>
      let '(err, s') := netns.MoveNetdevToContainerNetns netDev containerPID s in
      match err with
      | Some e =>
          (Errorf ("move netdev " +:+ netDev +:+ ": " +:+ errtext e), s')
      | None => moveNetdevs rest containerPID s'
      end
  end.

Definition MoveNetdevHookHelper (ibDevName : string) (containerPID : Z) (s : St W)
  : error * St W :=
  (* Find network devices for this IB device *)
  let '(devInfo, err) := sysfs.GetIBDeviceInfo ibDevName (world s) in
  match err with
  | Some e =>
      (Errorf ("get sysfs info for " +:+ ibDevName +:+ ": " +:+ errtext e), s)
  | None =>
      let '(err, s1) := moveNetdevs (sysfs.NetDevices devInfo) containerPID s in
      match err with
      | Some e => (Some e, s1)
      | None =>
          (* Move RDMA device: a failure is logged, non-fatal *)
          let '(_, s2) :=
            netns.MoveRDMADevToContainerNetns ibDevName containerPID s1 in
          (None, s2)
      end
  end.

End WithHost.

End ib.

(* ===================================================================== *)
(** * cmd/dra-example-kubeletplugin *)
(* ===================================================================== *)

Module kubeletplugin.

(** The minimal OCI runtime state passed to hooks on stdin. *)
Record ociState := { Pid : Z }.

Section WithHost.
Context {W : Type} `{Host W}.

(** The action of the [move-netdev] subcommand. [decoded] is what
    decoding the JSON on stdin gave: the state and the error. *)
Definition moveNetdevAction (ibDevName : string) (decoded : ociState * error)
  (s : St W) : error * St W :=
  let '(state, err) := decoded in
  match err with
  | Some e => (Errorf ("decode OCI state from stdin: " +:+ errtext e), s)
  | None =>
      if Pid state =? 0 then
        (Errorf "container PID is 0 — cannot move netdev", s)
      else ib.MoveNetdevHookHelper ibDevName (Pid state) s
  end.

End WithHost.

End kubeletplugin.

(* ===================================================================== *)
(** * Assumptions on the host *)
(* ===================================================================== *)

Module laws.

Section WithHost.
Context {W : Type} `{Host W}.

(** [time.Sleep d] returns after at least [d] on the monotonic clock. *)
Definition SleepAdvances : Prop :=
  forall d w, time_Now w + d <= time_Now (time_Sleep d w).

(** After a successful write of [n] to the [sriov_numvfs] file of a PF,
    the file reads [n]. *)
Definition NumVFsReadBack (pciAddr : string) (n : Z) : Prop :=
  forall w w',
    os_WriteFile (sysfs.numvfs_path pciAddr) (Itoa n) w = (None, w') ->
    sysfs.GetSRIOVNumVFs pciAddr w' = (n, None).

(** Sleeping changes neither control file of a PF. *)
Definition SleepKeepsVFCounts (pciAddr : string) : Prop :=
  forall d w,
    sysfs.GetSRIOVNumVFs pciAddr (time_Sleep d w) = sysfs.GetSRIOVNumVFs pciAddr w /\
    sysfs.GetSRIOVTotalVFs pciAddr (time_Sleep d w) = sysfs.GetSRIOVTotalVFs pciAddr w.

(** The capacity of a PF does not change when a count is written to
    its [sriov_numvfs] file. *)
Definition WriteKeepsTotalVFs (pciAddr : string) : Prop :=
  forall n w,
    sysfs.GetSRIOVTotalVFs pciAddr
      (os_WriteFile (sysfs.numvfs_path pciAddr) (Itoa n) w).2
    = sysfs.GetSRIOVTotalVFs pciAddr w.

(** In world [w], libibverbs lists every device once: no two entries
    of the device list have the same name. *)
Definition DeviceNamesUnique (w : W) : Prop :=
  forall devSlice,
    ibv_get_device_list w = Some devSlice ->
    NoDup (dev_name <$> omap id devSlice).

(** [filepath.Join] joins its elements in any grouping. *)
Definition JoinNested : Prop :=
  forall a b c,
    filepath_Join [filepath_Join [a; b]; c] = filepath_Join [a; b; c].

End WithHost.

End laws.

(* ===================================================================== *)
(** * A simulated host, for running the driver on concrete machines *)
(* ===================================================================== *)

Module sim.

(** One InfiniBand device as libibverbs shows it. *)
Record Verbs := {
  v_dev : ibv_device;
  v_attr : ibv_device_attr;
  v_guid : Z;
  v_ports : list (Z * ibv_port_attr)      (* the ports that answer *)
}.

Record World := {
  files : gmap string string;             (* regular files *)
  dirs : gmap string (list string);       (* directories and their entries *)
  links : gmap string string;             (* symbolic links, resolved *)
  clock : Z;
  readonly : list string;                 (* files that refuse writes *)
  vf_limit : option Z;                    (* the kernel creates no more VFs *)
  broken : list string;                   (* programs that exit with an error *)
  verbs : list Verbs
}.

Definition enoent (op path : string) : error :=
  Some {| Error := op +:+ " " +:+ path +:+ ": no such file or directory";
          IsNotExist := true |}.

Definition eacces (op path : string) : error :=
  Some {| Error := op +:+ " " +:+ path +:+ ": permission denied";
          IsNotExist := false |}.

(** The text before and after the last slash. *)
Fixpoint split_last (s : string) : option (string * string) :=
  match s with
  | "" => None
  | String c s' =>
      match split_last s' with
      | Some (d, b) => Some (String c d, b)
      | None => if Ascii.eqb c "/" then Some ("", s') else None
      end
  end.

Definition Base (p : string) : string :=
  match split_last p with Some (_, b) => b | None => p end.

Definition Dir (p : string) : string :=
  match split_last p with Some (d, _) => d | None => "." end.

Definition is_space (c : ascii) : bool :=
  let n := nat_of_ascii c in
  ((9 <=? n) && (n <=? 13))%nat || (n =? 32)%nat.

Fixpoint trim_left (s : string) : string :=
  match s with
  | "" => ""
  | String c s' => if is_space c then trim_left s' else s
  end.

Definition TrimSpace (s : string) : string :=
  String.rev (trim_left (String.rev (trim_left s))).

Definition Atoi (s : string) : Z * error :=
  match NilZero.int_of_string s with
  | Some d =>
      let z := Z.of_int d in
      if (z <? - 2 ^ 63) || (z >=? 2 ^ 63) then
        (0, Errorf ("strconv.Atoi: parsing " +:+ s +:+ ": value out of range"))
      else (z, None)
  | None => (0, Errorf ("strconv.Atoi: parsing " +:+ s +:+ ": invalid syntax"))
  end.

Definition exists_ (p : string) (w : World) : bool :=
  bool_decide (is_Some (files w !! p)) || bool_decide (is_Some (dirs w !! p))
  || bool_decide (is_Some (links w !! p)).

Definition virtfn (k : Z) : string := "virtfn" +:+ Itoa k.

(** What the kernel does when [count] is written to [dir/sriov_numvfs]:
    the old [virtfn] links go, and [count] new ones appear, up to the
    limit of the machine. *)
Definition set_numvfs (dir : string) (count : Z) (w : World) : World :=
  let made :=
    match vf_limit w with
    | Some l => Z.min count l
    | None => count
    end in
  let names := virtfn <$> seqZ 0 made in
  let others :=
    filter (fun e => HasPrefix e "virtfn" = false) (default [] (dirs w !! dir)) in
  {| files := files w;
     dirs := <[dir := (others ++ names)%list]> (dirs w);
     links :=
       foldr (fun n m => <[dir +:+ "/" +:+ n := "/sys/devices/" +:+ n]> m)
             (links w) names;
     clock := clock w; readonly := readonly w; vf_limit := vf_limit w;
     broken := broken w; verbs := verbs w |}.

Definition write (path data : string) (w : World) : error * World :=
  if bool_decide (path ∈ readonly w) then (eacces "open" path, w)
  else
    let w1 :=
      {| files := <[path := data]> (files w);
         dirs := dirs w; links := links w; clock := clock w;
         readonly := readonly w; vf_limit := vf_limit w;
         broken := broken w; verbs := verbs w |} in
    if String.eqb (Base path) "sriov_numvfs" then
      match Atoi (TrimSpace data) with
      | (count, None) => (None, set_numvfs (Dir path) count w1)
      | (_, Some _) => (None, w1)
      end
    else (None, w1).

Definition sleep (d : Z) (w : World) : World :=
  {| files := files w; dirs := dirs w; links := links w;
     clock := clock w + Z.max 0 d;
     readonly := readonly w; vf_limit := vf_limit w;
     broken := broken w; verbs := verbs w |}.

Definition find_verbs (dev : ibv_device) (w : World) : option Verbs :=
  (list_find (fun v => dev_name (v_dev v) = dev_name dev) (verbs w)) ≫=
    fun r => Some r.2.

Definition no_attr : ibv_device_attr :=
  {| fw_ver := ""; phys_port_cnt := 0; vendor_id := 0; vendor_part_id := 0 |}.

Definition no_port : ibv_port_attr :=
  {| state := 0; active_mtu := 0; active_speed := 0; active_width := 0;
     lid := 0; link_layer := 0 |}.

#[export] Instance sim_host : Host World := {|
  filepath_Join := String.concat "/";
  filepath_Base := Base;
  strings_TrimSpace := TrimSpace;
  strconv_Atoi := Atoi;
  os_ReadFile p w :=
    match files w !! p with
    | Some c => (c, None)
    | None => ("", enoent "open" p)
    end;
  os_ReadDir p w :=
    match dirs w !! p with
    | Some es => (es, None)
    | None => ([], enoent "open" p)
    end;
  os_Stat p w := if exists_ p w then None else enoent "stat" p;
  os_Lstat p w := if exists_ p w then None else enoent "lstat" p;
  filepath_EvalSymlinks p w :=
    match links w !! p with
    | Some t => (t, None)
    | None => if exists_ p w then (p, None) else ("", enoent "lstat" p)
    end;
  time_Now := clock;
  os_WriteFile := write;
  time_Sleep := sleep;
  exec_CombinedOutput name args w :=
    if bool_decide (name ∈ broken w)
    then (("", Some {| Error := "exit status 1"; IsNotExist := false |}), w)
    else (("", None), w);
  ibv_get_device_list w := Some ((fun v => Some (v_dev v)) <$> verbs w);
  ibv_open_device dev w := bool_decide (is_Some (find_verbs dev w));
  ibv_query_device dev w :=
    match find_verbs dev w with
    | Some v => (0, v_attr v)
    | None => (-1, no_attr)
    end;
  ibv_get_device_guid dev w :=
    match find_verbs dev w with
    | Some v => v_guid v
    | None => 0
    end;
  query_port_compat dev port w :=
    match find_verbs dev w ≫= fun v => (list_to_map (v_ports v) : gmap Z _) !! port with
    | Some a => (0, a)
    | None => (-1, no_port)
    end;
  ibv_query_gid dev port index w := (0, replicate 16 0)
|}.

End sim.

(* ===================================================================== *)
(** * Concrete machines *)
(* ===================================================================== *)

Module machines.
Import sim.

Definition nl : string := String (ascii_of_nat 10) "".

(** A physical function: IB device name, PCI address, capacity and
    current number of VFs. *)
Record PF := { pf_name : string; pf_pci : string; pf_total : Z; pf_current : Z }.

Definition pcidir (pci : string) : string := sysfs.sysBusPCI +:+ "/" +:+ pci.
Definition ibdir (name : string) : string := sysfs.sysClassInfiniband +:+ "/" +:+ name.

Definition pf_files (pf : PF) : list (string * string) :=
  [ (pcidir (pf_pci pf) +:+ "/sriov_totalvfs", Itoa (pf_total pf) +:+ nl);
    (pcidir (pf_pci pf) +:+ "/sriov_numvfs", Itoa (pf_current pf) +:+ nl);
    (pcidir (pf_pci pf) +:+ "/numa_node", "0" +:+ nl);
    (ibdir (pf_name pf) +:+ "/node_guid", "0002:c903:0000:0001" +:+ nl) ].

Definition pf_dirs (pf : PF) : list (string * list string) :=
  [ (pcidir (pf_pci pf),
     (["sriov_totalvfs"; "sriov_numvfs"; "numa_node"]
      ++ (virtfn <$> seqZ 0 (pf_current pf)))%list);
    (ibdir (pf_name pf) +:+ "/ports", ["1"]);
    (ibdir (pf_name pf) +:+ "/device/net", ["ib_" +:+ pf_name pf]) ].

Definition pf_links (pf : PF) : list (string * string) :=
  (ibdir (pf_name pf) +:+ "/device", pcidir (pf_pci pf))
  :: ((fun k => (pcidir (pf_pci pf) +:+ "/" +:+ virtfn k,
                 "/sys/devices/" +:+ virtfn k)) <$> seqZ 0 (pf_current pf)).

Definition port_active (speed width : Z) : ibv_port_attr :=
  {| state := 4; active_mtu := 5; active_speed := speed; active_width := width;
     lid := 1; link_layer := 1 |}.

Definition hca (name : string) (ports : list (Z * ibv_port_attr)) : Verbs :=
  {| v_dev := {| dev_name := name; node_type := 1; transport_type := 0 |};
     v_attr := {| fw_ver := "20.31.1014"; phys_port_cnt := 2;
                  vendor_id := 713; vendor_part_id := 4123 |};
     v_guid := 50;
     v_ports := ports |}.

(** A machine with the given PFs, at time 0. *)
Definition machine (pfs : list PF) (ro : list string) (limit : option Z)
  (brk : list string) (vs : list Verbs) : World :=
  {| files := list_to_map (pfs ≫= pf_files);
     dirs := <[sysfs.sysClassInfiniband := pf_name <$> pfs]>
               (list_to_map (pfs ≫= pf_dirs));
     links := list_to_map (pfs ≫= pf_links);
     clock := 0;
     readonly := ro;
     vf_limit := limit;
     broken := brk;
     verbs := vs |}.

Definition boot (w : World) : St World := MkSt w [].

Definition pfA : PF :=
  {| pf_name := "mlx5_0"; pf_pci := "0000:3b:00.0"; pf_total := 8; pf_current := 4 |}.
Definition pfB : PF :=
  {| pf_name := "mlx5_1"; pf_pci := "0000:5e:00.0"; pf_total := 8; pf_current := 0 |}.

(** One PF with 4 of 8 VFs; the kernel creates what is asked. *)
Definition one_pf : World := machine [pfA] [] None [] [hca "mlx5_0" [(1, port_active 32 2)]].

(** The same, on a kernel that gets only one VF up. *)
Definition one_pf_stuck : World :=
  machine [pfA] [] (Some 1) [] [hca "mlx5_0" [(1, port_active 32 2)]].

(** Two PFs; the control file of the first one refuses writes. *)
Definition two_pfs_first_readonly : World :=
  machine [pfA; pfB] [pcidir "0000:3b:00.0" +:+ "/sriov_numvfs"] None []
    [hca "mlx5_0" [(1, port_active 32 2)]; hca "mlx5_1" [(1, port_active 32 2)]].

(** The state a computation ends in ([s] if it runs out of fuel). *)
Definition final {A : Type} (s : St World) (r : option (A * St World)) : St World :=
  match r with
  | Some (_, s') => s'
  | None => s
  end.

(** [one_pf] after its PF was resized to 2 VFs, and the same on the
    stuck kernel. *)
Definition resized : St World :=
  Eval vm_compute in
  final (boot one_pf) (sriov.ProvisionVFs 61 "0000:3b:00.0" 2 (boot one_pf)).
Definition resized_stuck : St World :=
  Eval vm_compute in
  final (boot one_pf_stuck)
    (sriov.ProvisionVFs 61 "0000:3b:00.0" 2 (boot one_pf_stuck)).

(** The fleet of [two_pfs_first_readonly] provisioned with 2 VFs per PF:
    where the pass ends, and where a call for the second PF would lead
    from there. *)
Definition halted : St World :=
  Eval vm_compute in
  final (boot two_pfs_first_readonly)
    (ib.provisionVFs 61 (ib.NewProfile "node-1" 2) (boot two_pfs_first_readonly)).
Definition second_pf_done : St World :=
  Eval vm_compute in
  final halted (sriov.ProvisionVFs 61 "0000:5e:00.0" 2 halted).

(** A machine on which libibverbs shows an adapter, [mlx5_9] with two
    ports, that sysfs does not know. *)
Definition orphan_hca : World :=
  machine [pfA] [] None []
    [hca "mlx5_0" [(1, port_active 32 2)];
     hca "mlx5_9" [(1, port_active 32 2); (2, port_active 4 1)]].

Definition no_device : ibverbs.DeviceInfo :=
  {| ibverbs.Name := ""; ibverbs.NodeGUID := 0; ibverbs.FirmwareVersion := "";
     ibverbs.NumPorts := 0; ibverbs.Ports := []; ibverbs.NodeType := 0;
     ibverbs.TransportType := 0; ibverbs.VendorID := 0; ibverbs.DeviceID := 0 |}.

(** The two devices [ListDevices] reports on it. *)
Definition known_device : ibverbs.DeviceInfo :=
  Eval vm_compute in nth 0 (ibverbs.ListDevices orphan_hca).1 no_device.
Definition orphan_device : ibverbs.DeviceInfo :=
  Eval vm_compute in nth 1 (ibverbs.ListDevices orphan_hca).1 no_device.

(** [one_pf] on a kernel without RDMA namespaces (the [rdma] tool
    fails), and on a host whose [nsenter] fails. *)
Definition rdma_unsupported : World :=
  machine [pfA] [] None ["rdma"] [hca "mlx5_0" [(1, port_active 32 2)]].
Definition nsenter_broken : World :=
  machine [pfA] [] None ["nsenter"] [hca "mlx5_0" [(1, port_active 32 2)]].

(** A configuration with a partition key, and two allocation results:
    a published port and a name without port. *)
Definition pkey_8001 : v1alpha1.IbConfig :=
  {| v1alpha1.Pkey := Some 32769; v1alpha1.TrafficClass := None;
     v1alpha1.MTU := None |}.
Definition two_results : list ib.DeviceRequestAllocationResult :=
  [ {| ib.Device_ := "mlx5_1-port2" |}; {| ib.Device_ := "gpu0" |} ].

(** A virtual machine: no InfiniBand class directory at all. *)
Definition vm_host : World :=
  {| files := ∅; dirs := ∅; links := ∅; clock := 0; readonly := [];
     vf_limit := None; broken := []; verbs := [] |}.

(** A machine whose only PF has no VF yet. *)
Definition fresh_pf : World :=
  machine [pfB] [] None [] [hca "mlx5_1" [(1, port_active 32 2)]].

(** Two sysfs records, a PF and one of its VFs, and the VF as libibverbs
    shows it. *)
Definition pf_record : sysfs.IBDeviceInfo :=
  {| sysfs.Name := "mlx5_0"; sysfs.PCIAddress := "0000:3b:00.0";
     sysfs.NUMANode := 1; sysfs.IsPF := true; sysfs.IsVF := false;
     sysfs.SRIOVTotalVFs := 8; sysfs.SRIOVNumVFs := 1; sysfs.ParentPF := "";
     sysfs.NetDevices := ["ib0"]; sysfs.NodeGUID := ""; sysfs.PortGUIDs := ∅ |}.
Definition vf_record : sysfs.IBDeviceInfo :=
  {| sysfs.Name := "mlx5_2"; sysfs.PCIAddress := "0000:3b:00.1";
     sysfs.NUMANode := 1; sysfs.IsPF := false; sysfs.IsVF := true;
     sysfs.SRIOVTotalVFs := 0; sysfs.SRIOVNumVFs := 0;
     sysfs.ParentPF := "0000:3b:00.0";
     sysfs.NetDevices := ["ib2"]; sysfs.NodeGUID := ""; sysfs.PortGUIDs := ∅ |}.

(** A QDR port, one lane wide. *)
Definition qdr_1x : ibverbs.PortInfo :=
  {| ibverbs.PortNum := 1; ibverbs.State := 4; ibverbs.ActiveSpeed := 4;
     ibverbs.ActiveWidth := 1; ibverbs.LID := 1; ibverbs.ActiveMTU := 4096;
     ibverbs.GID := replicate 16 0; ibverbs.LinkLayer := "InfiniBand" |}.

Definition vf_device : ibverbs.DeviceInfo :=
  {| ibverbs.Name := "mlx5_2"; ibverbs.NodeGUID := 51;
     ibverbs.FirmwareVersion := "20.31.1014"; ibverbs.NumPorts := 1;
     ibverbs.Ports := [qdr_1x]; ibverbs.NodeType := 1;
     ibverbs.TransportType := 0; ibverbs.VendorID := 713;
     ibverbs.DeviceID := 4124 |}.

(** An EDR port, four lanes wide. *)
Definition edr_4x : ibverbs.PortInfo :=
  {| ibverbs.PortNum := 1; ibverbs.State := 4; ibverbs.ActiveSpeed := 32;
     ibverbs.ActiveWidth := 2; ibverbs.LID := 1; ibverbs.ActiveMTU := 4096;
     ibverbs.GID := replicate 16 0; ibverbs.LinkLayer := "InfiniBand" |}.

(** The entries built for the VF from the two records. *)
Definition vf_entries : list ib.DeviceEntry :=
  Eval vm_compute in ib.buildEntries [vf_device] [pf_record; vf_record].
Definition no_entry : ib.DeviceEntry :=
  {| ib.DeviceName := ""; ib.IBDevName := ""; ib.PortNum := 0; ib.Type_ := "";
     ib.LinkSpeed := ""; ib.PortState := ""; ib.FirmwareVersion := "";
     ib.NodeGUID := ""; ib.PortGUID := ""; ib.NUMANode := 0;
     ib.PCIAddress := ""; ib.ParentDevice := ""; ib.NetDevices := [] |}.
Definition vf_entry : ib.DeviceEntry :=
  Eval vm_compute in nth 0 vf_entries no_entry.

(** What an enumeration on [orphan_hca] returns, and the first device
    it publishes. *)
Definition orphan_result : ib.DriverResources * error * ib.Profile :=
  Eval vm_compute in ib.enumerateExisting (ib.NewProfile "node-1" 0) orphan_hca.
Definition orphan_published : list ib.Device :=
  Eval vm_compute in ib.publish <$> ib.devices orphan_result.2.
Definition first_published : ib.Device :=
  Eval vm_compute in nth 0 orphan_published (ib.publish no_entry).

(** [one_pf] after the hook helper moved the interface of [mlx5_0] into
    the namespace of process 4242. *)
Definition hooked : St World :=
  Eval vm_compute in (ib.MoveNetdevHookHelper "mlx5_0" 4242 (boot one_pf)).2.

(** [one_pf] after its VFs were destroyed. *)
Definition destroyed : St World :=
  Eval vm_compute in (sriov.DestroyVFs "0000:3b:00.0" (boot one_pf)).2.

End machines.

(* ===================================================================== *)
(** * The specification's own tables *)
(* ===================================================================== *)

Module spec.

Fixpoint assoc (tbl : list (Z * Z)) (k : Z) : option Z :=
  match tbl with
  | [] => None
  | (k', v) :: tbl' => if k =? k' then Some v else assoc tbl' k
  end.

(** Width code to lane multiplier: 1x, 4x, 8x, 12x. *)
Definition lane_multipliers : list (Z * Z) :=
  [(1, 1); (2, 4); (4, 8); (8, 12)].

(** Speed code to base rate in Gb/s, for the standard generation codes. *)
Definition base_rates : list (Z * Z) :=
  [(1, 2); (2, 5); (4, 10); (8, 10); (16, 14); (32, 25); (64, 50);
   (128, 100); (256, 200)].

(** A width code outside the table counts as one lane. *)
Definition lane_multiplier (width : Z) : Z :=
  default 1 (assoc lane_multipliers width).

(** base x multiplier, or code x multiplier for a speed code outside the
    table, as ["<N>Gb/s"]. *)
Definition effective_speed (speed width : Z) : string :=
  match assoc base_rates speed with
  | Some base => Itoa (base * lane_multiplier width) +:+ "Gb/s"
  | None => Itoa (speed * lane_multiplier width) +:+ "Gb/s"
  end.

(** [name] reads [adapter], then "-port", then [port], and no "-port"
    starts before that one. *)
Definition splits (name adapter port : string) : Prop :=
  name = adapter +:+ "-port" +:+ port
  /\ forall a p, name = a +:+ "-port" +:+ p ->
                 (String.length adapter <= String.length a)%nat.

(** [name] contains "-port". *)
Definition has_separator (name : string) : Prop :=
  exists a p, name = a +:+ "-port" +:+ p.

(** Four upper-case hexadecimal digits. *)
Definition hex4 (k : Z) : string :=
  String (hexdigit true (k / 4096 mod 16))
    (String (hexdigit true (k / 256 mod 16))
       (String (hexdigit true (k / 16 mod 16))
          (String (hexdigit true (k mod 16)) ""))).

(** The environment of the allocated device at position [i]: the
    positional variable; the adapter and port variables when the name
    parsed; then, for each field that is set, the partition key as 0x and
    four hex digits, the traffic class and the MTU in decimal. *)
Definition environment (config : v1alpha1.IbConfig) (i : Z) (name : string)
  (parsed : option (string * string)) : list string :=
  ["IB_DEVICE_" +:+ Itoa i +:+ "=" +:+ name]
  ++ match parsed with
     | Some (adapter, port) =>
         ["IB_DEVICE_" +:+ Itoa i +:+ "_IBDEV=" +:+ adapter;
          "IB_DEVICE_" +:+ Itoa i +:+ "_PORT=" +:+ port]
     | None => []
     end
  ++ match v1alpha1.Pkey config with
     | Some k => ["IB_DEVICE_" +:+ Itoa i +:+ "_PKEY=0x" +:+ hex4 k]
     | None => []
     end
  ++ match v1alpha1.TrafficClass config with
     | Some tc => ["IB_DEVICE_" +:+ Itoa i +:+ "_TRAFFIC_CLASS=" +:+ Itoa tc]
     | None => []
     end
  ++ match v1alpha1.MTU config with
     | Some mtu => ["IB_DEVICE_" +:+ Itoa i +:+ "_MTU=" +:+ Itoa mtu]
     | None => []
     end.

(** The deferred isolation hook of an adapter: the driver's own binary,
    run at createRuntime with the device-move selector and the adapter. *)
Definition isolation_hook (adapter : string) : ib.Hook :=
  {| ib.HookName := "createRuntime";
     ib.Path := "/usr/bin/dra-example-kubeletplugin";
     ib.Args := ["/usr/bin/dra-example-kubeletplugin"; "move-netdev";
                 "--ib-dev"; adapter] |}.

Section WithHost.
Context {W : Type} `{Host W}.

(** A poll of the PF's directory in world [w] shows at least [expected]
    VF entries. *)
Definition observes (pfPCIAddr : string) (expected : Z) (w : W) : bool :=
  let '(vfs, err) := sysfs.ListVFs pfPCIAddr w in
  is_nil err && (Z.of_nat (length vfs) >=? expected).

(** The state at the [k]-th poll after [s]: [k] poll intervals later. *)
Definition poll_state (s : St W) (k : nat) : St W :=
  Nat.iter k (Sleep sriov.vfPollInterval) s.

(** The error of a poll that ran into the settle timeout. *)
Definition timed_out (pfPCIAddr : string) (expected : Z) : string :=
  "VFs did not appear for " +:+ pfPCIAddr +:+ ": timed out waiting for "
  +:+ Itoa expected +:+ " VFs on PF " +:+ pfPCIAddr.

(** The two commands that move one interface: into the network
    namespace of the process, then up inside it. *)
Definition ip_netns (netDev : string) (pid : Z) : list string :=
  ["link"; "set"; netDev; "netns"; Itoa pid].
Definition nsenter_up (netDev : string) (pid : Z) : list string :=
  ["-t"; Itoa pid; "-n"; "--"; "ip"; "link"; "set"; netDev; "up"].

(** Every interface of the list is moved and brought up: both commands
    succeed for each, one interface after the other, from [s] to the
    last state. *)
Inductive moved (pid : Z) : list string -> St W -> St W -> Prop :=
| moved_nil s : moved pid [] s s
| moved_cons netDev rest s out1 s1 out2 s2 s3 :
    CombinedOutput "ip" (ip_netns netDev pid) s = ((out1, None), s1) ->
    CombinedOutput "nsenter" (nsenter_up netDev pid) s1 = ((out2, None), s2) ->
    moved pid rest s2 s3 ->
    moved pid (netDev :: rest) s s3.

(** The move of one interface fails: the first command does, or the
    second one after it. *)
Definition move_fails (pid : Z) (netDev : string) (s : St W) : Prop :=
  (exists out e s1,
     CombinedOutput "ip" (ip_netns netDev pid) s = ((out, Some e), s1))
  \/ (exists out1 s1 out2 e s2,
        CombinedOutput "ip" (ip_netns netDev pid) s = ((out1, None), s1)
        /\ CombinedOutput "nsenter" (nsenter_up netDev pid) s1 = ((out2, Some e), s2)).

(** The RDMA move of an adapter. *)
Definition rdma_netns (ibDevName : string) (pid : Z) : list string :=
  ["dev"; "set"; ibDevName; "netns"; Itoa pid].

(** Everything the hook helper may run, in order: the two commands of
    each interface, then the RDMA move. *)
Definition hook_events (ibDevName : string) (netDevs : list string) (pid : Z)
  : list Event :=
  (netDevs ≫= fun netDev =>
     [EvExec "ip" (ip_netns netDev pid); EvExec "nsenter" (nsenter_up netDev pid)])
  ++ [EvExec "rdma" (rdma_netns ibDevName pid)].

(** An effect of VF provisioning on the PFs [pcis]: a sleep, or the write
    of a count to the [sriov_numvfs] file of one of them. *)
Definition vf_effect (pcis : list string) (ev : Event) : Prop :=
  match ev with
  | EvSleep _ => True
  | EvWriteFile path data =>
      exists pci n, pci ∈ pcis /\ path = sysfs.numvfs_path pci /\ data = Itoa n
  | EvExec _ _ => False
  end.

End WithHost.

End spec.

(* ===================================================================== *)
(** * Theorems *)
(* ===================================================================== *)

Import sim machines.

Example Itoa_examples :
  Itoa 0 = "0" /\ Itoa 100 = "100" /\ Itoa (-7) = "-7".
Proof. repeat split. Qed.

Example FormatHex_examples :
  pad0 4 (FormatHex true 32769) = "8001" /\
  pad0 4 (FormatHex true 26) = "001A" /\
  pad0 2 (FormatHex false 254) = "fe" /\
  pad0 2 (FormatHex false 0) = "00".
Proof. repeat split. Qed.

Example SplitN2_examples :
  SplitN2 "mlx5_0-port1" "-port" = ["mlx5_0"; "1"] /\
  SplitN2 "mlx5_0" "-port" = ["mlx5_0"] /\
  SplitN2 "a-port1-port2" "-port" = ["a"; "1-port2"] /\
  SplitN2 "foo-port" "-port" = ["foo"; ""].
Proof. repeat split. Qed.

(** ** Port attribute query: effective speed *)

Lemma int_wrap_small z : in_int z -> int_wrap z = z.
Proof.
  unfold in_int, int_wrap. intros Hz.
  rewrite Z.mod_small by lia. lia.
Qed.

Lemma int_mul_cint a m : in_cint a -> 0 <= m <= 12 -> int_mul a m = a * m.
Proof.
  unfold in_cint, int_mul. intros Ha Hm.
  apply int_wrap_small. unfold in_int. nia.
Qed.

Lemma lane_multiplier_range width : 0 <= spec.lane_multiplier width <= 12.
Proof.
  unfold spec.lane_multiplier, spec.lane_multipliers, spec.assoc.
  repeat case_match; simpl; lia.
Qed.

(** The two [switch] statements of [EffectiveSpeed] are the two tables. *)
Lemma EffectiveSpeed_tables p :
  ibverbs.EffectiveSpeed p =
  match spec.assoc spec.base_rates (ibverbs.ActiveSpeed p) with
  | Some base =>
      Itoa (int_mul base (spec.lane_multiplier (ibverbs.ActiveWidth p))) +:+ "Gb/s"
  | None =>
      Itoa (int_mul (ibverbs.ActiveSpeed p)
              (spec.lane_multiplier (ibverbs.ActiveWidth p))) +:+ "Gb/s"
  end.
Proof.
  unfold ibverbs.EffectiveSpeed.
  assert (Hw : match ibverbs.ActiveWidth p with
               | 1 => 1 | 2 => 4 | 4 => 8 | 8 => 12 | _ => 1
               end = spec.lane_multiplier (ibverbs.ActiveWidth p)).
  { destruct (ibverbs.ActiveWidth p) as [|q|q]; try reflexivity.
    do 4 (try destruct q as [q|q|]; try reflexivity). }
  rewrite Hw. clear Hw.
  generalize (spec.lane_multiplier (ibverbs.ActiveWidth p)). intros m.
  destruct (ibverbs.ActiveSpeed p) as [|q|q]; try reflexivity.
  do 9 (try destruct q as [q|q|]; try reflexivity).
Qed.

Lemma base_rate_cint speed base :
  spec.assoc spec.base_rates speed = Some base -> in_cint base.
Proof.
  unfold spec.base_rates, spec.assoc, in_cint.
  repeat case_match; intros [= <-]; lia.
Qed.

(** C4. For every port whose speed code is a C int (which is what the
    port query delivers), [EffectiveSpeed] is the base rate of the speed
    code times the lane multiplier of the width code, printed in decimal
    and followed by "Gb/s"; the width codes 1/2/4/8 stand for 1/4/8/12
    lanes (any other code for one lane), the speed codes
    1/2/4/8/16/32/64/128/256 for 2/5/10/10/14/25/50/100/200 Gb/s, and a
    speed code outside this table is itself multiplied by the lanes. Width
    code 2 with speed code 32 gives "100Gb/s", width code 1 with speed code
    4 gives "10Gb/s". *)
Theorem EffectiveSpeed_spec (p : ibverbs.PortInfo) :
  in_cint (ibverbs.ActiveSpeed p) ->
  ibverbs.EffectiveSpeed p
  = spec.effective_speed (ibverbs.ActiveSpeed p) (ibverbs.ActiveWidth p)
  /\ (forall base,
        spec.assoc spec.base_rates (ibverbs.ActiveSpeed p) = Some base ->
        ibverbs.EffectiveSpeed p
        = Itoa (base * spec.lane_multiplier (ibverbs.ActiveWidth p)) +:+ "Gb/s")
  /\ (spec.assoc spec.base_rates (ibverbs.ActiveSpeed p) = None ->
      ibverbs.EffectiveSpeed p
      = Itoa (ibverbs.ActiveSpeed p * spec.lane_multiplier (ibverbs.ActiveWidth p))
        +:+ "Gb/s")
  /\ (ibverbs.ActiveWidth p = 2 -> ibverbs.ActiveSpeed p = 32 ->
      ibverbs.EffectiveSpeed p = "100Gb/s")
  /\ (ibverbs.ActiveWidth p = 1 -> ibverbs.ActiveSpeed p = 4 ->
      ibverbs.EffectiveSpeed p = "10Gb/s").
Proof.
  intros Hc.
  assert (Heq : ibverbs.EffectiveSpeed p
                = spec.effective_speed (ibverbs.ActiveSpeed p) (ibverbs.ActiveWidth p)).
  { rewrite EffectiveSpeed_tables. unfold spec.effective_speed.
    pose proof (lane_multiplier_range (ibverbs.ActiveWidth p)) as Hm.
    destruct (spec.assoc spec.base_rates (ibverbs.ActiveSpeed p)) as [base|] eqn:E.
    - rewrite int_mul_cint; eauto using base_rate_cint.
    - rewrite int_mul_cint; auto. }
  split; [exact Heq|]. rewrite Heq. unfold spec.effective_speed.
  repeat split.
  - intros base ->. reflexivity.
  - intros ->. reflexivity.
  - intros -> ->. reflexivity.
  - intros -> ->. reflexivity.
Qed.

Lemma EffectiveSpeed_spec_witness :
  in_cint (ibverbs.ActiveSpeed edr_4x) /\ ibverbs.EffectiveSpeed edr_4x = "100Gb/s".
Proof.
  assert (Hc : in_cint (ibverbs.ActiveSpeed edr_4x)) by (unfold in_cint; simpl; lia).
  split; [exact Hc|].
  destruct (EffectiveSpeed_spec edr_4x Hc) as (_ & _ & _ & H100 & _).
  apply H100; reflexivity.
Defined.

(** ** VF lifecycle manager *)

Section sriov_facts.
Context {W : Type} `{Host W}.

Lemma SetSRIOVNumVFs_trace pci n (s : St W) :
  trace (sysfs.SetSRIOVNumVFs pci n s).2
  = trace s ++ [EvWriteFile (sysfs.numvfs_path pci) (Itoa n)].
Proof.
  unfold sysfs.SetSRIOVNumVFs, WriteFile.
  destruct (os_WriteFile _ _ _) as [e w']. reflexivity.
Qed.

Lemma SetSRIOVNumVFs_world pci n (s : St W) :
  world (sysfs.SetSRIOVNumVFs pci n s).2
  = (os_WriteFile (sysfs.numvfs_path pci) (Itoa n) (world s)).2
  /\ (sysfs.SetSRIOVNumVFs pci n s).1
     = (os_WriteFile (sysfs.numvfs_path pci) (Itoa n) (world s)).1.
Proof.
  unfold sysfs.SetSRIOVNumVFs, WriteFile.
  destruct (os_WriteFile _ _ _) as [e w']. split; reflexivity.
Qed.

Lemma poll_state_S (s : St W) k :
  spec.poll_state (Sleep sriov.vfPollInterval s) k = spec.poll_state s (S k).
Proof. unfold spec.poll_state. rewrite Nat.iter_succ_r. reflexivity. Qed.

Lemma poll_state_trace (s : St W) k :
  trace (spec.poll_state s k)
  = trace s ++ replicate k (EvSleep sriov.vfPollInterval).
Proof.
  induction k as [|k IH]; simpl.
  - rewrite app_nil_r. reflexivity.
  - rewrite IH, <- app_assoc. f_equal. symmetry. apply replicate_cons_app.
Qed.

Lemma poll_state_clock (s : St W) k :
  laws.SleepAdvances ->
  time_Now (world s) + Z.of_nat k * sriov.vfPollInterval
  <= time_Now (world (spec.poll_state s k)).
Proof.
  intros Hadv. induction k as [|k IH]; simpl; [lia|].
  pose proof (Hadv sriov.vfPollInterval (world (spec.poll_state s k))).
  unfold spec.poll_state in *. lia.
Qed.

(** The clock does not go back from one poll to a later one. *)
Lemma poll_state_mono (s : St W) i j :
  laws.SleepAdvances ->
  (i <= j)%nat ->
  time_Now (world (spec.poll_state s i)) <= time_Now (world (spec.poll_state s j)).
Proof.
  intros Hadv Hij. induction j as [|j IH].
  - replace i with 0%nat by lia. lia.
  - destruct (Nat.eq_dec i (S j)) as [->|Hne]; [lia|].
    specialize (IH ltac:(lia)).
    pose proof (Hadv sriov.vfPollInterval (world (spec.poll_state s j))) as Hs.
    change (world (spec.poll_state s (S j)))
      with (time_Sleep sriov.vfPollInterval (world (spec.poll_state s j))).
    assert (Hpos : 0 <= sriov.vfPollInterval)
      by (unfold sriov.vfPollInterval, Millisecond; lia).
    lia.
Qed.

(** The poll loop, given enough fuel for the time left: it stops at some
    poll [k], either because that poll saw enough VFs or because the
    deadline had passed, and every earlier poll failed before the
    deadline. *)
Lemma waitForVFs_loop_spec fuel pci expected deadline (s : St W) :
  laws.SleepAdvances ->
  (1 <= fuel)%nat ->
  deadline - time_Now (world s) <= (Z.of_nat fuel - 1) * sriov.vfPollInterval ->
  exists k e,
    sriov.waitForVFs_loop fuel pci expected deadline s
    = Some (e, spec.poll_state s k)
    /\ (k < fuel)%nat
    /\ (forall j, (j < k)%nat ->
          time_Now (world (spec.poll_state s j)) < deadline
          /\ spec.observes pci expected (world (spec.poll_state s j)) = false)
    /\ ((e = None
         /\ time_Now (world (spec.poll_state s k)) < deadline
         /\ spec.observes pci expected (world (spec.poll_state s k)) = true)
        \/ (e = Errorf ("timed out waiting for " +:+ Itoa expected
                        +:+ " VFs on PF " +:+ pci)
            /\ deadline <= time_Now (world (spec.poll_state s k)))).
Proof.
  intros Hadv. revert s.
  induction fuel as [|fuel IH]; intros s Hfuel Hleft; [lia|].
  simpl. destruct (time_Now (world s) <? deadline) eqn:Hnow.
  - apply Z.ltb_lt in Hnow.
    destruct (spec.observes pci expected (world s)) eqn:Hobs.
    + exists 0%nat, None. unfold spec.observes in Hobs.
      destruct (sysfs.ListVFs pci (world s)) as [vfs err] eqn:Hls.
      rewrite Hobs. simpl. split; [reflexivity|]. split; [lia|]. split; [intros j Hj; lia|].
      left. repeat split; auto. unfold spec.observes. rewrite Hls. exact Hobs.
    + pose proof (Hadv sriov.vfPollInterval (world s)) as Hstep.
      assert (Hpos : 0 < sriov.vfPollInterval) by (unfold sriov.vfPollInterval, Millisecond; lia).
      destruct (IH (Sleep sriov.vfPollInterval s)) as (k & e & Hrun & Hk & Hbefore & Hend).
      * simpl in *. nia.
      * simpl in *. nia.
      * exists (S k), e. unfold spec.observes in Hobs.
        destruct (sysfs.ListVFs pci (world s)) as [vfs err] eqn:Hls.
        rewrite Hobs, Hrun, poll_state_S.
        split; [reflexivity|]. split; [lia|]. split.
        -- intros [|j] Hj.
           ++ simpl. split; [exact Hnow|]. unfold spec.observes. rewrite Hls. exact Hobs.
           ++ rewrite <- poll_state_S. apply Hbefore. lia.
        -- rewrite <- poll_state_S. exact Hend.
  - apply Z.ltb_ge in Hnow. exists 0%nat. eexists. split; [reflexivity|].
    split; [lia|]. split; [intros j Hj; lia|]. right. split; [reflexivity|exact Hnow].
Qed.

Lemma waitForVFs_spec fuel pci expected (s : St W) :
  laws.SleepAdvances ->
  (61 <= fuel)%nat ->
  let deadline := time_Now (world s) + sriov.vfSettleTimeout in
  exists k e,
    sriov.waitForVFs fuel pci expected s = Some (e, spec.poll_state s k)
    /\ (k <= 60)%nat
    /\ (forall j, (j < k)%nat ->
          time_Now (world (spec.poll_state s j)) < deadline
          /\ spec.observes pci expected (world (spec.poll_state s j)) = false)
    /\ ((e = None
         /\ (k < 60)%nat
         /\ time_Now (world (spec.poll_state s k)) < deadline
         /\ spec.observes pci expected (world (spec.poll_state s k)) = true)
        \/ (e = Errorf ("timed out waiting for " +:+ Itoa expected
                        +:+ " VFs on PF " +:+ pci)
            /\ deadline <= time_Now (world (spec.poll_state s k)))).
Proof.
  intros Hadv Hfuel deadline. unfold sriov.waitForVFs. fold deadline.
  destruct (waitForVFs_loop_spec fuel pci expected deadline s Hadv)
    as (k & e & Hrun & Hk & Hbefore & Hend).
  { lia. }
  { unfold deadline, sriov.vfSettleTimeout, sriov.vfPollInterval, Second, Millisecond. lia. }
  pose proof (poll_state_clock s) as Hclock.
  assert (Hint : sriov.vfPollInterval = 500000000) by reflexivity.
  assert (Hset : sriov.vfSettleTimeout = 30000000000) by reflexivity.
  assert (Hk60 : forall j, time_Now (world (spec.poll_state s j)) < deadline -> (j < 60)%nat).
  { intros j Hj. specialize (Hclock j Hadv). unfold deadline in Hj. lia. }
  exists k, e. split; [exact Hrun|]. split.
  - destruct k as [|k]; [lia|]. specialize (Hbefore k ltac:(lia)) as [Hb _].
    apply Hk60 in Hb. lia.
  - split; [exact Hbefore|]. destruct Hend as [(-> & Ht & Ho)|Hend]; [left|right; exact Hend].
    repeat split; auto.
Qed.

End sriov_facts.

Section provision_facts.
Context {W : Type} `{Host W}.

Lemma waitForVFs_loop_polls fuel pci expected deadline (s s' : St W) e :
  sriov.waitForVFs_loop fuel pci expected deadline s = Some (e, s') ->
  exists k, s' = spec.poll_state s k.
Proof.
  revert s. induction fuel as [|fuel IH]; intros s; simpl; [discriminate|].
  destruct (time_Now (world s) <? deadline).
  - destruct (sysfs.ListVFs pci (world s)) as [vfs err].
    destruct (is_nil err && _).
    + intros [= <- <-]. exists 0%nat. reflexivity.
    + intros Hrun. apply IH in Hrun as [k ->]. exists (S k).
      apply poll_state_S.
  - intros [= <- <-]. exists 0%nat. reflexivity.
Qed.

Lemma poll_state_counts pci (s : St W) k :
  laws.SleepKeepsVFCounts pci ->
  sysfs.GetSRIOVNumVFs pci (world (spec.poll_state s k))
  = sysfs.GetSRIOVNumVFs pci (world s)
  /\ sysfs.GetSRIOVTotalVFs pci (world (spec.poll_state s k))
     = sysfs.GetSRIOVTotalVFs pci (world s).
Proof.
  intros Hkeep. induction k as [|k [IHn IHt]]; [split; reflexivity|].
  simpl. destruct (Hkeep sriov.vfPollInterval (world (spec.poll_state s k))) as [Hn Ht].
  unfold spec.poll_state in *. split; congruence.
Qed.

Lemma gtb_false a b : a <= b -> (a >? b) = false.
Proof. intros. rewrite Z.gtb_ltb. apply Z.ltb_ge. lia. Qed.

Lemma gtb_true a b : b < a -> (a >? b) = true.
Proof. intros. rewrite Z.gtb_ltb. apply Z.ltb_lt. lia. Qed.

(** C2. When the requested count exceeds the capacity the PF reports,
    the direct entry point [ProvisionVFs] returns the error "requested
    <desired> VFs exceeds maximum <total> for PF <address>" and does
    nothing else: no control file is written, the world and the trace
    of effects are the ones it started from. *)
Theorem ProvisionVFs_over_capacity fuel pci desired total (s : St W) :
  sysfs.GetSRIOVTotalVFs pci (world s) = (total, None) ->
  desired > total ->
  exists e s',
    sriov.ProvisionVFs fuel pci desired s = Some (Some e, s')
    /\ Error e = "requested " +:+ Itoa desired +:+ " VFs exceeds maximum "
                 +:+ Itoa total +:+ " for PF " +:+ pci
    /\ world s' = world s
    /\ trace s' = trace s
    /\ writes (trace s') = writes (trace s).
Proof.
  intros Htotal Hover. unfold sriov.ProvisionVFs.
  rewrite Htotal, gtb_true by lia.
  eexists _, s. repeat split.
Qed.

(** C3. When the current count of a PF already equals the desired count
    (within capacity), [ProvisionVFs] succeeds without any effect: no
    control file is written. Consequently, on a host whose
    [sriov_numvfs] file reads back the count written to it and whose
    control files do not change while the driver sleeps, a second call
    right after a successful one, with the same count, succeeds and
    performs no write at all. *)
Theorem ProvisionVFs_idempotent fuel pci desired total (s : St W) :
  sysfs.GetSRIOVTotalVFs pci (world s) = (total, None) ->
  desired <= total ->
  (sysfs.GetSRIOVNumVFs pci (world s) = (desired, None) ->
   sriov.ProvisionVFs fuel pci desired s = Some (None, s))
  /\ (laws.NumVFsReadBack pci desired ->
      laws.SleepKeepsVFCounts pci ->
      laws.WriteKeepsTotalVFs pci ->
      forall s1 fuel',
        sriov.ProvisionVFs fuel pci desired s = Some (None, s1) ->
        exists s2,
          sriov.ProvisionVFs fuel' pci desired s1 = Some (None, s2)
          /\ world s2 = world s1
          /\ trace s2 = trace s1
          /\ writes (trace s2) = writes (trace s1)).
Proof.
  intros Htotal Hcap.
  assert (Hsame : forall f (t : St W),
             sysfs.GetSRIOVTotalVFs pci (world t) = (total, None) ->
             sysfs.GetSRIOVNumVFs pci (world t) = (desired, None) ->
             sriov.ProvisionVFs f pci desired t = Some (None, t)).
  { intros f t Ht Hn. unfold sriov.ProvisionVFs.
    rewrite Ht, gtb_false, Hn, Z.eqb_refl by lia. reflexivity. }
  split; [apply Hsame; assumption|].
  intros Hback Hsleep Hwrite s1 fuel' Hrun.
  exists s1. split; [|repeat split].
  revert Hrun. unfold sriov.ProvisionVFs.
  rewrite Htotal, gtb_false by lia.
  destruct (sysfs.GetSRIOVNumVFs pci (world s)) as [current [e|]] eqn:Hcur;
    [discriminate|].
  destruct (current =? desired) eqn:Heq.
  { apply Z.eqb_eq in Heq as ->. intros [= <-]. apply Hsame; assumption. }
  (* the first call wrote the control file *)
  set (r := if current >? 0 then _ else _).
  assert (Hr : forall e0 s0, r = (e0, s0) ->
            e0 = None ->
            sysfs.GetSRIOVTotalVFs pci (world s0) = (total, None)).
  { subst r. intros e0 s0. destruct (current >? 0).
    - destruct (sysfs.SetSRIOVNumVFs pci 0 s) as [e' s'] eqn:E0.
      pose proof (SetSRIOVNumVFs_world pci 0 s) as [Hw _]. rewrite E0 in Hw.
      destruct e'; intros [= <- <-]; [discriminate|]. intros _. simpl in *.
      destruct (Hsleep (1 * Second) (world s')) as [_ ->].
      rewrite Hw, Hwrite. exact Htotal.
    - intros [= <- <-] _. exact Htotal. }
  destruct r as [[e0|] s0]; [discriminate|].
  specialize (Hr None s0 eq_refl eq_refl).
  destruct (sysfs.SetSRIOVNumVFs pci desired s0) as [[e2|] s2] eqn:E2; [discriminate|].
  pose proof (SetSRIOVNumVFs_world pci desired s0) as [Hw2 He2]. rewrite E2 in Hw2, He2.
  simpl in Hw2, He2.
  destruct (sriov.waitForVFs fuel pci desired s2) as [[[e3|] s3]|] eqn:E3;
    [discriminate| |discriminate].
  intros [= <-]. unfold sriov.waitForVFs in E3.
  apply waitForVFs_loop_polls in E3 as [k ->].
  destruct (poll_state_counts pci s2 k Hsleep) as [Hn Ht].
  apply Hsame.
  - rewrite Ht, Hw2, Hwrite. exact Hr.
  - rewrite Hn. apply Hback with (w := world s0).
    destruct (os_WriteFile (sysfs.numvfs_path pci) (Itoa desired) (world s0)) as [a b].
    simpl in *. rewrite Hw2, <- He2. reflexivity.
Qed.

Lemma writes_app (t1 t2 : list Event) : writes (t1 ++ t2) = writes t1 ++ writes t2.
Proof. apply omap_app. Qed.

Lemma writes_sleeps k d : writes (replicate k (EvSleep d)) = [].
Proof. induction k; simpl; auto. Qed.

(** A resize, case by case: the reset is refused; or the new count is
    refused; or both are written and the poll ends at some poll [k],
    with enough VFs in sight or with the deadline behind it. *)
Lemma resize_cases fuel pci desired total current (s : St W) :
  laws.SleepAdvances ->
  (61 <= fuel)%nat ->
  sysfs.GetSRIOVTotalVFs pci (world s) = (total, None) ->
  desired <= total ->
  sysfs.GetSRIOVNumVFs pci (world s) = (current, None) ->
  0 < current ->
  current <> desired ->
  let ctl := sysfs.numvfs_path pci in
  let reset := sysfs.SetSRIOVNumVFs pci 0 s in
  let settled := Sleep (1 * Second) reset.2 in
  let create := sysfs.SetSRIOVNumVFs pci desired settled in
  let deadline := time_Now (world create.2) + sriov.vfSettleTimeout in
  exists err s',
    sriov.ProvisionVFs fuel pci desired s = Some (err, s')
    /\ ((exists e, reset.1 = Some e
           /\ err = Errorf ("reset sriov_numvfs to 0 for " +:+ pci +:+ ": "
                            +:+ errtext e)
           /\ s' = reset.2)
        \/ (reset.1 = None
            /\ exists e, create.1 = Some e
               /\ err = Errorf ("set sriov_numvfs to " +:+ Itoa desired +:+ " for "
                                +:+ pci +:+ ": " +:+ errtext e)
               /\ s' = create.2)
        \/ (reset.1 = None /\ create.1 = None
            /\ exists k, s' = spec.poll_state create.2 k
               /\ (k <= 60)%nat
               /\ (forall j, (j < k)%nat ->
                     time_Now (world (spec.poll_state create.2 j)) < deadline
                     /\ spec.observes pci desired
                          (world (spec.poll_state create.2 j)) = false)
               /\ ((err = None /\ (k < 60)%nat
                    /\ time_Now (world s') < deadline
                    /\ spec.observes pci desired (world s') = true)
                   \/ (err = Errorf (spec.timed_out pci desired)
                       /\ deadline <= time_Now (world s'))))).
Proof.
  intros Hadv Hfuel Htotal Hcap Hcur Hpos Hne ctl reset settled create deadline.
  unfold sriov.ProvisionVFs.
  rewrite Htotal, gtb_false, Hcur by lia.
  assert ((current =? desired) = false) as -> by (apply Z.eqb_neq; exact Hne).
  rewrite gtb_true by lia.
  subst create settled. subst reset.
  destruct (sysfs.SetSRIOVNumVFs pci 0 s) as [[e0|] s0] eqn:E0; simpl.
  { eexists _, s0. split; [reflexivity|]. left. exists e0. repeat split. }
  simpl in deadline.
  destruct (sysfs.SetSRIOVNumVFs pci desired (Sleep (1 * Second) s0))
    as [[e2|] s2] eqn:E2; simpl.
  { eexists _, s2. split; [reflexivity|]. right. left. split; [reflexivity|].
    exists e2. repeat split. }
  simpl in deadline.
  destruct (waitForVFs_spec fuel pci desired s2 Hadv Hfuel)
    as (k & e & Hrun & Hk & Hbefore & Hend).
  rewrite Hrun.
  destruct Hend as [(-> & Hk' & Ht & Ho)|(-> & Ht)].
  - eexists None, _. split; [reflexivity|]. right. right.
    repeat split. exists k. repeat split; auto; try apply Hbefore; auto.
  - eexists _, _. split; [reflexivity|]. right. right.
    repeat split. exists k. repeat split; auto; try apply Hbefore; auto.
Qed.

(** C1. A PF whose current count is not zero and differs from the
    desired count (which is within capacity): [ProvisionVFs] returns,
    and
    - its first effect is the write of 0 to the PF's [sriov_numvfs]
      file; the only other write it can make is the one of the desired
      count, after it (so nothing is written back after a failure);
    - when it returns success, both writes happened in this order, and
      the state it returns in is one of the at most 60 polls, taken
      before the deadline, in which [ListVFs] shows at least the
      desired number of entries;
    - when both writes are accepted and no poll before the deadline
      shows that many entries, it returns the error "VFs did not appear
      for <address>: timed out waiting for <desired> VFs on PF
      <address>", the two writes being all it wrote;
    - when both writes are accepted and some poll before the deadline
      shows at least the desired number of entries, it returns success,
      in the state of the first poll that shows them;
    - when both writes are accepted, it stops at one of the at most 60
      polls, every earlier poll having been before the deadline without
      showing enough entries, and it returns success exactly when the
      poll it stops at is before the deadline;
    - when the write of 0 or the write of the desired count is refused,
      it returns at once with the error of that write, in the state the
      refused write left. *)
Theorem ProvisionVFs_resize fuel pci desired total current (s : St W) :
  laws.SleepAdvances ->
  (61 <= fuel)%nat ->
  sysfs.GetSRIOVTotalVFs pci (world s) = (total, None) ->
  desired <= total ->
  sysfs.GetSRIOVNumVFs pci (world s) = (current, None) ->
  0 <= current ->
  current <> 0 ->
  current <> desired ->
  let ctl := sysfs.numvfs_path pci in
  let reset := sysfs.SetSRIOVNumVFs pci 0 s in
  let create := sysfs.SetSRIOVNumVFs pci desired (Sleep (1 * Second) reset.2) in
  let deadline := time_Now (world create.2) + sriov.vfSettleTimeout in
  exists err s',
    sriov.ProvisionVFs fuel pci desired s = Some (err, s')
    /\ (exists rest,
          trace s' = trace s ++ EvWriteFile ctl "0" :: rest
          /\ (writes rest = [] \/ writes rest = [(ctl, Itoa desired)]))
    /\ (err = None ->
        writes (trace s') = writes (trace s) ++ [(ctl, "0"); (ctl, Itoa desired)]
        /\ exists k vfs,
             (k < 60)%nat
             /\ s' = spec.poll_state create.2 k
             /\ time_Now (world s') < deadline
             /\ sysfs.ListVFs pci (world s') = (vfs, None)
             /\ desired <= Z.of_nat (length vfs))
    /\ (reset.1 = None -> create.1 = None ->
        (forall k, time_Now (world (spec.poll_state create.2 k)) < deadline ->
                   spec.observes pci desired (world (spec.poll_state create.2 k)) = false) ->
        err = Errorf (spec.timed_out pci desired)
        /\ writes (trace s') = writes (trace s) ++ [(ctl, "0"); (ctl, Itoa desired)])
    /\ (reset.1 = None -> create.1 = None ->
        forall j vfs,
          time_Now (world (spec.poll_state create.2 j)) < deadline ->
          sysfs.ListVFs pci (world (spec.poll_state create.2 j)) = (vfs, None) ->
          desired <= Z.of_nat (length vfs) ->
          err = None
          /\ exists k,
               (k <= j)%nat
               /\ s' = spec.poll_state create.2 k
               /\ spec.observes pci desired (world s') = true
               /\ forall i, (i < k)%nat ->
                     spec.observes pci desired
                       (world (spec.poll_state create.2 i)) = false)
    /\ (reset.1 = None -> create.1 = None ->
        exists k,
          (k <= 60)%nat
          /\ s' = spec.poll_state create.2 k
          /\ (forall i, (i < k)%nat ->
                time_Now (world (spec.poll_state create.2 i)) < deadline
                /\ spec.observes pci desired
                     (world (spec.poll_state create.2 i)) = false)
          /\ (err = None <-> time_Now (world s') < deadline)
          /\ (err = None -> spec.observes pci desired (world s') = true)
          /\ (err <> None -> err = Errorf (spec.timed_out pci desired)))
    /\ (forall e, reset.1 = Some e ->
        err = Errorf ("reset sriov_numvfs to 0 for " +:+ pci +:+ ": " +:+ errtext e)
        /\ s' = reset.2)
    /\ (forall e, reset.1 = None -> create.1 = Some e ->
        err = Errorf ("set sriov_numvfs to " +:+ Itoa desired +:+ " for "
                      +:+ pci +:+ ": " +:+ errtext e)
        /\ s' = create.2).
Proof.
  intros Hadv Hfuel Htotal Hcap Hcur Hnn Hnz Hne ctl reset create deadline.
  destruct (resize_cases fuel pci desired total current s)
    as (err & s' & Hrun & Hcases); auto; [lia|].
  fold reset in Hcases. fold create in Hcases. fold deadline in Hcases.
  exists err, s'. split; [exact Hrun|].
  assert (Ht0 : trace reset.2 = trace s ++ [EvWriteFile ctl "0"]).
  { apply (SetSRIOVNumVFs_trace pci 0 s). }
  assert (Ht2 : trace create.2
                = trace s ++ [EvWriteFile ctl "0"; EvSleep (1 * Second);
                              EvWriteFile ctl (Itoa desired)]).
  { unfold create. rewrite SetSRIOVNumVFs_trace. simpl. rewrite Ht0.
    rewrite <- !app_assoc. reflexivity. }
  assert (Hpolls : forall k,
             trace (spec.poll_state create.2 k)
             = trace s ++ EvWriteFile ctl "0"
                 :: [EvSleep (1 * Second); EvWriteFile ctl (Itoa desired)]
                    ++ replicate k (EvSleep sriov.vfPollInterval)
             /\ writes (trace (spec.poll_state create.2 k))
                = writes (trace s) ++ [(ctl, "0"); (ctl, Itoa desired)]).
  { intros k. rewrite poll_state_trace, Ht2. split.
    - rewrite <- app_assoc. reflexivity.
    - rewrite !writes_app, writes_sleeps, app_nil_r. reflexivity. }
  destruct Hcases as [(e & He & -> & ->)|[(H0 & e & He & -> & ->)|
                      (H0 & H2 & k & -> & Hk & Hbefore & Hend)]].
  - (* the reset is refused *)
    split; [|split; [|split; [|split; [|split; [|split]]]]].
    + exists []. split; [exact Ht0|left; reflexivity].
    + discriminate.
    + intros Hreset. rewrite Hreset in He. discriminate.
    + intros Hreset. rewrite Hreset in He. discriminate.
    + intros Hreset. rewrite Hreset in He. discriminate.
    + intros e' He'. rewrite He in He'. injection He' as <-. auto.
    + intros e' Hreset. rewrite Hreset in He. discriminate.
  - (* the new count is refused *)
    split; [|split; [|split; [|split; [|split; [|split]]]]].
    + eexists. split; [rewrite Ht2; reflexivity|right; reflexivity].
    + discriminate.
    + intros _ Hcreate. rewrite Hcreate in He. discriminate.
    + intros _ Hcreate. rewrite Hcreate in He. discriminate.
    + intros _ Hcreate. rewrite Hcreate in He. discriminate.
    + intros e' Hreset. rewrite Hreset in H0. discriminate.
    + intros e' _ He'. rewrite He in He'. injection He' as <-. auto.
  - (* both writes are accepted *)
    destruct (Hpolls k) as [Htr Hwr].
    split; [|split; [|split; [|split; [|split; [|split]]]]].
    + eexists. split; [exact Htr|]. right.
      rewrite writes_app, writes_sleeps. reflexivity.
    + intros ->. split; [exact Hwr|].
      destruct Hend as [(_ & Hk' & Ht & Ho)|(Habs & _)]; [|discriminate].
      unfold spec.observes in Ho.
      destruct (sysfs.ListVFs pci (world (spec.poll_state create.2 k)))
        as [vfs [e|]] eqn:Hls; [discriminate|].
      simpl in Ho. exists k, vfs. repeat split; auto.
      rewrite Z.geb_leb in Ho. apply Z.leb_le in Ho. exact Ho.
    + intros _ _ Hnone. split; [|exact Hwr].
      destruct Hend as [(_ & _ & Ht & Ho)|(-> & _)]; [|reflexivity].
      rewrite (Hnone k Ht) in Ho. discriminate.
    + (* a poll before the deadline shows the VFs *)
      intros _ _ j vfs Hj Hlist Hlen.
      assert (Hseen : spec.observes pci desired
                        (world (spec.poll_state create.2 j)) = true).
      { unfold spec.observes. rewrite Hlist. simpl.
        rewrite Z.geb_leb. apply Z.leb_le. exact Hlen. }
      assert (Hkj : (k <= j)%nat).
      { destruct (le_lt_dec k j) as [Hle|Hlt]; [exact Hle|].
        destruct (Hbefore j Hlt) as [_ Hno]. rewrite Hno in Hseen. discriminate. }
      pose proof (poll_state_mono create.2 k j Hadv Hkj) as Hmono.
      destruct Hend as [(-> & _ & _ & Ho)|(_ & Hlate)]; [|lia].
      split; [reflexivity|]. exists k. split; [exact Hkj|].
      split; [reflexivity|]. split; [exact Ho|].
      intros i Hi. apply (Hbefore i Hi).
    + (* where the poll stops *)
      intros _ _. exists k. split; [exact Hk|]. split; [reflexivity|].
      split; [exact Hbefore|].
      destruct Hend as [(-> & _ & Ht & Ho)|(-> & Hlate)].
      * split; [split; auto|]. split; [auto|]. intros Hc. contradiction.
      * split; [split; [discriminate|lia]|]. split; [discriminate|reflexivity].
    + intros e' Hreset. rewrite Hreset in H0. discriminate.
    + intros e' _ Hcreate. rewrite Hcreate in H2. discriminate.
Qed.

End provision_facts.

(** ** The simulated host obeys the assumptions *)

Lemma sim_SleepAdvances : laws.SleepAdvances (W := World).
Proof. intros d w. simpl. lia. Qed.

Lemma sim_SleepKeepsVFCounts pci : laws.SleepKeepsVFCounts (W := World) pci.
Proof. intros d w. split; reflexivity. Qed.

Lemma sim_NumVFsReadBack_3b_2 : laws.NumVFsReadBack (W := World) "0000:3b:00.0" 2.
Proof.
  intros w w'. simpl. unfold write.
  destruct (bool_decide _); [discriminate|].
  intros [= <-].
  unfold sysfs.GetSRIOVNumVFs, sysfs.readIntFileErr. simpl.
  rewrite lookup_insert_eq. reflexivity.
Qed.

Lemma sim_WriteKeepsTotalVFs_3b : laws.WriteKeepsTotalVFs (W := World) "0000:3b:00.0".
Proof.
  intros n w. simpl. unfold write.
  destruct (bool_decide _); [reflexivity|].
  unfold sysfs.GetSRIOVTotalVFs, sysfs.readIntFileErr.
  assert (Hfiles : forall w1 : World,
             files w1 = <["/sys/bus/pci/devices/0000:3b:00.0/sriov_numvfs" := Itoa n]> (files w) ->
             os_ReadFile (sysfs.totalvfs_path "0000:3b:00.0") w1
             = os_ReadFile (sysfs.totalvfs_path "0000:3b:00.0") w).
  { intros w1 Hw1. simpl. rewrite Hw1, lookup_insert_ne by discriminate. reflexivity. }
  match goal with |- context [String.eqb ?a ?b] => change (String.eqb a b) with true end.
  cbv iota.
  destruct (Atoi (TrimSpace (Itoa n))) as [count [e|]]; simpl snd;
    rewrite Hfiles; reflexivity.
Qed.

Lemma ProvisionVFs_over_capacity_witness :
  exists e s',
    sriov.ProvisionVFs 61 "0000:3b:00.0" 16 (boot one_pf) = Some (Some e, s')
    /\ Error e = "requested 16 VFs exceeds maximum 8 for PF 0000:3b:00.0"
    /\ trace s' = [].
Proof.
  destruct (ProvisionVFs_over_capacity 61 "0000:3b:00.0" 16 8 (boot one_pf))
    as (e & s' & Hrun & Hmsg & _ & Htr & _).
  - vm_compute; reflexivity.
  - lia.
  - exists e, s'. repeat split; assumption.
Defined.

Lemma ProvisionVFs_idempotent_witness :
  sriov.ProvisionVFs 61 "0000:3b:00.0" 2 (boot one_pf) = Some (None, resized)
  /\ exists s2,
       sriov.ProvisionVFs 61 "0000:3b:00.0" 2 resized = Some (None, s2)
       /\ writes (trace s2) = writes (trace resized).
Proof.
  assert (Hfirst : sriov.ProvisionVFs 61 "0000:3b:00.0" 2 (boot one_pf)
                   = Some (None, resized)) by (vm_compute; reflexivity).
  split; [exact Hfirst|].
  destruct (ProvisionVFs_idempotent 61 "0000:3b:00.0" 2 8 (boot one_pf)) as [_ Hagain].
  - vm_compute; reflexivity.
  - lia.
  - destruct (Hagain sim_NumVFsReadBack_3b_2 (sim_SleepKeepsVFCounts _)
                sim_WriteKeepsTotalVFs_3b resized 61%nat Hfirst)
      as (s2 & Hrun2 & _ & _ & Hwr).
    exists s2. split; [exact Hrun2|exact Hwr].
Defined.

Lemma ProvisionVFs_resize_witness :
  exists s',
    sriov.ProvisionVFs 61 "0000:3b:00.0" 2 (boot one_pf) = Some (None, s')
    /\ spec.observes "0000:3b:00.0" 2 (world s') = true
    /\ exists rest,
         trace s' = EvWriteFile "/sys/bus/pci/devices/0000:3b:00.0/sriov_numvfs" "0" :: rest
         /\ (writes rest = []
             \/ writes rest = [("/sys/bus/pci/devices/0000:3b:00.0/sriov_numvfs", "2")]).
Proof.
  destruct (ProvisionVFs_resize 61 "0000:3b:00.0" 2 8 4 (boot one_pf))
    as (err & s' & Hrun & Horder & _ & _ & Hseen & _).
  - exact sim_SleepAdvances.
  - lia.
  - vm_compute; reflexivity.
  - lia.
  - vm_compute; reflexivity.
  - lia.
  - lia.
  - lia.
  - destruct (Hseen ltac:(vm_compute; reflexivity) ltac:(vm_compute; reflexivity)
                0%nat ["virtfn0"; "virtfn1"]
                ltac:(vm_compute; reflexivity) ltac:(vm_compute; reflexivity)
                ltac:(simpl; lia))
      as (-> & k & _ & _ & Hobs & _).
    exists s'. split; [exact Hrun|]. split; [exact Hobs|exact Horder].
Defined.

(** The two runs of the specification's example: from 4 VFs to 2. *)
Example resize_4_to_2 :
  sriov.ProvisionVFs 61 "0000:3b:00.0" 2 (boot one_pf) = Some (None, resized)
  /\ trace resized
     = [EvWriteFile "/sys/bus/pci/devices/0000:3b:00.0/sriov_numvfs" "0";
        EvSleep 1000000000;
        EvWriteFile "/sys/bus/pci/devices/0000:3b:00.0/sriov_numvfs" "2"]
  /\ sysfs.ListVFs "0000:3b:00.0" (world resized) = (["virtfn0"; "virtfn1"], None).
Proof. split; [|split]; vm_compute; reflexivity. Qed.

Example resize_4_to_2_stuck :
  sriov.ProvisionVFs 61 "0000:3b:00.0" 2 (boot one_pf_stuck)
  = Some (Errorf "VFs did not appear for 0000:3b:00.0: timed out waiting for 2 VFs on PF 0000:3b:00.0",
          resized_stuck)
  /\ writes (trace resized_stuck)
     = [("/sys/bus/pci/devices/0000:3b:00.0/sriov_numvfs", "0");
        ("/sys/bus/pci/devices/0000:3b:00.0/sriov_numvfs", "2")]
  /\ sysfs.ListVFs "0000:3b:00.0" (world resized_stuck) = (["virtfn0"], None).
Proof. split; [|split]; vm_compute; reflexivity. Qed.

(** ** Provisioning a fleet of PFs *)

Section fleet_facts.
Context {W : Type} `{Host W}.

Lemma provisionVFs_loop_app fuel n (l1 l2 : list sriov.PFInfo) (s : St W) :
  ib.provisionVFs_loop fuel n (l1 ++ l2) s
  = match ib.provisionVFs_loop fuel n l1 s with
    | Some (None, s1) => ib.provisionVFs_loop fuel n l2 s1
    | r => r
    end.
Proof.
  revert s. induction l1 as [|pf l1 IH]; intros s; simpl; [reflexivity|].
  destruct (sriov.ProvisionVFs _ _ _ _) as [[[e|] s']|]; auto.
Qed.

(** C5, as the code has it. The pass over the discovered PFs ends at the
    first PF whose provisioning fails: when the PFs before it were
    provisioned and the call for it returns an error, [provisionVFs]
    returns "provision VFs on <address>: <error>" in the state that
    failing call left, whatever PFs come after it; and
    [EnumerateDevices] goes on from that state to enumerate the devices
    that exist, without returning the provisioning error. *)
Theorem provisionVFs_stops_at_first_failure fuel p (s : St W)
    pfs done pf rest e s1 s2 :
  sriov.DiscoverSRIOVPFs (world s) = (pfs, None) ->
  pfs = done ++ pf :: rest ->
  ib.provisionVFs_loop fuel (ib.numVFs p) done s = Some (None, s1) ->
  sriov.ProvisionVFs fuel (sriov.PCIAddress pf)
    (if ib.numVFs p >? sriov.TotalVFs pf then sriov.TotalVFs pf else ib.numVFs p) s1
  = Some (Some e, s2) ->
  ib.provisionVFs fuel p s
  = Some (Errorf ("provision VFs on " +:+ sriov.PCIAddress pf +:+ ": "
                  +:+ errtext e), s2)
  /\ (ib.numVFs p > 0 ->
      ib.EnumerateDevices fuel p s = Some (ib.enumerateExisting p (world s2), s2)).
Proof.
  intros Hdisc -> Hdone Hfail.
  assert (Hrun : ib.provisionVFs fuel p s
                 = Some (Errorf ("provision VFs on " +:+ sriov.PCIAddress pf +:+ ": "
                                 +:+ errtext e), s2)).
  { unfold ib.provisionVFs. rewrite Hdisc.
    rewrite length_app. simpl length.
    replace (length done + S (length rest) =? 0)%nat with false
      by (symmetry; apply Nat.eqb_neq; lia).
    rewrite provisionVFs_loop_app, Hdone. simpl. rewrite Hfail. reflexivity. }
  split; [exact Hrun|].
  intros Hpos. unfold ib.EnumerateDevices.
  rewrite gtb_true by lia. rewrite Hrun. reflexivity.
Qed.

End fleet_facts.

Lemma provisionVFs_stops_at_first_failure_witness :
  exists e,
    ib.provisionVFs 61 (ib.NewProfile "node-1" 2) (boot two_pfs_first_readonly)
    = Some (Some e, halted)
    /\ ib.EnumerateDevices 61 (ib.NewProfile "node-1" 2) (boot two_pfs_first_readonly)
       = Some (ib.enumerateExisting (ib.NewProfile "node-1" 2) (world halted), halted).
Proof.
  pose (pf1 := {| sriov.PCIAddress := "0000:3b:00.0"; sriov.IBDevName := "mlx5_0";
                  sriov.TotalVFs := 8; sriov.CurrentVFs := 4 |}).
  pose (pf2 := {| sriov.PCIAddress := "0000:5e:00.0"; sriov.IBDevName := "mlx5_1";
                  sriov.TotalVFs := 8; sriov.CurrentVFs := 0 |}).
  destruct (provisionVFs_stops_at_first_failure 61 (ib.NewProfile "node-1" 2)
              (boot two_pfs_first_readonly) [pf1; pf2] [] pf1 [pf2]
              {| Error := "reset sriov_numvfs to 0 for 0000:3b:00.0: open /sys/bus/pci/devices/0000:3b:00.0/sriov_numvfs: permission denied";
                 IsNotExist := false |}
              (boot two_pfs_first_readonly) halted) as [Hrun Henum].
  - vm_compute; reflexivity.
  - reflexivity.
  - reflexivity.
  - vm_compute; reflexivity.
  - eexists. split; [exact Hrun|]. apply Henum. simpl. lia.
Defined.

(** C5 as stated fails. On a machine with two PFs, both in need of VFs,
    whose first PF refuses the write to its control file, the pass ends
    with the error of the first PF, having written nothing but the
    refused reset; the second PF is never tried and keeps its 0 VFs,
    although a call for it succeeds from that very state. *)
Lemma provisionVFs_abandons_remaining_PFs :
  (sriov.DiscoverSRIOVPFs two_pfs_first_readonly).1
  = [ {| sriov.PCIAddress := "0000:3b:00.0"; sriov.IBDevName := "mlx5_0";
         sriov.TotalVFs := 8; sriov.CurrentVFs := 4 |};
      {| sriov.PCIAddress := "0000:5e:00.0"; sriov.IBDevName := "mlx5_1";
         sriov.TotalVFs := 8; sriov.CurrentVFs := 0 |} ]
  /\ ib.provisionVFs 61 (ib.NewProfile "node-1" 2) (boot two_pfs_first_readonly)
     = Some (Errorf "provision VFs on 0000:3b:00.0: reset sriov_numvfs to 0 for 0000:3b:00.0: open /sys/bus/pci/devices/0000:3b:00.0/sriov_numvfs: permission denied",
             halted)
  /\ trace halted
     = [EvWriteFile "/sys/bus/pci/devices/0000:3b:00.0/sriov_numvfs" "0"]
  /\ sysfs.GetSRIOVNumVFs "0000:5e:00.0" (world halted) = (0, None)
  /\ sriov.ProvisionVFs 61 "0000:5e:00.0" 2 halted = Some (None, second_pf_done)
  /\ writes (trace second_pf_done)
     = [("/sys/bus/pci/devices/0000:3b:00.0/sriov_numvfs", "0");
        ("/sys/bus/pci/devices/0000:5e:00.0/sriov_numvfs", "2")].
Proof. split; [|split; [|split; [|split; [|split]]]]; vm_compute; reflexivity. Qed.

(** ** Device names *)

Lemma list_ascii_app (a b : string) :
  list_ascii_of_string (a +:+ b) = list_ascii_of_string a ++ list_ascii_of_string b.
Proof. induction a as [|c a IH]; simpl; [reflexivity|]. rewrite IH. reflexivity. Qed.

Lemma list_ascii_inj (a b : string) :
  list_ascii_of_string a = list_ascii_of_string b -> a = b.
Proof.
  intros Hab. rewrite <- (string_of_list_ascii_of_string a),
    <- (string_of_list_ascii_of_string b), Hab. reflexivity.
Qed.

(** Two texts cut by the same separator are equal only piece by piece,
    when the last character of the separator occurs in neither tail. *)
Lemma app_sep_inj {A : Type} (sep0 : list A) (t : A) (s1 s2 d1 d2 : list A) :
  t ∉ d1 -> t ∉ d2 ->
  s1 ++ (sep0 ++ [t]) ++ d1 = s2 ++ (sep0 ++ [t]) ++ d2 ->
  s1 = s2 /\ d1 = d2.
Proof.
  intros H1 H2 Heq.
  assert (Hshort : forall (a b da db : list A),
             t ∉ da -> a ++ (sep0 ++ [t]) ++ da = b ++ (sep0 ++ [t]) ++ db ->
             (length b <= length a)%nat).
  { intros a b da db Hda Hab.
    destruct (decide (length b <= length a)%nat) as [|Hlt]; [assumption|].
    exfalso. apply Hda.
    assert (Hlk : (a ++ (sep0 ++ [t]) ++ da) !! (length b + length sep0)%nat = Some t).
    { rewrite Hab. rewrite lookup_app_r by lia.
      replace (length b + length sep0 - length b)%nat with (length sep0 + 0)%nat by lia.
      rewrite <- !app_assoc. rewrite lookup_app_r by lia.
      replace (length sep0 + 0 - length sep0)%nat with 0%nat by lia. reflexivity. }
    rewrite lookup_app_r in Hlk by lia.
    rewrite lookup_app_r in Hlk by (rewrite length_app; simpl; lia).
    apply list_elem_of_lookup_2 in Hlk. exact Hlk. }
  assert (Hlen : length s1 = length s2).
  { apply Nat.le_antisymm.
    - apply (Hshort s2 s1 d2 d1 H2). symmetry. exact Heq.
    - apply (Hshort s1 s2 d1 d2 H1). exact Heq. }
  apply app_inj_1 in Heq as [-> Heq]; [|exact Hlen].
  apply app_inv_head in Heq. auto.
Qed.

Lemma uint_digits_no_t (d : Decimal.uint) :
  "t"%char ∉ list_ascii_of_string (NilEmpty.string_of_uint d).
Proof.
  induction d; simpl; rewrite ?not_elem_of_cons;
    try (split; [discriminate|assumption]).
  apply not_elem_of_nil.
Qed.

Lemma Itoa_no_t (z : Z) : "t"%char ∉ list_ascii_of_string (Itoa z).
Proof.
  unfold Itoa, NilZero.string_of_int, NilZero.string_of_uint.
  pose proof uint_digits_no_t as Hd.
  destruct (Z.to_int z) as [d|d]; destruct d; simpl; rewrite ?not_elem_of_cons;
    repeat split; try discriminate; try apply not_elem_of_nil;
    match goal with |- _ ∉ list_ascii_of_string (NilEmpty.string_of_uint ?d) => apply Hd end.
Qed.

Lemma Itoa_inj (a b : Z) : Itoa a = Itoa b -> a = b.
Proof.
  unfold Itoa. intros Hab.
  assert (Hnn : forall z, Z.to_int z <> Decimal.Pos Decimal.Nil
                          /\ Z.to_int z <> Decimal.Neg Decimal.Nil).
  { intros [|q|q]; simpl; split; try discriminate;
      intros [= Hq]; exact (Unsigned.to_uint_nonnil q Hq). }
  apply DecimalZ.to_int_inj.
  destruct (Hnn a) as [Ha1 Ha2], (Hnn b) as [Hb1 Hb2].
  pose proof (NilZero.isi _ Ha1 Ha2) as Ha.
  pose proof (NilZero.isi _ Hb1 Hb2) as Hb.
  rewrite Hab in Ha. congruence.
Qed.

(** The published name determines the adapter and the port. *)
Lemma deviceName_inj a1 n1 a2 n2 :
  ib.deviceName a1 n1 = ib.deviceName a2 n2 -> a1 = a2 /\ n1 = n2.
Proof.
  unfold ib.deviceName. intros Heq.
  apply (f_equal list_ascii_of_string) in Heq.
  rewrite !list_ascii_app in Heq.
  change (list_ascii_of_string "-port")
    with (["-"; "p"; "o"; "r"]%char ++ ["t"%char]) in Heq.
  rewrite !(app_assoc (list_ascii_of_string _) (_ ++ ["t"%char])) in Heq.
  rewrite <- !app_assoc in Heq.
  apply (app_sep_inj ["-"; "p"; "o"; "r"]%char "t"%char) in Heq
    as [Ha Hn]; try apply Itoa_no_t.
  split; [apply list_ascii_inj; exact Ha|].
  apply Itoa_inj, list_ascii_inj. exact Hn.
Qed.

(** ** Enumeration and fusion *)

Lemma NoDup_omap_key {A B K : Type} (f : A -> option B) (ka : A -> K) (kb : B -> K)
    (l : list A) :
  (forall a b, f a = Some b -> kb b = ka a) ->
  NoDup (ka <$> l) -> NoDup (kb <$> omap f l).
Proof.
  intros Hkey. induction l as [|a l IH]; simpl; [constructor|].
  rewrite NoDup_cons. intros [Hnotin Hnd].
  destruct (f a) as [b|] eqn:Hfa; simpl; [|auto].
  rewrite NoDup_cons. split; [|auto].
  rewrite (Hkey a b Hfa). intros Hin. apply Hnotin.
  apply list_elem_of_fmap in Hin as (b' & Hb' & Hin).
  apply list_elem_of_omap in Hin as (a' & Ha' & Hfa').
  apply list_elem_of_fmap. exists a'. split; [|exact Ha'].
  rewrite Hb'. auto.
Qed.

Section enumeration_facts.
Context {W : Type} `{Host W}.

Lemma queryPort_PortNum ctx port (w : W) portInfo :
  ibverbs.queryPort ctx port w = (Some portInfo, None) ->
  ibverbs.PortNum portInfo = port.
Proof.
  unfold ibverbs.queryPort.
  destruct (query_port_compat _ _ _) as [rc attr].
  destruct (negb (rc =? 0)); [discriminate|].
  destruct (ibv_query_gid _ _ _ _) as [grc raw].
  intros [= <-]. reflexivity.
Qed.

(** The ports of a device carry distinct, increasing numbers. *)
Lemma queryPorts_NoDup ctx numPorts (w : W) :
  NoDup (ibverbs.PortNum <$> ibverbs.queryPorts ctx numPorts w).
Proof.
  unfold ibverbs.queryPorts.
  apply (NoDup_omap_key _ id).
  - intros port portInfo.
    destruct (ibverbs.queryPort ctx port w) as [[pi|] [e|]] eqn:Hq; try discriminate.
    intros [= <-]. apply (queryPort_PortNum _ _ _ _ Hq).
  - rewrite list_fmap_id. apply NoDup_seqZ.
Qed.

Lemma queryDevice_Some dev (w : W) devInfo :
  ibverbs.queryDevice dev w = (Some devInfo, None) ->
  ibverbs.Name devInfo = dev_name dev
  /\ NoDup (ibverbs.PortNum <$> ibverbs.Ports devInfo).
Proof.
  unfold ibverbs.queryDevice.
  destruct (negb (ibv_open_device dev w)); [discriminate|].
  destruct (ibv_query_device dev w) as [rc attr].
  destruct (negb (rc =? 0)); [discriminate|].
  intros [= <-]. simpl. split; [reflexivity|apply queryPorts_NoDup].
Qed.

(** What [ListDevices] returns on a host that lists every device once:
    distinct names, and distinct port numbers within each device. *)
Lemma ListDevices_unique (w : W) ibDevices err :
  laws.DeviceNamesUnique w ->
  ibverbs.ListDevices w = (ibDevices, err) ->
  NoDup (ibverbs.Name <$> ibDevices)
  /\ (forall d, d ∈ ibDevices -> NoDup (ibverbs.PortNum <$> ibverbs.Ports d)).
Proof.
  intros Huniq. unfold ibverbs.ListDevices.
  destruct (ibv_get_device_list w) as [devSlice|] eqn:Hlist.
  2:{ intros [= <- <-]. split; [constructor|]. intros d Hd. inversion Hd. }
  specialize (Huniq devSlice Hlist).
  destruct (length devSlice =? 0)%nat.
  { intros [= <- <-]. split; [constructor|]. intros d Hd. inversion Hd. }
  intros [= <- <-]. split.
  - set (g := fun dev : ibv_device =>
                match ibverbs.queryDevice dev w with
                | (Some devInfo, None) => Some devInfo
                | _ => None
                end).
    assert (Hfactor : forall l : list (option ibv_device),
               omap (fun dev => match dev with
                                | None => None
                                | Some dev => g dev
                                end) l = omap g (omap id l)).
    { induction l as [|[dev|] l IH]; [reflexivity| |exact IH].
      simpl. destruct (g dev); [f_equal|]; exact IH. }
    unfold g in Hfactor. rewrite Hfactor.
    apply (NoDup_omap_key _ dev_name); [|exact Huniq].
    intros dev devInfo.
    destruct (ibverbs.queryDevice dev w) as [[di|] [e|]] eqn:Hq; try discriminate.
    intros [= <-]. apply (queryDevice_Some _ _ _ Hq).
  - intros d Hd. apply list_elem_of_omap in Hd as ([dev|] & _ & Hd); [|discriminate].
    destruct (ibverbs.queryDevice dev w) as [[di|] [e|]] eqn:Hq; try discriminate.
    injection Hd as <-. apply (queryDevice_Some _ _ _ Hq).
Qed.

End enumeration_facts.

Lemma buildEntries_names ibDevices sysfsDevices :
  ib.DeviceName <$> ib.buildEntries ibDevices sysfsDevices
  = ibDevices ≫= (fun d =>
      (fun port => ib.deviceName (ibverbs.Name d) (ibverbs.PortNum port))
        <$> ibverbs.Ports d).
Proof.
  unfold ib.buildEntries.
  induction ibDevices as [|d l IH]; [reflexivity|].
  rewrite !bind_cons, fmap_app, IH. f_equal.
  rewrite <- list_fmap_compose. reflexivity.
Qed.

Lemma deviceNames_NoDup (ibDevices : list ibverbs.DeviceInfo) :
  NoDup (ibverbs.Name <$> ibDevices) ->
  (forall d, d ∈ ibDevices -> NoDup (ibverbs.PortNum <$> ibverbs.Ports d)) ->
  NoDup (ibDevices ≫= (fun d =>
      (fun port => ib.deviceName (ibverbs.Name d) (ibverbs.PortNum port))
        <$> ibverbs.Ports d)).
Proof.
  induction ibDevices as [|d l IH]; intros Hnames Hports; [constructor|].
  rewrite fmap_cons, NoDup_cons in Hnames. destruct Hnames as [Hd Hl].
  rewrite bind_cons. apply NoDup_app. split; [|split].
  - rewrite (list_fmap_compose ibverbs.PortNum (ib.deviceName (ibverbs.Name d))).
    apply NoDup_fmap_2.
    + intros n1 n2 Hn. apply deviceName_inj in Hn. tauto.
    + apply Hports. left.
  - intros name Hin1 Hin2.
    apply list_elem_of_fmap in Hin1 as (port1 & -> & _).
    apply list_elem_of_bind in Hin2 as (d' & Hin2 & Hd').
    apply list_elem_of_fmap in Hin2 as (port2 & Heq & _).
    apply deviceName_inj in Heq as [Hname _].
    apply Hd. rewrite Hname. apply list_elem_of_fmap_2. exact Hd'.
  - apply IH; [exact Hl|]. intros d' Hd'. apply Hports. right. exact Hd'.
Qed.

Section returns_facts.
Context {W : Type} `{Host W}.

(** With fuel for 61 turns of the poll loop, [ProvisionVFs] returns. *)
Lemma ProvisionVFs_returns fuel pci desired (s : St W) :
  laws.SleepAdvances -> (61 <= fuel)%nat ->
  exists err s', sriov.ProvisionVFs fuel pci desired s = Some (err, s').
Proof.
  intros Hadv Hfuel. unfold sriov.ProvisionVFs.
  destruct (sysfs.GetSRIOVTotalVFs pci (world s)) as [total [e|]]; [eauto|].
  destruct (desired >? total); [eauto|].
  destruct (sysfs.GetSRIOVNumVFs pci (world s)) as [current [e|]]; [eauto|].
  destruct (current =? desired); [eauto|].
  destruct (if current >? 0 then _ else _) as [[e|] s1]; [eauto|].
  destruct (sysfs.SetSRIOVNumVFs pci desired s1) as [[e|] s2]; [eauto|].
  destruct (waitForVFs_spec fuel pci desired s2 Hadv Hfuel) as (k & e & -> & _).
  destruct e; eauto.
Qed.

Lemma provisionVFs_loop_returns fuel n pfs (s : St W) :
  laws.SleepAdvances -> (61 <= fuel)%nat ->
  exists err s', ib.provisionVFs_loop fuel n pfs s = Some (err, s').
Proof.
  intros Hadv Hfuel. revert s. induction pfs as [|pf rest IH]; intros s; simpl; [eauto|].
  destruct (ProvisionVFs_returns fuel (sriov.PCIAddress pf)
              (if n >? sriov.TotalVFs pf then sriov.TotalVFs pf else n) s Hadv Hfuel)
    as (err & s' & ->).
  destruct err; eauto.
Qed.

Lemma provisionVFs_returns fuel p (s : St W) :
  laws.SleepAdvances -> (61 <= fuel)%nat ->
  exists err s', ib.provisionVFs fuel p s = Some (err, s').
Proof.
  intros Hadv Hfuel. unfold ib.provisionVFs.
  destruct (sriov.DiscoverSRIOVPFs (world s)) as [pfs [e|]]; [eauto|].
  destruct (length pfs =? 0)%nat; [eauto|].
  apply provisionVFs_loop_returns; assumption.
Qed.

(** [EnumerateDevices] returns, in the state provisioning left, what the
    observation of that state gives. *)
Lemma EnumerateDevices_returns fuel p (s : St W) :
  laws.SleepAdvances -> (61 <= fuel)%nat ->
  exists s', ib.EnumerateDevices fuel p s
             = Some (ib.enumerateExisting p (world s'), s').
Proof.
  intros Hadv Hfuel. unfold ib.EnumerateDevices.
  destruct (ib.numVFs p >? 0); [|eauto].
  destruct (provisionVFs_returns fuel p s Hadv Hfuel) as (err & s' & ->). eauto.
Qed.

(** The outcome of the observation steps: nothing published and the
    profile left alone (an error, or no device at all), or the snapshot
    built from the two listings and published entry by entry. *)
Lemma enumerateExisting_cases p (w : W) :
  let '(ibDevices, err) := ibverbs.ListDevices w in
  (exists e, ib.enumerateExisting p w = (ib.noResources, e, p)
             /\ (err <> None \/ ibDevices = []))
  \/ (err = None /\ ibDevices <> []
      /\ let entries := ib.buildEntries ibDevices (sysfs.ListIBDevices w).1 in
         ib.enumerateExisting p w
         = ({| ib.Pools :=
                 {[ ib.nodeName p :=
                      {| ib.Slices := [ {| ib.Devices := ib.publish <$> entries |} ] |} ]} |},
            None,
            {| ib.nodeName := ib.nodeName p; ib.numVFs := ib.numVFs p;
               ib.devices := entries |})).
Proof.
  unfold ib.enumerateExisting.
  destruct (ibverbs.ListDevices w) as [ibDevices [e|]].
  { left. eexists. split; [reflexivity|]. left. discriminate. }
  destruct ibDevices as [|d l]; simpl.
  { left. eexists. split; [reflexivity|]. right. reflexivity. }
  right. split; [reflexivity|]. split; [discriminate|].
  destruct (sysfs.ListIBDevices w) as [sysfsDevices serr]. reflexivity.
Qed.

(** C7. [EnumerateDevices] returns, and on a host where libibverbs lists
    every device once, the snapshot of the pass has no two entries with
    the same device name "<adapter>-port<N>": the names of the devices
    published in a slice are pairwise distinct, and the profile either is
    left as it was (no snapshot was produced) or holds a snapshot whose
    names are pairwise distinct. *)
Theorem snapshot_names_unique fuel p (s : St W) :
  laws.SleepAdvances -> (61 <= fuel)%nat ->
  exists res err p' s',
    ib.EnumerateDevices fuel p s = Some (res, err, p', s')
    /\ (laws.DeviceNamesUnique (world s') ->
        (forall node pool slice,
            ib.Pools res !! node = Some pool ->
            slice ∈ ib.Slices pool ->
            NoDup (ib.Name <$> ib.Devices slice))
        /\ (p' = p \/ NoDup (ib.DeviceName <$> ib.devices p'))).
Proof.
  intros Hadv Hfuel.
  destruct (EnumerateDevices_returns fuel p s Hadv Hfuel) as (s' & Hrun).
  destruct (ib.enumerateExisting p (world s')) as [[res err] p'] eqn:Hobs.
  exists res, err, p', s'. split; [exact Hrun|].
  intros Huniq.
  pose proof (enumerateExisting_cases p (world s')) as Hcases.
  destruct (ibverbs.ListDevices (world s')) as [ibDevices lerr] eqn:Hlist.
  destruct (ListDevices_unique _ _ _ Huniq Hlist) as [Hnames Hports].
  destruct Hcases as [(e & Hnone & _)|(_ & _ & Hsome)].
  - rewrite Hobs in Hnone. injection Hnone as -> -> ->.
    split; [|left; reflexivity].
    intros node pool slice Hpool. simpl in Hpool.
    rewrite lookup_empty in Hpool. discriminate.
  - cbv zeta in Hsome. rewrite Hobs in Hsome. injection Hsome as -> -> ->.
    assert (Hnd : NoDup (ib.DeviceName <$>
                           ib.buildEntries ibDevices (sysfs.ListIBDevices (world s')).1)).
    { rewrite buildEntries_names. apply deviceNames_NoDup; assumption. }
    split; [|right; exact Hnd].
    intros node pool slice Hpool Hslice. simpl in Hpool.
    apply lookup_singleton_Some in Hpool as [_ <-]. simpl in Hslice.
    apply list_elem_of_singleton in Hslice as ->. simpl.
    rewrite <- list_fmap_compose. exact Hnd.
Qed.

End returns_facts.

Lemma sysfsMapOf_None (sysfsDevices : list sysfs.IBDeviceInfo) name :
  (forall si, si ∈ sysfsDevices -> sysfs.Name si <> name) ->
  ib.sysfsMapOf sysfsDevices !! name = None.
Proof.
  unfold ib.sysfsMapOf.
  assert (Hgen : forall (m : gmap string sysfs.IBDeviceInfo),
             m !! name = None ->
             (forall si, si ∈ sysfsDevices -> sysfs.Name si <> name) ->
             foldl (fun m si => <[sysfs.Name si := si]> m) m sysfsDevices !! name = None).
  { induction sysfsDevices as [|si l IH]; intros m Hm Hno; simpl; [exact Hm|].
    apply IH.
    - rewrite lookup_insert_ne; [exact Hm|]. apply Hno. left.
    - intros si' Hsi'. apply Hno. right. exact Hsi'. }
  apply Hgen. apply lookup_empty.
Qed.

Lemma buildEntries_app before d after sysfsDevices :
  ib.buildEntries (before ++ d :: after) sysfsDevices
  = ib.buildEntries before sysfsDevices
    ++ (ib.buildEntry (ib.pciToIBDevOf sysfsDevices)
          (ib.sysfsMapOf sysfsDevices !! ibverbs.Name d) d <$> ibverbs.Ports d)
    ++ ib.buildEntries after sysfsDevices.
Proof. unfold ib.buildEntries. rewrite bind_app, bind_cons. reflexivity. Qed.

Section fusion_facts.
Context {W : Type} `{Host W}.

(** C6. [EnumerateDevices] returns, and when it builds a snapshot, a
    device [d] of the port-attribute listing that no sysfs record names
    contributes exactly one entry per reported port, in the order of the
    ports and between the entries of the devices listed before and after
    it: the entry of a port carries the adapter name, the port number and
    the name "<adapter>-port<N>", has kind "PF", an empty PCI address, an
    empty parent, NUMA node -1 and no network interface; every entry is
    published as one device of the slice. *)
Theorem fusion_without_topology fuel p (s : St W) :
  laws.SleepAdvances -> (61 <= fuel)%nat ->
  exists res err p' s',
    ib.EnumerateDevices fuel p s = Some (res, err, p', s')
    /\ forall ibDevices before d after,
         ibverbs.ListDevices (world s') = (ibDevices, None) ->
         ibDevices = before ++ d :: after ->
         (forall si, si ∈ (sysfs.ListIBDevices (world s')).1 ->
                     sysfs.Name si <> ibverbs.Name d) ->
         exists block,
           ib.devices p'
           = ib.buildEntries before (sysfs.ListIBDevices (world s')).1
             ++ block
             ++ ib.buildEntries after (sysfs.ListIBDevices (world s')).1
           /\ length block = length (ibverbs.Ports d)
           /\ (forall k port,
                 ibverbs.Ports d !! k = Some port ->
                 exists e,
                   block !! k = Some e
                   /\ ib.IBDevName e = ibverbs.Name d
                   /\ ib.PortNum e = ibverbs.PortNum port
                   /\ ib.DeviceName e
                      = ibverbs.Name d +:+ "-port" +:+ Itoa (ibverbs.PortNum port)
                   /\ ib.Type_ e = "PF"
                   /\ ib.PCIAddress e = ""
                   /\ ib.NUMANode e = -1
                   /\ ib.NetDevices e = []
                   /\ ib.ParentDevice e = "")
           /\ ib.Pools res !! ib.nodeName p
              = Some {| ib.Slices :=
                          [ {| ib.Devices := ib.publish <$> ib.devices p' |} ] |}.
Proof.
  intros Hadv Hfuel.
  destruct (EnumerateDevices_returns fuel p s Hadv Hfuel) as (s' & Hrun).
  destruct (ib.enumerateExisting p (world s')) as [[res err] p'] eqn:Hobs.
  exists res, err, p', s'. split; [exact Hrun|].
  intros ibDevices before d after Hlist -> Hnorec.
  pose proof (enumerateExisting_cases p (world s')) as Hcases.
  rewrite Hlist in Hcases.
  destruct Hcases as [(e & _ & [Habs|Habs])|(_ & _ & Hsome)].
  { congruence. }
  { destruct before; discriminate. }
  cbv zeta in Hsome. rewrite Hobs in Hsome. injection Hsome as -> -> ->.
  simpl ib.devices. rewrite buildEntries_app, sysfsMapOf_None by exact Hnorec.
  eexists. split; [reflexivity|]. split; [apply length_fmap|]. split.
  - intros k port Hport. eexists. split.
    + rewrite list_lookup_fmap, Hport. reflexivity.
    + repeat split.
  - simpl. rewrite lookup_singleton_eq. reflexivity.
Qed.

End fusion_facts.

Lemma fusion_without_topology_witness :
  exists res err p' s',
    ib.EnumerateDevices 61 (ib.NewProfile "node-1" 0) (boot orphan_hca)
    = Some (res, err, p', s')
    /\ exists first block,
         ib.devices p' = first ++ block
         /\ length block = 2%nat
         /\ exists e, block !! 1%nat = Some e
                      /\ ib.DeviceName e = "mlx5_9-port2"
                      /\ ib.Type_ e = "PF"
                      /\ ib.PCIAddress e = ""
                      /\ ib.NUMANode e = -1
                      /\ ib.NetDevices e = [].
Proof.
  destruct (fusion_without_topology 61 (ib.NewProfile "node-1" 0) (boot orphan_hca)
              sim_SleepAdvances ltac:(lia))
    as (res & err & p' & s' & Hrun & Hfusion).
  exists res, err, p', s'. split; [exact Hrun|].
  assert (Hs : s' = boot orphan_hca).
  { unfold ib.EnumerateDevices in Hrun. simpl in Hrun. congruence. }
  subst s'.
  destruct (Hfusion [known_device; orphan_device] [known_device] orphan_device [])
    as (block & Hsnap & Hlen & Hports & _).
  - vm_compute; reflexivity.
  - reflexivity.
  - intros si Hsi. vm_compute in Hsi.
    apply list_elem_of_singleton in Hsi as ->. discriminate.
  - destruct (Hports 1%nat _ eq_refl)
      as (e & He & _ & _ & Hname & Htype & Hpci & Hnuma & Hnet & _).
    exists (ib.buildEntries [known_device] (sysfs.ListIBDevices (world (boot orphan_hca))).1),
      block.
    split; [rewrite Hsnap, app_nil_r; reflexivity|].
    split; [exact Hlen|].
    exists e. repeat split; assumption.
Defined.

Lemma snapshot_names_unique_witness :
  exists res err p' s',
    ib.EnumerateDevices 61 (ib.NewProfile "node-1" 0) (boot orphan_hca)
    = Some (res, err, p', s')
    /\ (p' = ib.NewProfile "node-1" 0 \/ NoDup (ib.DeviceName <$> ib.devices p')).
Proof.
  destruct (snapshot_names_unique 61 (ib.NewProfile "node-1" 0) (boot orphan_hca)
              sim_SleepAdvances ltac:(lia))
    as (res & err & p' & s' & Hrun & Huniq).
  exists res, err, p', s'. split; [exact Hrun|].
  assert (Hs : s' = boot orphan_hca).
  { unfold ib.EnumerateDevices in Hrun. simpl in Hrun. congruence. }
  subst s'. apply Huniq.
  intros devSlice [= <-]. apply (bool_decide_unpack _). vm_compute. exact I.
Defined.

(** ** Config applier *)

Lemma TrimPrefix_opt_Some pre s rest :
  TrimPrefix_opt pre s = Some rest <-> s = pre +:+ rest.
Proof.
  revert s. induction pre as [|a pre IH]; intros s; simpl.
  - split; [intros [= ->]|intros ->]; reflexivity.
  - destruct s as [|b s].
    + split; discriminate.
    + destruct (Ascii.eqb_spec a b) as [->|Hab].
      * rewrite IH. split; [intros ->; reflexivity|intros [= ->]; reflexivity].
      * split; [discriminate|intros [= Hb _]; congruence].
Qed.

Lemma app_String x (a b : string) : String x a +:+ b = String x (a +:+ b).
Proof. reflexivity. Qed.

Lemma app_empty (b : string) : "" +:+ b = b.
Proof. reflexivity. Qed.

(** [Cut] finds a separator, and the first one. *)
Lemma Cut_Some s sep before after :
  Cut s sep = Some (before, after) ->
  s = before +:+ sep +:+ after
  /\ forall a p, s = a +:+ sep +:+ p -> (String.length before <= String.length a)%nat.
Proof.
  revert before. induction s as [|c s IH]; intros before; simpl.
  - destruct (TrimPrefix_opt sep "") as [rest|] eqn:Hpre; [|discriminate].
    intros [= <- <-]. apply TrimPrefix_opt_Some in Hpre.
    split; [exact Hpre|]. intros; simpl; lia.
  - destruct (TrimPrefix_opt sep (String c s)) as [rest|] eqn:Hpre.
    + intros [= <- <-]. apply TrimPrefix_opt_Some in Hpre.
      split; [exact Hpre|]. intros; simpl; lia.
    + destruct (Cut s sep) as [[b a]|] eqn:Hcut; [|discriminate].
      intros [= <- <-]. destruct (IH b eq_refl) as [Hs Hfirst].
      split; [rewrite app_String, <- Hs; reflexivity|].
      intros a' p' Heq. destruct a' as [|x a'].
      * exfalso. rewrite app_empty in Heq.
        apply TrimPrefix_opt_Some in Heq. congruence.
      * rewrite app_String in Heq. injection Heq as _ Heq. simpl.
        apply Hfirst in Heq. lia.
Qed.

Lemma Cut_None s sep a p : Cut s sep = None -> s <> a +:+ sep +:+ p.
Proof.
  revert a. induction s as [|c s IH]; intros a; simpl.
  - destruct (TrimPrefix_opt sep "") as [rest|] eqn:Hpre; [discriminate|].
    intros _ Heq. destruct a; [|discriminate]. rewrite app_empty in Heq.
    apply TrimPrefix_opt_Some in Heq. congruence.
  - destruct (TrimPrefix_opt sep (String c s)) as [rest|] eqn:Hpre; [discriminate|].
    destruct (Cut s sep) as [[b a0]|] eqn:Hcut; [discriminate|].
    intros _ Heq. destruct a as [|x a].
    + rewrite app_empty in Heq. apply TrimPrefix_opt_Some in Heq. congruence.
    + rewrite app_String in Heq. injection Heq as _ Heq. exact (IH a eq_refl Heq).
Qed.

Lemma string_app_inj_length (a a' b b' : string) :
  String.length a = String.length a' -> a +:+ b = a' +:+ b' -> a = a' /\ b = b'.
Proof.
  revert a'. induction a as [|x a IH]; intros [|x' a'] Hlen Heq;
    try discriminate.
  - auto.
  - rewrite !app_String in Heq. injection Heq as -> Heq. injection Hlen as Hlen.
    destruct (IH a' Hlen Heq) as [-> ->]. auto.
Qed.

(** The split of [applyIbConfig] agrees with the reading of a name as
    adapter, "-port" and port. *)
Lemma SplitN2_splits name adapter port :
  spec.splits name adapter port -> SplitN2 name "-port" = [adapter; port].
Proof.
  intros [Hname Hfirst]. unfold SplitN2.
  destruct (Cut name "-port") as [[b a]|] eqn:Hcut.
  - apply Cut_Some in Hcut as [Hb Hbfirst].
    assert (Hlen : String.length b = String.length adapter).
    { apply Nat.le_antisymm; [apply (Hbfirst _ _ Hname)|apply (Hfirst _ _ Hb)]. }
    rewrite Hb in Hname.
    apply string_app_inj_length in Hname as [-> Hrest]; [|exact Hlen].
    apply (string_app_inj_length "-port" "-port") in Hrest as [_ ->]; reflexivity.
  - exfalso. exact (Cut_None _ _ _ _ Hcut Hname).
Qed.

Lemma SplitN2_no_separator name :
  ~ spec.has_separator name -> SplitN2 name "-port" = [name].
Proof.
  intros Hno. unfold SplitN2.
  destruct (Cut name "-port") as [[b a]|] eqn:Hcut; [|reflexivity].
  exfalso. apply Hno. apply Cut_Some in Hcut as [Hb _]. exists b, a. exact Hb.
Qed.

Lemma has_separator_splits name :
  spec.has_separator name -> exists adapter port, spec.splits name adapter port.
Proof.
  intros (a & p & Hname).
  destruct (Cut name "-port") as [[b a0]|] eqn:Hcut.
  - exists b, a0. apply Cut_Some in Hcut. exact Hcut.
  - exfalso. exact (Cut_None _ _ _ _ Hcut Hname).
Qed.

Lemma hex_go_unfold fuel upper z acc :
  hex_go (S fuel) upper z acc
  = if z <? 16 then String (hexdigit upper (z mod 16)) acc
    else hex_go fuel upper (z / 16) (String (hexdigit upper (z mod 16)) acc).
Proof. reflexivity. Qed.

(** The verb [%04X] on a 16-bit value prints its four hexadecimal
    digits. *)
Lemma hex4_format k : 0 <= k < 65536 -> pad0 4 (FormatHex true k) = spec.hex4 k.
Proof.
  intros Hk. unfold FormatHex, spec.hex4.
  assert (Hlog : forall n, 0 < k -> 2 ^ n <= k -> (Z.to_nat n <= Z.to_nat (Z.log2 k))%nat).
  { intros n Hpos Hn. apply Z.log2_le_pow2 in Hn; [|lia]. lia. }
  rewrite hex_go_unfold. destruct (k <? 16) eqn:E1.
  { apply Z.ltb_lt in E1.
    rewrite (Z.div_small k 4096), (Z.div_small k 256), (Z.div_small k 16) by lia.
    reflexivity. }
  apply Z.ltb_ge in E1.
  pose proof (Hlog 4 ltac:(lia) ltac:(simpl; lia)) as H4.
  destruct (Z.to_nat (Z.log2 k)) as [|f1] eqn:F; [simpl in H4; lia|].
  rewrite hex_go_unfold. destruct (k / 16 <? 16) eqn:E2.
  { apply Z.ltb_lt in E2.
    assert (k < 256) by (Z.div_mod_to_equations; lia).
    rewrite (Z.div_small k 4096), (Z.div_small k 256) by lia.
    reflexivity. }
  apply Z.ltb_ge in E2.
  assert (256 <= k) by (Z.div_mod_to_equations; lia).
  pose proof (Hlog 8 ltac:(lia) ltac:(simpl; lia)) as H8.
  destruct f1 as [|f2]; [simpl in H8; lia|].
  rewrite hex_go_unfold, Z.div_div by lia. change (16 * 16) with 256.
  destruct (k / 256 <? 16) eqn:E3.
  { apply Z.ltb_lt in E3.
    assert (k < 4096) by (Z.div_mod_to_equations; lia).
    rewrite (Z.div_small k 4096) by lia.
    reflexivity. }
  apply Z.ltb_ge in E3.
  assert (4096 <= k) by (Z.div_mod_to_equations; lia).
  pose proof (Hlog 12 ltac:(lia) ltac:(simpl; lia)) as H12.
  destruct f2 as [|f3]; [simpl in H12; lia|].
  rewrite hex_go_unfold, Z.div_div by lia. change (256 * 16) with 4096.
  assert (E4 : (k / 4096 <? 16) = true).
  { apply Z.ltb_lt. Z.div_mod_to_equations; lia. }
  rewrite E4. reflexivity.
Qed.

(** A valid configuration keeps its fields within their types. *)
Lemma Validate_Pkey config k :
  v1alpha1.Validate (Some config) = None ->
  v1alpha1.Pkey config = Some k -> 1 <= k <= 65535.
Proof.
  unfold v1alpha1.Validate. intros Hvalid Hk. rewrite Hk in Hvalid.
  destruct (k <? 1) eqn:E1; [discriminate|].
  destruct (k >? 65535) eqn:E2; [discriminate|].
  apply Z.ltb_ge in E1. rewrite Z.gtb_ltb in E2. apply Z.ltb_ge in E2. lia.
Qed.

Lemma deviceEdits_parsed config i name adapter port :
  v1alpha1.Validate (Some config) = None ->
  spec.splits name adapter port ->
  ib.deviceEdits config i {| ib.Device_ := name |}
  = {| ib.Env := spec.environment config i name (Some (adapter, port));
       ib.Hooks := [spec.isolation_hook adapter] |}.
Proof.
  intros Hvalid Hsplit. unfold ib.deviceEdits, spec.environment. simpl ib.Device_.
  rewrite (SplitN2_splits _ _ _ Hsplit). simpl.
  f_equal. f_equal.
  destruct (v1alpha1.Pkey config) as [k|] eqn:Hk;
    destruct (v1alpha1.TrafficClass config) as [tc|];
    destruct (v1alpha1.MTU config) as [mtu|]; simpl;
    try rewrite hex4_format by (pose proof (Validate_Pkey _ _ Hvalid Hk); lia);
    reflexivity.
Qed.

Lemma deviceEdits_unparsed config i name :
  v1alpha1.Validate (Some config) = None ->
  ~ spec.has_separator name ->
  ib.deviceEdits config i {| ib.Device_ := name |}
  = {| ib.Env := spec.environment config i name None; ib.Hooks := [] |}.
Proof.
  intros Hvalid Hno. unfold ib.deviceEdits, spec.environment. simpl ib.Device_.
  rewrite (SplitN2_no_separator _ Hno). simpl.
  f_equal. f_equal.
  destruct (v1alpha1.Pkey config) as [k|] eqn:Hk;
    destruct (v1alpha1.TrafficClass config) as [tc|];
    destruct (v1alpha1.MTU config) as [mtu|]; simpl;
    try rewrite hex4_format by (pose proof (Validate_Pkey _ _ Hvalid Hk); lia);
    reflexivity.
Qed.

Lemma applyIbConfig_loop_other config i results acc name :
  (forall r, r ∈ results -> ib.Device_ r <> name) ->
  ib.applyIbConfig_loop config i results acc !! name = acc !! name.
Proof.
  revert i acc. induction results as [|r0 rest IH]; intros i acc Hno; simpl; [reflexivity|].
  rewrite IH by (intros r Hr; apply Hno; right; exact Hr).
  apply lookup_insert_ne. apply Hno. left.
Qed.

(** The edits stored under a device name are those of the last result
    that names it, computed with the position of that result. *)
Lemma applyIbConfig_loop_lookup config i results acc k r :
  results !! k = Some r ->
  (forall j r', (k < j)%nat -> results !! j = Some r' -> ib.Device_ r' <> ib.Device_ r) ->
  ib.applyIbConfig_loop config i results acc !! ib.Device_ r
  = Some (ib.deviceEdits config (i + Z.of_nat k) r).
Proof.
  revert i acc k. induction results as [|r0 rest IH]; intros i acc k Hk Hlast;
    [discriminate|].
  simpl. destruct k as [|k].
  - injection Hk as ->. rewrite applyIbConfig_loop_other.
    + rewrite lookup_insert_eq, Z.add_0_r. reflexivity.
    + intros r' Hr'. apply list_elem_of_lookup in Hr' as [j Hj].
      apply (Hlast (S j)); [lia|exact Hj].
  - simpl in Hk. rewrite (IH (i + 1) _ k Hk).
    + f_equal. f_equal. lia.
    + intros j r' Hj Hr'. apply (Hlast (S j)); [lia|exact Hr'].
Qed.

Lemma applyIbConfig_loop_dom config i results name :
  is_Some (ib.applyIbConfig_loop config i results ∅ !! name)
  <-> exists r, r ∈ results /\ ib.Device_ r = name.
Proof.
  assert (Hgen : forall acc i,
             is_Some (ib.applyIbConfig_loop config i results acc !! name)
             <-> is_Some (acc !! name) \/ exists r, r ∈ results /\ ib.Device_ r = name).
  { induction results as [|r0 rest IH]; intros acc j; simpl.
    - split; [auto|]. intros [Hacc|(r & Hr & _)]; [exact Hacc|inversion Hr].
    - rewrite IH. destruct (decide (ib.Device_ r0 = name)) as [<-|Hne].
      + rewrite lookup_insert_eq. split.
        * intros _. right. exists r0. split; [left|reflexivity].
        * intros _. left. eauto.
      + rewrite lookup_insert_ne by exact Hne. split.
        * intros [Hacc|(r & Hr & Hn)]; [left; exact Hacc|].
          right. exists r. split; [right; exact Hr|exact Hn].
        * intros [Hacc|(r & Hr & Hn)]; [left; exact Hacc|].
          apply elem_of_cons in Hr as [->|Hr]; [contradiction|].
          right. exists r. split; assumption. }
  rewrite Hgen, lookup_empty. split; [intros [[x Hx]|Hr]; [discriminate|exact Hr]|auto].
Qed.

Lemma applyIbConfig_valid config results :
  v1alpha1.Validate (Some config) = None ->
  ib.applyIbConfig (Some config) results
  = (Some (ib.applyIbConfig_loop config 0 results ∅), None).
Proof. intros Hvalid. unfold ib.applyIbConfig. simpl v1alpha1.Normalize. rewrite Hvalid. reflexivity. Qed.

(** C8. For a valid configuration, [applyIbConfig] returns edits for
    exactly the devices named by the allocation results. The edits of
    the device named at position [i] (the last result naming it) hold
    the environment of the specification, in this order: the positional
    variable; the adapter and port variables exactly when the name reads
    "<adapter>-port<N>", cut at the first "-port"; the partition key as
    0x and four hex digits, the traffic class and the MTU in decimal,
    each only if set; and they hold one createRuntime hook carrying the
    adapter name when the name parsed, no hook otherwise. *)
Theorem applyIbConfig_spec config results :
  v1alpha1.Validate (Some config) = None ->
  exists edits,
    ib.applyIbConfig (Some config) results = (Some edits, None)
    /\ (forall name,
          is_Some (edits !! name) <-> exists r, r ∈ results /\ ib.Device_ r = name)
    /\ forall i r,
         results !! i = Some r ->
         (forall j r', (i < j)%nat -> results !! j = Some r' ->
                       ib.Device_ r' <> ib.Device_ r) ->
         exists e,
           edits !! ib.Device_ r = Some e
           /\ (forall adapter port,
                 spec.splits (ib.Device_ r) adapter port ->
                 ib.Env e = spec.environment config (Z.of_nat i) (ib.Device_ r)
                              (Some (adapter, port))
                 /\ ib.Hooks e = [spec.isolation_hook adapter])
           /\ (~ spec.has_separator (ib.Device_ r) ->
               ib.Env e = spec.environment config (Z.of_nat i) (ib.Device_ r) None
               /\ ib.Hooks e = []).
Proof.
  intros Hvalid. eexists. split; [apply applyIbConfig_valid; exact Hvalid|].
  split; [intros name; apply applyIbConfig_loop_dom|].
  intros i [name] Hi Hlast.
  exists (ib.deviceEdits config (Z.of_nat i) {| ib.Device_ := name |}). split.
  - rewrite (applyIbConfig_loop_lookup _ _ _ _ _ _ Hi Hlast), Z.add_0_l. reflexivity.
  - simpl ib.Device_. split.
    + intros adapter port Hsplit.
      rewrite (deviceEdits_parsed _ _ _ _ _ Hvalid Hsplit). split; reflexivity.
    + intros Hno.
      rewrite (deviceEdits_unparsed _ _ _ Hvalid Hno). split; reflexivity.
Qed.

(** C10. The parse of a device name is a cut at the first "-port" and
    nothing more: for a valid configuration and every result whose name
    contains "-port", the name reads <before>-port<after> at its first
    "-port", the second and third variables of its environment are the
    adapter variable with <before> and the port variable with <after>,
    whatever <after> is, and its one hook carries <before>. So
    "foo-port" gives adapter "foo" with an empty port, and "a-portxyz"
    gives adapter "a" with port "xyz". *)
Theorem applyIbConfig_cuts_at_first_separator config results i r :
  v1alpha1.Validate (Some config) = None ->
  results !! i = Some r ->
  (forall j r', (i < j)%nat -> results !! j = Some r' -> ib.Device_ r' <> ib.Device_ r) ->
  spec.has_separator (ib.Device_ r) ->
  (exists edits e before after,
     ib.applyIbConfig (Some config) results = (Some edits, None)
     /\ edits !! ib.Device_ r = Some e
     /\ spec.splits (ib.Device_ r) before after
     /\ ib.Env e !! 1%nat
        = Some ("IB_DEVICE_" +:+ Itoa (Z.of_nat i) +:+ "_IBDEV=" +:+ before)
     /\ ib.Env e !! 2%nat
        = Some ("IB_DEVICE_" +:+ Itoa (Z.of_nat i) +:+ "_PORT=" +:+ after)
     /\ ib.Hooks e
        = [ {| ib.HookName := "createRuntime";
               ib.Path := ib.hookPath;
               ib.Args := [ib.hookPath; "move-netdev"; "--ib-dev"; before] |} ])
  /\ spec.splits "foo-port" "foo" ""
  /\ spec.splits "a-portxyz" "a" "xyz".
Proof.
  intros Hvalid Hi Hlast Hsep. split; [|split].
  - destruct (has_separator_splits _ Hsep) as (before & after & Hsplit).
    eexists _, _, before, after.
    split; [apply applyIbConfig_valid; exact Hvalid|].
    split; [apply (applyIbConfig_loop_lookup _ _ _ _ _ _ Hi Hlast)|].
    split; [exact Hsplit|].
    destruct r as [name]. simpl in Hsplit. rewrite Z.add_0_l.
    rewrite (deviceEdits_parsed _ _ _ _ _ Hvalid Hsplit).
    repeat split.
  - apply (Cut_Some "foo-port" "-port" "foo" ""). reflexivity.
  - apply (Cut_Some "a-portxyz" "-port" "a" "xyz"). reflexivity.
Qed.

Lemma applyIbConfig_spec_witness :
  exists edits e,
    ib.applyIbConfig (Some pkey_8001) two_results = (Some edits, None)
    /\ edits !! "mlx5_1-port2" = Some e
    /\ ib.Env e = ["IB_DEVICE_0=mlx5_1-port2"; "IB_DEVICE_0_IBDEV=mlx5_1";
                   "IB_DEVICE_0_PORT=2"; "IB_DEVICE_0_PKEY=0x8001"]
    /\ ib.Hooks e = [spec.isolation_hook "mlx5_1"].
Proof.
  destruct (applyIbConfig_spec pkey_8001 two_results eq_refl)
    as (edits & Hrun & _ & Hedits).
  destruct (Hedits 0%nat {| ib.Device_ := "mlx5_1-port2" |} eq_refl)
    as (e & He & Hparsed & _).
  - intros [|[|j]] r' Hj Hr'; try lia; [|discriminate].
    injection Hr' as <-. discriminate.
  - destruct (Hparsed "mlx5_1" "2") as [Henv Hhook].
    + apply (Cut_Some "mlx5_1-port2" "-port" "mlx5_1" "2"). reflexivity.
    + exists edits, e. repeat split; assumption.
Defined.

Lemma applyIbConfig_cuts_at_first_separator_witness :
  exists edits e,
    ib.applyIbConfig (Some pkey_8001) [ {| ib.Device_ := "foo-port" |} ]
    = (Some edits, None)
    /\ edits !! "foo-port" = Some e
    /\ ib.Env e !! 1%nat = Some "IB_DEVICE_0_IBDEV=foo"
    /\ ib.Env e !! 2%nat = Some "IB_DEVICE_0_PORT="
    /\ ib.Hooks e = [spec.isolation_hook "foo"].
Proof.
  destruct (applyIbConfig_cuts_at_first_separator pkey_8001
              [ {| ib.Device_ := "foo-port" |} ] 0%nat {| ib.Device_ := "foo-port" |}
              eq_refl eq_refl)
    as [(edits & e & before & after & Hrun & He & Hsplit & Hdev & Hport & Hhook) _].
  - intros [|j] r' Hj Hr'; [lia|discriminate].
  - exists "foo", "". reflexivity.
  - pose proof (SplitN2_splits _ _ _ Hsplit) as Hcut.
    injection Hcut as <- <-.
    exists edits, e. repeat split; assumption.
Defined.

(** ** The hook helper *)

Section hook_facts.
Context {W : Type} `{Host W}.

Lemma MoveNetdev_ok netDev pid (s s1 s2 : St W) out1 out2 :
  CombinedOutput "ip" (spec.ip_netns netDev pid) s = ((out1, None), s1) ->
  CombinedOutput "nsenter" (spec.nsenter_up netDev pid) s1 = ((out2, None), s2) ->
  netns.MoveNetdevToContainerNetns netDev pid s = (None, s2).
Proof.
  intros Hip Hup. unfold netns.MoveNetdevToContainerNetns.
  unfold spec.ip_netns in Hip. unfold spec.nsenter_up in Hup.
  rewrite Hip, Hup. reflexivity.
Qed.

Lemma MoveNetdev_fails netDev pid (s : St W) :
  spec.move_fails pid netDev s ->
  exists e, (netns.MoveNetdevToContainerNetns netDev pid s).1 = Some e.
Proof.
  unfold spec.move_fails, spec.ip_netns, spec.nsenter_up, netns.MoveNetdevToContainerNetns.
  intros [(out & e & s1 & Hip)|(out1 & s1 & out2 & e & s2 & Hip & Hup)].
  - rewrite Hip. eexists. reflexivity.
  - rewrite Hip, Hup. eexists. reflexivity.
Qed.

Lemma moveNetdevs_moved netDevs pid (s s1 : St W) :
  spec.moved pid netDevs s s1 -> ib.moveNetdevs netDevs pid s = (None, s1).
Proof.
  induction 1 as [s|netDev rest s out1 s1 out2 s2 s3 Hip Hup _ IH]; simpl; [reflexivity|].
  rewrite (MoveNetdev_ok _ _ _ _ _ _ _ Hip Hup). exact IH.
Qed.

Lemma moveNetdevs_fails done netDev rest pid (s s1 : St W) :
  spec.moved pid done s s1 ->
  spec.move_fails pid netDev s1 ->
  exists e,
    ib.moveNetdevs (done ++ netDev :: rest) pid s
    = (Some e, (netns.MoveNetdevToContainerNetns netDev pid s1).2).
Proof.
  intros Hdone Hfail.
  induction Hdone as [s|nd l s out1 s1 out2 s2 s3 Hip Hup _ IH]; simpl.
  - destruct (MoveNetdev_fails _ _ _ Hfail) as [e He].
    destruct (netns.MoveNetdevToContainerNetns netDev pid s) as [err s'].
    simpl in He. subst err. eexists. reflexivity.
  - rewrite (MoveNetdev_ok _ _ _ _ _ _ _ Hip Hup). apply IH. exact Hfail.
Qed.

(** C9. The hook helper, for the network interfaces sysfs lists under
    the adapter: when the move of one of them fails (the move into the
    namespace, or bringing it up there) after the ones before it
    succeeded, the helper returns an error, in the state that failed
    move left: the RDMA move is not tried. When every interface is moved
    and brought up, the helper returns success in the state the RDMA
    move left, whether the RDMA move succeeded or not. *)
Theorem hook_asymmetry ibDevName pid (s : St W) :
  let netDevs := sysfs.findNetDevices ibDevName (world s) in
  (forall done netDev rest s1,
      netDevs = done ++ netDev :: rest ->
      spec.moved pid done s s1 ->
      spec.move_fails pid netDev s1 ->
      exists e,
        ib.MoveNetdevHookHelper ibDevName pid s
        = (Some e, (netns.MoveNetdevToContainerNetns netDev pid s1).2))
  /\ (forall s1,
        spec.moved pid netDevs s s1 ->
        forall rdmaErr s2,
          netns.MoveRDMADevToContainerNetns ibDevName pid s1 = (rdmaErr, s2) ->
          ib.MoveNetdevHookHelper ibDevName pid s = (None, s2)).
Proof.
  intros netDevs.
  assert (Hhelper : ib.MoveNetdevHookHelper ibDevName pid s
                    = let '(err, s1) := ib.moveNetdevs netDevs pid s in
                      match err with
                      | Some e => (Some e, s1)
                      | None =>
                          (None, (netns.MoveRDMADevToContainerNetns ibDevName pid s1).2)
                      end).
  { unfold ib.MoveNetdevHookHelper, sysfs.GetIBDeviceInfo.
    destruct (filepath_EvalSymlinks _ (world s)) as [pciPath lerr].
    destruct (os_ReadDir _ (world s)) as [portEntries perr].
    simpl sysfs.NetDevices. fold netDevs.
    destruct (ib.moveNetdevs netDevs pid s) as [[e|] s1]; [reflexivity|].
    destruct (netns.MoveRDMADevToContainerNetns ibDevName pid s1). reflexivity. }
  split.
  - intros done netDev rest s1 Hdevs Hdone Hfail.
    destruct (moveNetdevs_fails done netDev rest pid s s1 Hdone Hfail) as [e He].
    exists e. rewrite Hhelper, Hdevs, He. reflexivity.
  - intros s1 Hmoved rdmaErr s2 Hrdma.
    rewrite Hhelper, (moveNetdevs_moved _ _ _ _ Hmoved), Hrdma. reflexivity.
Qed.

End hook_facts.

Lemma hook_asymmetry_witness :
  (exists s2, ib.MoveNetdevHookHelper "mlx5_0" 4242 (boot rdma_unsupported) = (None, s2))
  /\ (exists e s', ib.MoveNetdevHookHelper "mlx5_0" 4242 (boot nsenter_broken)
                   = (Some e, s')).
Proof.
  split.
  - destruct (hook_asymmetry "mlx5_0" 4242 (boot rdma_unsupported)) as [_ Hok].
    eexists. eapply Hok.
    + change (sysfs.findNetDevices "mlx5_0" (world (boot rdma_unsupported)))
        with ["ib_mlx5_0"].
      eapply spec.moved_cons; [reflexivity|reflexivity|apply spec.moved_nil].
    + reflexivity.
  - destruct (hook_asymmetry "mlx5_0" 4242 (boot nsenter_broken)) as [Hfail _].
    destruct (Hfail [] "ib_mlx5_0" [] (boot nsenter_broken)) as [e He].
    + reflexivity.
    + apply spec.moved_nil.
    + right. do 5 eexists. split; reflexivity.
    + eauto.
Defined.

(** The two runs of the specification's example: the RDMA move alone
    fails and the hook succeeds, having run all three commands; an
    interface cannot be brought up and the hook fails, the RDMA move not
    tried. *)
Example hook_rdma_failure_swallowed :
  (ib.MoveNetdevHookHelper "mlx5_0" 4242 (boot rdma_unsupported)).1 = None
  /\ (netns.MoveRDMADevToContainerNetns "mlx5_0" 4242 (boot rdma_unsupported)).1 <> None
  /\ commands (trace (ib.MoveNetdevHookHelper "mlx5_0" 4242 (boot rdma_unsupported)).2)
     = [("ip", ["link"; "set"; "ib_mlx5_0"; "netns"; "4242"]);
        ("nsenter", ["-t"; "4242"; "-n"; "--"; "ip"; "link"; "set"; "ib_mlx5_0"; "up"]);
        ("rdma", ["dev"; "set"; "mlx5_0"; "netns"; "4242"])].
Proof. split; [|split]; vm_compute; [reflexivity|discriminate|reflexivity]. Qed.

Example hook_interface_failure_fatal :
  (ib.MoveNetdevHookHelper "mlx5_0" 4242 (boot nsenter_broken)).1
  = Errorf "move netdev ib_mlx5_0: bring up netdev ib_mlx5_0 in container netns: exit status 1 (output: )"
  /\ commands (trace (ib.MoveNetdevHookHelper "mlx5_0" 4242 (boot nsenter_broken)).2)
     = [("ip", ["link"; "set"; "ib_mlx5_0"; "netns"; "4242"]);
        ("nsenter", ["-t"; "4242"; "-n"; "--"; "ip"; "link"; "set"; "ib_mlx5_0"; "up"])].
Proof. split; vm_compute; reflexivity. Qed.

(* ===================================================================== *)
(** * Further properties of the code *)
(* ===================================================================== *)

(** ** MTU codes and speeds *)

(** X1. [mtuEnumToBytes] turns the five MTU codes of libibverbs into the
    five sizes [IbMTU.Validate] accepts, 128 * 2^code, and every other
    code into 0, which [IbMTU.Validate] rejects; [IbMTU.Validate] accepts
    exactly the powers of two from 256 to 4096. *)
Theorem mtuEnumToBytes_IbMTU (mtuEnum : Z) :
  (1 <= mtuEnum <= 5 ->
   ibverbs.mtuEnumToBytes mtuEnum = 128 * 2 ^ mtuEnum
   /\ v1alpha1.IbMTU_Validate (ibverbs.mtuEnumToBytes mtuEnum) = None)
  /\ (~ 1 <= mtuEnum <= 5 ->
      ibverbs.mtuEnumToBytes mtuEnum = 0
      /\ v1alpha1.IbMTU_Validate (ibverbs.mtuEnumToBytes mtuEnum) <> None)
  /\ (forall m, v1alpha1.IbMTU_Validate m = None
                <-> exists k, 8 <= k <= 12 /\ m = 2 ^ k).
Proof.
  split; [|split].
  - intros Hr.
    assert (Hc : mtuEnum = 1 \/ mtuEnum = 2 \/ mtuEnum = 3 \/ mtuEnum = 4 \/ mtuEnum = 5)
      by lia.
    destruct Hc as [->|[->|[->|[->| ->]]]]; split; reflexivity.
  - intros Hr. destruct mtuEnum as [|q|q]; try (split; [reflexivity|discriminate]).
    do 3 (try destruct q as [q|q|]); try (split; [reflexivity|discriminate]); lia.
  - intros m. split.
    + unfold v1alpha1.IbMTU_Validate. intros Hv.
      destruct m as [|q|q]; try discriminate.
      do 13 (try (destruct q as [q|q|]; try discriminate)).
      * exists 12. split; [lia|reflexivity].
      * exists 11. split; [lia|reflexivity].
      * exists 10. split; [lia|reflexivity].
      * exists 9. split; [lia|reflexivity].
      * exists 8. split; [lia|reflexivity].
    + intros (k & Hk & ->).
      assert (Hc : k = 8 \/ k = 9 \/ k = 10 \/ k = 11 \/ k = 12) by lia.
      destruct Hc as [->|[->|[->|[->| ->]]]]; reflexivity.
Qed.

Lemma mtuEnumToBytes_IbMTU_witness :
  ibverbs.mtuEnumToBytes 5 = 4096
  /\ v1alpha1.IbMTU_Validate (ibverbs.mtuEnumToBytes 5) = None.
Proof.
  destruct (mtuEnumToBytes_IbMTU 5) as [Hin _].
  destruct (Hin ltac:(lia)) as [Hval Hok]. split; [exact Hval|exact Hok].
Defined.

(** X2. On a port one lane wide, [EffectiveSpeed] prints what
    [LinkSpeed.String] prints, for every speed code but two: code 1,
    where it prints the truncated "2Gb/s" against "2.5Gb/s", and code
    512, which its table does not know and which it prints as "512Gb/s"
    against "400Gb/s". *)
Theorem EffectiveSpeed_vs_LinkSpeed_String (p : ibverbs.PortInfo) :
  in_cint (ibverbs.ActiveSpeed p) ->
  spec.lane_multiplier (ibverbs.ActiveWidth p) = 1 ->
  (ibverbs.ActiveSpeed p <> 1 -> ibverbs.ActiveSpeed p <> 512 ->
   ibverbs.EffectiveSpeed p = ibverbs.LinkSpeed_String (ibverbs.ActiveSpeed p))
  /\ (ibverbs.ActiveSpeed p = 1 ->
      ibverbs.EffectiveSpeed p = "2Gb/s"
      /\ ibverbs.LinkSpeed_String (ibverbs.ActiveSpeed p) = "2.5Gb/s")
  /\ (ibverbs.ActiveSpeed p = 512 ->
      ibverbs.EffectiveSpeed p = "512Gb/s"
      /\ ibverbs.LinkSpeed_String (ibverbs.ActiveSpeed p) = "400Gb/s").
Proof.
  intros Hc Hm. rewrite EffectiveSpeed_tables, Hm.
  assert (Hone : int_mul (ibverbs.ActiveSpeed p) 1 = ibverbs.ActiveSpeed p).
  { rewrite int_mul_cint by (auto; lia). lia. }
  rewrite Hone. clear Hone Hc Hm.
  generalize (ibverbs.ActiveSpeed p). intros speed.
  split; [|split].
  - intros H1 H512.
    destruct speed as [|q|q]; try reflexivity.
    do 10 (try destruct q as [q|q|]; try reflexivity); congruence.
  - intros ->. split; reflexivity.
  - intros ->. split; reflexivity.
Qed.

Lemma EffectiveSpeed_vs_LinkSpeed_String_witness :
  ibverbs.EffectiveSpeed qdr_1x = ibverbs.LinkSpeed_String 4.
Proof.
  destruct (EffectiveSpeed_vs_LinkSpeed_String qdr_1x) as [Hsame _].
  - unfold in_cint. simpl. lia.
  - reflexivity.
  - apply Hsame; simpl; lia.
Defined.

(** ** Hexadecimal identifiers *)

Lemma string_app_length (a b : string) :
  String.length (a +:+ b) = (String.length a + String.length b)%nat.
Proof.
  induction a as [|x a IH]; [reflexivity|].
  rewrite app_String. simpl. rewrite IH. reflexivity.
Qed.

Lemma pad0_length width s :
  String.length (pad0 width s) = Nat.max width (String.length s).
Proof.
  unfold pad0. rewrite string_app_length.
  assert (Hz : forall n, String.length (zeros n) = n).
  { induction n as [|n IH]; simpl; [reflexivity|]. rewrite IH. reflexivity. }
  rewrite Hz. lia.
Qed.

(** A number below 16^n prints in at most n hexadecimal digits, and in at
    least one. *)
Lemma hex_go_length fuel upper z acc (n : nat) :
  0 <= z < 16 ^ Z.of_nat n -> (1 <= n)%nat ->
  (String.length (hex_go fuel upper z acc) <= n + String.length acc)%nat.
Proof.
  revert z acc n. induction fuel as [|fuel IH]; intros z acc n Hz Hn; simpl; [lia|].
  destruct (z <? 16) eqn:Hlt; [simpl; lia|].
  apply Z.ltb_ge in Hlt.
  destruct n as [|[|n]]; [lia| change (16 ^ Z.of_nat 1) with 16 in Hz; lia |].
  specialize (IH (z / 16) (String (hexdigit upper (z mod 16)) acc) (S n)).
  simpl String.length in IH.
  assert (Hdiv : 0 <= z / 16 < 16 ^ Z.of_nat (S n)).
  { replace (Z.of_nat (S (S n))) with (Z.succ (Z.of_nat (S n))) in Hz by lia.
    rewrite Z.pow_succ_r in Hz by lia.
    split; [apply Z.div_pos; lia|].
    apply Z.div_lt_upper_bound; lia. }
  specialize (IH Hdiv ltac:(lia)). lia.
Qed.

Lemma FormatHex_length upper z (n : nat) :
  0 <= z < 16 ^ Z.of_nat n -> (1 <= n)%nat ->
  (1 <= String.length (FormatHex upper z) <= n)%nat.
Proof.
  intros Hz Hn. unfold FormatHex. split.
  - simpl. destruct (z <? 16); [simpl; lia|].
    generalize (Z.to_nat (Z.log2 z)) (z / 16) (hexdigit upper (z mod 16)).
    intros f. induction f as [|f IH]; intros y c; simpl; [lia|].
    assert (Hgrow : forall f' y' acc, (1 <= String.length acc)%nat ->
               (1 <= String.length (hex_go f' upper y' acc))%nat).
    { clear. induction f' as [|f' IH']; intros y' acc Hacc; simpl; [exact Hacc|].
      destruct (y' <? 16); [simpl; lia|]. apply IH'. simpl. lia. }
    destruct (y <? 16); [simpl; lia|]. apply Hgrow. simpl. lia.
  - pose proof (hex_go_length (S (Z.to_nat (Z.log2 z))) upper z "" n Hz Hn) as Hlen.
    change (String.length "") with 0%nat in Hlen. lia.
Qed.

Section guid_facts.
Context {W : Type} `{Host W}.

(** X3. The node GUID of every device [queryDevice] returns is a 64-bit
    value, and [NodeGUIDString] prints it in exactly 16 characters. *)
Theorem NodeGUIDString_length dev (w : W) devInfo :
  ibverbs.queryDevice dev w = (Some devInfo, None) ->
  0 <= ibverbs.NodeGUID devInfo < 2 ^ 64
  /\ String.length (ibverbs.NodeGUIDString devInfo) = 16%nat.
Proof.
  unfold ibverbs.queryDevice.
  destruct (negb (ibv_open_device dev w)); [discriminate|].
  destruct (ibv_query_device dev w) as [rc attr].
  destruct (negb (rc =? 0)); [discriminate|].
  intros [= <-]. simpl ibverbs.NodeGUID.
  assert (Hr : 0 <= uint64 (ibv_get_device_guid dev w) < 2 ^ 64).
  { unfold uint64. apply Z.mod_pos_bound. lia. }
  split; [exact Hr|].
  unfold ibverbs.NodeGUIDString. simpl ibverbs.NodeGUID.
  rewrite pad0_length.
  pose proof (FormatHex_length false (uint64 (ibv_get_device_guid dev w)) 16) as Hlen.
  change (16 ^ Z.of_nat 16) with (2 ^ 64) in Hlen.
  specialize (Hlen Hr ltac:(lia)). lia.
Qed.

End guid_facts.

Lemma NodeGUIDString_length_witness :
  String.length (ibverbs.NodeGUIDString known_device) = 16%nat.
Proof.
  apply (NodeGUIDString_length
           {| dev_name := "mlx5_0"; node_type := 1; transport_type := 0 |}
           orphan_hca known_device).
  vm_compute; reflexivity.
Defined.

Lemma byte_hex_length b :
  (2 <= String.length (pad0 2 (FormatHex false b)))%nat
  /\ (0 <= b < 256 -> String.length (pad0 2 (FormatHex false b)) = 2%nat).
Proof.
  rewrite pad0_length. split; [lia|].
  intros Hb. pose proof (FormatHex_length false b 2 Hb ltac:(lia)). lia.
Qed.

Lemma concat_cons_length sep x y (l : list string) :
  String.length (String.concat sep (x :: y :: l))
  = (String.length x + String.length sep
     + String.length (String.concat sep (y :: l)))%nat.
Proof.
  change (String.concat sep (x :: y :: l))
    with (x +:+ sep +:+ String.concat sep (y :: l)).
  rewrite !string_app_length. lia.
Qed.

Lemma gid_array_bytes raw :
  length (ibverbs.gid_array raw) = 16%nat
  /\ Forall (fun b => 0 <= b < 256) (ibverbs.gid_array raw).
Proof.
  unfold ibverbs.gid_array. split.
  - rewrite length_take, length_app, length_replicate. lia.
  - apply Forall_take, Forall_app. split.
    + apply Forall_fmap, Forall_forall. intros b _. simpl.
      unfold uint8. apply Z.mod_pos_bound. lia.
    + apply Forall_replicate. lia.
Qed.

Section gid_facts.
Context {W : Type} `{Host W}.

(** X4. [formatGID] returns the empty string exactly for inputs that are
    not 16 long. The GID of every port [queryPort] returns is 16 bytes,
    and [formatGID] prints it in 39 characters: eight groups of four
    hexadecimal digits and seven colons. *)
Theorem formatGID_length :
  (forall gid, ib.formatGID gid = "" <-> length gid <> 16%nat)
  /\ (forall ctx portNum (w : W) portInfo,
        ibverbs.queryPort ctx portNum w = (Some portInfo, None) ->
        length (ibverbs.GID portInfo) = 16%nat
        /\ Forall (fun b => 0 <= b < 256) (ibverbs.GID portInfo)
        /\ String.length (ib.formatGID (ibverbs.GID portInfo)) = 39%nat).
Proof.
  assert (Hlen : forall gid,
             length gid = 16%nat ->
             (39 <= String.length (ib.formatGID gid))%nat
             /\ (Forall (fun b => 0 <= b < 256) gid ->
                 String.length (ib.formatGID gid) = 39%nat)).
  { intros gid H16.
    do 16 (destruct gid as [|? gid]; [discriminate|]).
    destruct gid; [|discriminate].
    unfold ib.formatGID, Join. simpl negb. cbv iota.
    simpl fmap. simpl nth.
    rewrite !concat_cons_length. simpl String.concat.
    rewrite !string_app_length. simpl (String.length ":").
    split.
    - repeat match goal with
             | |- context [String.length (pad0 2 (FormatHex false ?b))] =>
                 let Hb := fresh in
                 destruct (byte_hex_length b) as [Hb _];
                 generalize dependent (String.length (pad0 2 (FormatHex false b)))
             end.
      intros. lia.
    - intros Hbytes. repeat rewrite Forall_cons in Hbytes.
      repeat match goal with
             | |- context [String.length (pad0 2 (FormatHex false ?b))] =>
                 rewrite (proj2 (byte_hex_length b)) by tauto
             end.
      reflexivity. }
  split.
  - intros gid. split.
    + intros Hempty H16. destruct (Hlen gid H16) as [Hge _].
      rewrite Hempty in Hge. simpl in Hge. lia.
    + intros Hne. unfold ib.formatGID.
      destruct (length gid =? 16)%nat eqn:E; [|reflexivity].
      apply Nat.eqb_eq in E. contradiction.
  - intros ctx portNum w portInfo. unfold ibverbs.queryPort.
    destruct (query_port_compat _ _ _) as [rc attr].
    destruct (negb (rc =? 0)); [discriminate|].
    destruct (ibv_query_gid _ _ _ _) as [grc raw].
    intros [= <-]. simpl ibverbs.GID.
    assert (Hg : length (if grc =? 0 then ibverbs.gid_array raw else replicate 16 0) = 16%nat
                 /\ Forall (fun b => 0 <= b < 256)
                      (if grc =? 0 then ibverbs.gid_array raw else replicate 16 0)).
    { destruct (grc =? 0); [apply gid_array_bytes|].
      split; [reflexivity|]. apply Forall_replicate. lia. }
    destruct Hg as [H16 Hb]. split; [exact H16|]. split; [exact Hb|].
    apply Hlen; assumption.
Qed.

End gid_facts.

Lemma formatGID_length_witness :
  String.length (ib.formatGID (ibverbs.GID edr_4x)) = 39%nat
  /\ ib.formatGID [1; 2; 3] = "".
Proof.
  destruct (formatGID_length (W := World)) as [Hempty Hport].
  split.
  - apply (Hport {| dev_name := "mlx5_0"; node_type := 1; transport_type := 0 |}
             1 one_pf edr_4x).
    vm_compute; reflexivity.
  - apply Hempty. simpl. lia.
Defined.

(** ** The snapshot and the sysfs records *)

Lemma buildEntries_elem ibDevices sysfsDevices e :
  e ∈ ib.buildEntries ibDevices sysfsDevices <->
  exists d port,
    d ∈ ibDevices /\ port ∈ ibverbs.Ports d
    /\ e = ib.buildEntry (ib.pciToIBDevOf sysfsDevices)
             (ib.sysfsMapOf sysfsDevices !! ibverbs.Name d) d port.
Proof.
  unfold ib.buildEntries. rewrite list_elem_of_bind. split.
  - intros (d & He & Hd). apply list_elem_of_fmap in He as (port & -> & Hp).
    exists d, port. auto.
  - intros (d & port & Hd & Hp & ->). exists d. split; [|exact Hd].
    apply list_elem_of_fmap. exists port. auto.
Qed.

Lemma sysfsMapOf_snoc l si :
  ib.sysfsMapOf (l ++ [si]) = <[sysfs.Name si := si]> (ib.sysfsMapOf l).
Proof. unfold ib.sysfsMapOf. rewrite foldl_snoc. reflexivity. Qed.

Lemma pciToIBDevOf_snoc l si :
  ib.pciToIBDevOf (l ++ [si])
  = if negb (String.eqb (sysfs.PCIAddress si) "") then
      <[sysfs.PCIAddress si := sysfs.Name si]> (ib.pciToIBDevOf l)
    else ib.pciToIBDevOf l.
Proof. unfold ib.pciToIBDevOf. rewrite foldl_snoc. reflexivity. Qed.

Lemma sysfsMapOf_Some l name si :
  ib.sysfsMapOf l !! name = Some si -> si ∈ l /\ sysfs.Name si = name.
Proof.
  induction l as [|x l IH] using rev_ind.
  - unfold ib.sysfsMapOf. simpl. rewrite lookup_empty. discriminate.
  - rewrite sysfsMapOf_snoc. rewrite elem_of_app, list_elem_of_singleton.
    destruct (decide (sysfs.Name x = name)) as [Heq|Hne].
    + rewrite Heq, lookup_insert_eq. intros [= <-]. auto.
    + rewrite lookup_insert_ne by exact Hne. intros Hl.
      destruct (IH Hl) as [Hin Hn]. auto.
Qed.

Lemma sysfsMapOf_last before si after :
  (forall s', s' ∈ after -> sysfs.Name s' <> sysfs.Name si) ->
  ib.sysfsMapOf (before ++ si :: after) !! sysfs.Name si = Some si.
Proof.
  induction after as [|x after IH] using rev_ind; intros Hafter.
  - rewrite sysfsMapOf_snoc, lookup_insert_eq. reflexivity.
  - rewrite app_comm_cons, app_assoc, sysfsMapOf_snoc.
    rewrite lookup_insert_ne.
    + apply IH. intros s' Hs'. apply Hafter.
      apply elem_of_app. left. exact Hs'.
    + apply Hafter. apply elem_of_app. right.
      apply list_elem_of_singleton. reflexivity.
Qed.

Lemma pciToIBDevOf_Some l pci name :
  ib.pciToIBDevOf l !! pci = Some name ->
  pci <> ""
  /\ exists si, si ∈ l /\ sysfs.PCIAddress si = pci /\ sysfs.Name si = name.
Proof.
  induction l as [|x l IH] using rev_ind.
  - unfold ib.pciToIBDevOf. simpl. rewrite lookup_empty. discriminate.
  - rewrite pciToIBDevOf_snoc.
    assert (Hold : ib.pciToIBDevOf l !! pci = Some name ->
                   pci <> ""
                   /\ exists si, si ∈ l ++ [x] /\ sysfs.PCIAddress si = pci
                                 /\ sysfs.Name si = name).
    { intros Hl. destruct (IH Hl) as (Hne & si & Hin & Hp & Hn).
      split; [exact Hne|]. exists si. rewrite elem_of_app. auto. }
    destruct (String.eqb (sysfs.PCIAddress x) "") eqn:E; simpl; [exact Hold|].
    apply String.eqb_neq in E.
    destruct (decide (sysfs.PCIAddress x = pci)) as [Heq|Hne].
    + rewrite Heq, lookup_insert_eq. intros [= <-]. split; [congruence|].
      exists x. rewrite elem_of_app, list_elem_of_singleton. auto.
    + rewrite lookup_insert_ne by exact Hne. exact Hold.
Qed.

(** X5. The sysfs record that counts for a device is the last one of
    its name: every snapshot entry of the device takes its PCI address,
    NUMA node, network interfaces and type from that record. *)
Theorem fusion_takes_last_record ibDevices sysfsDevices before si after e :
  sysfsDevices = before ++ si :: after ->
  (forall s', s' ∈ after -> sysfs.Name s' <> sysfs.Name si) ->
  e ∈ ib.buildEntries ibDevices sysfsDevices ->
  ib.IBDevName e = sysfs.Name si ->
  ib.PCIAddress e = sysfs.PCIAddress si
  /\ ib.NUMANode e = sysfs.NUMANode si
  /\ ib.NetDevices e = sysfs.NetDevices si
  /\ ib.Type_ e = (if sysfs.IsVF si then "VF" else "PF").
Proof.
  intros -> Hafter He Hname.
  apply buildEntries_elem in He as (d & port & Hd & Hp & ->).
  simpl in Hname. rewrite Hname.
  rewrite (sysfsMapOf_last before si after Hafter). simpl. auto.
Qed.

Lemma fusion_takes_last_record_witness :
  ib.PCIAddress vf_entry = "0000:3b:00.1"
  /\ ib.NUMANode vf_entry = 1
  /\ ib.NetDevices vf_entry = ["ib2"]
  /\ ib.Type_ vf_entry = "VF".
Proof.
  apply (fusion_takes_last_record [vf_device] [pf_record; vf_record]
           [pf_record] vf_record [] vf_entry).
  - reflexivity.
  - intros s' Hs'. apply elem_of_nil in Hs'. contradiction.
  - vm_compute. constructor.
  - reflexivity.
Defined.

(** X6. An entry of the snapshot is typed PF or VF. It names a parent
    device only when it is a VF whose sysfs record names a parent PCI
    address, and the parent is then the name of a sysfs record with that
    PCI address. The published device carries the parentDevice
    attribute exactly when the entry names a parent. *)
Theorem parent_resolution ibDevices sysfsDevices e :
  e ∈ ib.buildEntries ibDevices sysfsDevices ->
  (ib.Type_ e = "PF" \/ ib.Type_ e = "VF")
  /\ (ib.ParentDevice e <> "" ->
      ib.Type_ e = "VF"
      /\ exists si parent,
           si ∈ sysfsDevices /\ sysfs.Name si = ib.IBDevName e
           /\ sysfs.IsVF si = true /\ sysfs.ParentPF si <> ""
           /\ parent ∈ sysfsDevices
           /\ sysfs.PCIAddress parent = sysfs.ParentPF si
           /\ sysfs.Name parent = ib.ParentDevice e)
  /\ (is_Some (ib.Attributes (ib.publish e) !! "parentDevice")
      <-> ib.ParentDevice e <> "")
  /\ ib.Attributes (ib.publish e) !! "type" = Some (ib.StringValue (ib.Type_ e)).
Proof.
  intros He. apply buildEntries_elem in He as (d & port & Hd & Hp & ->).
  split; [|split; [|split]].
  - simpl. destruct (ib.sysfsMapOf sysfsDevices !! ibverbs.Name d) as [si|];
      [destruct (sysfs.IsVF si)|]; auto.
  - simpl. destruct (ib.sysfsMapOf sysfsDevices !! ibverbs.Name d) as [si|] eqn:Hsi;
      [|intros Hp'; contradiction].
    apply sysfsMapOf_Some in Hsi as [Hin Hn].
    destruct (sysfs.IsVF si) eqn:Hvf; simpl; [|intros Hp'; contradiction].
    destruct (String.eqb (sysfs.ParentPF si) "") eqn:Hpf; simpl;
      [intros Hp'; contradiction|].
    apply String.eqb_neq in Hpf.
    destruct (ib.pciToIBDevOf sysfsDevices !! sysfs.ParentPF si) as [parent|] eqn:Hpar;
      [|intros Hp'; contradiction].
    intros _. split; [reflexivity|].
    apply pciToIBDevOf_Some in Hpar as (_ & psi & Hpin & Hpp & Hpn).
    exists si, psi. auto 10.
  - unfold ib.publish.
    destruct (String.eqb (ib.ParentDevice _) "") eqn:E; cbn [negb ib.Attributes].
    + apply String.eqb_eq in E. rewrite E. split; [|intros Hc; contradiction].
      intros [x Hx]. vm_compute in Hx. discriminate.
    + apply String.eqb_neq in E. split; [intros _; exact E|].
      intros _. rewrite lookup_insert_eq. eauto.
  - unfold ib.publish.
    destruct (String.eqb (ib.ParentDevice _) "") eqn:E; cbn [negb ib.Attributes].
    + repeat (rewrite lookup_insert_ne by discriminate).
      rewrite lookup_insert_eq. reflexivity.
    + repeat (rewrite lookup_insert_ne by discriminate).
      rewrite lookup_insert_eq. reflexivity.
Qed.

Lemma parent_resolution_witness :
  ib.ParentDevice vf_entry = "mlx5_0" /\ ib.Type_ vf_entry = "VF".
Proof.
  assert (Hin : vf_entry ∈ ib.buildEntries [vf_device] [pf_record; vf_record]).
  { vm_compute. constructor. }
  destruct (parent_resolution _ _ _ Hin) as (_ & Hparent & _).
  split; [reflexivity|]. apply Hparent. discriminate.
Defined.

Lemma buildEntries_ports (R : ib.DeviceEntry -> ibverbs.DeviceInfo * ibverbs.PortInfo -> Prop)
    ibDevices sysfsDevices :
  (forall pci si d port, R (ib.buildEntry pci si d port) (d, port)) ->
  Forall2 R (ib.buildEntries ibDevices sysfsDevices)
    (ibDevices ≫= fun d => (fun port => (d, port)) <$> ibverbs.Ports d).
Proof.
  intros HR. unfold ib.buildEntries.
  induction ibDevices as [|d l IH]; [constructor|].
  change (Forall2 R
    ((ib.buildEntry (ib.pciToIBDevOf sysfsDevices)
        (ib.sysfsMapOf sysfsDevices !! ibverbs.Name d) d <$> ibverbs.Ports d)
     ++ (l ≫= fun ibDev =>
           ib.buildEntry (ib.pciToIBDevOf sysfsDevices)
             (ib.sysfsMapOf sysfsDevices !! ibverbs.Name ibDev) ibDev
             <$> ibverbs.Ports ibDev))
    (((fun port => (d, port)) <$> ibverbs.Ports d)
     ++ (l ≫= fun d => (fun port => (d, port)) <$> ibverbs.Ports d))).
  apply Forall2_app; [|exact IH].
  apply Forall2_fmap. apply Forall_Forall2_diag, Forall_forall.
  intros port _. apply HR.
Qed.

Lemma list_find_NoDup {A B : Type} `{EqDecision B} (f : A -> B) (l : list A) (e : A) :
  NoDup (f <$> l) -> e ∈ l ->
  exists i, list_find (fun d => f d = f e) l = Some (i, e).
Proof.
  induction l as [|x l IH]; intros Hnd Hin.
  - apply elem_of_nil in Hin. contradiction.
  - rewrite fmap_cons in Hnd. apply NoDup_cons in Hnd as [Hx Hnd].
    apply elem_of_cons in Hin as [->|Hin].
    + exists 0%nat. simpl. rewrite decide_True by reflexivity. reflexivity.
    + destruct (IH Hnd Hin) as [i Hi].
      exists (S i). simpl. rewrite decide_False.
      * rewrite Hi. reflexivity.
      * intros Heq. apply Hx. rewrite Heq.
        apply list_elem_of_fmap. exists e. auto.
Qed.

Section snapshot_facts.
Context {W : Type} `{Host W}.

(** X7. When libibverbs lists at least one device, the snapshot has one
    entry per port of each listed device, in the order of the listing,
    whatever sysfs shows (an unreadable sysfs included): name, port
    number, speed, state, firmware and GUIDs of an entry are those of
    its port and device, and the one published slice holds the devices
    of the snapshot under the same names. *)
Theorem snapshot_follows_ibverbs p (w : W) ibDevices :
  ibverbs.ListDevices w = (ibDevices, None) ->
  ibDevices <> [] ->
  exists res p',
    ib.enumerateExisting p w = (res, None, p')
    /\ Forall2 (fun e dp =>
                  ib.IBDevName e = ibverbs.Name dp.1
                  /\ ib.PortNum e = ibverbs.PortNum dp.2
                  /\ ib.DeviceName e
                     = ibverbs.Name dp.1 +:+ "-port" +:+ Itoa (ibverbs.PortNum dp.2)
                  /\ ib.LinkSpeed e = ibverbs.EffectiveSpeed dp.2
                  /\ ib.PortState e = ibverbs.PortState_String (ibverbs.State dp.2)
                  /\ ib.FirmwareVersion e = ibverbs.FirmwareVersion dp.1
                  /\ ib.NodeGUID e = ibverbs.NodeGUIDString dp.1
                  /\ ib.PortGUID e = ib.formatGID (ibverbs.GID dp.2))
         (ib.devices p')
         (ibDevices ≫= fun d => (fun port => (d, port)) <$> ibverbs.Ports d)
    /\ ib.Pools res
       = {[ ib.nodeName p :=
              {| ib.Slices := [ {| ib.Devices := ib.publish <$> ib.devices p' |} ] |} ]}
    /\ ib.Name <$> (ib.publish <$> ib.devices p') = ib.DeviceName <$> ib.devices p'
    /\ ib.nodeName p' = ib.nodeName p
    /\ ib.numVFs p' = ib.numVFs p.
Proof.
  intros Hlist Hne. unfold ib.enumerateExisting. rewrite Hlist.
  destruct ibDevices as [|d l]; [contradiction|].
  cbn [length Nat.eqb].
  destruct (sysfs.ListIBDevices w) as [sysfsDevices serr].
  eexists _, _. split; [reflexivity|]. cbn [ib.devices ib.Pools ib.nodeName ib.numVFs].
  split; [|split; [reflexivity|split; [|split; reflexivity]]].
  - apply buildEntries_ports. intros pci si d' port. simpl. auto 10.
  - rewrite <- list_fmap_compose. apply list_fmap_ext. intros i e _. reflexivity.
Qed.

(** X8. After an enumeration on a host whose device list has no name
    twice, every published device is found again by its name:
    [GetDeviceEntryByName] returns the entry it was published from. For
    any profile, the lookup finds nothing exactly for the names that no
    entry of the snapshot has. *)
Theorem published_names_resolve p (w : W) res err p' :
  laws.DeviceNamesUnique w ->
  ib.enumerateExisting p w = (res, err, p') ->
  (forall pool slice dev,
      ib.Pools res !! ib.nodeName p = Some pool ->
      slice ∈ ib.Slices pool ->
      dev ∈ ib.Devices slice ->
      exists e,
        ib.GetDeviceEntryByName p' (ib.Name dev) = Some e
        /\ e ∈ ib.devices p'
        /\ ib.publish e = dev)
  /\ (forall q name,
        ib.GetDeviceEntryByName q name = None
        <-> name ∉ ib.DeviceName <$> ib.devices q).
Proof.
  intros Huniq Henum. split.
  - intros pool slice dev Hpool Hslice Hdev.
    pose proof (enumerateExisting_cases p w) as Hcases.
    destruct (ibverbs.ListDevices w) as [ibDevices lerr] eqn:Hlist.
    destruct Hcases as [(e0 & He0 & _)|(-> & Hne & Hcase)].
    + rewrite He0 in Henum. injection Henum as <- _ _.
      simpl in Hpool. rewrite lookup_empty in Hpool. discriminate.
    + cbv zeta in Hcase. rewrite Hcase in Henum. injection Henum as <- _ <-.
      cbn [ib.Pools] in Hpool. rewrite lookup_singleton_eq in Hpool.
      injection Hpool as <-. cbn [ib.Slices] in Hslice.
      apply list_elem_of_singleton in Hslice as ->. cbn [ib.Devices] in Hdev.
      apply list_elem_of_fmap in Hdev as (e & -> & He).
      cbn [ib.devices]. unfold ib.GetDeviceEntryByName. cbn [ib.devices].
      destruct (ListDevices_unique w ibDevices None Huniq Hlist) as [Hnames Hports].
      pose proof (deviceNames_NoDup ibDevices Hnames Hports) as Hnd.
      rewrite <- (buildEntries_names ibDevices (sysfs.ListIBDevices w).1) in Hnd.
      destruct (list_find_NoDup ib.DeviceName _ e Hnd He) as [i Hi].
      exists e. change (ib.Name (ib.publish e)) with (ib.DeviceName e).
      rewrite Hi. simpl. auto.
  - intros q name. unfold ib.GetDeviceEntryByName.
    destruct (list_find _ _) as [[i e]|] eqn:Hfind; simpl.
    + apply list_find_Some in Hfind as (Hi & Hn & _). split; [discriminate|].
      intros Hnot. exfalso. apply Hnot. apply list_elem_of_fmap. exists e.
      split; [auto|]. eapply list_elem_of_lookup_2. exact Hi.
    + split; [|reflexivity]. intros _ Hin.
      apply list_elem_of_fmap in Hin as (e & -> & He).
      apply list_find_None in Hfind. rewrite Forall_forall in Hfind.
      apply (Hfind e He). reflexivity.
Qed.

End snapshot_facts.

Lemma sim_DeviceNamesUnique_orphan : laws.DeviceNamesUnique orphan_hca.
Proof.
  intros devSlice Hlist. vm_compute in Hlist. injection Hlist as <-.
  vm_compute. repeat constructor; rewrite ?elem_of_cons, ?elem_of_nil;
    intros Hc; repeat destruct Hc as [Hc|Hc]; try discriminate; try contradiction.
Qed.

Lemma snapshot_follows_ibverbs_witness :
  exists res p',
    ib.enumerateExisting (ib.NewProfile "node-1" 0) orphan_hca = (res, None, p')
    /\ length (ib.devices p') = 3%nat.
Proof.
  destruct (snapshot_follows_ibverbs (ib.NewProfile "node-1" 0) orphan_hca
              [known_device; orphan_device])
    as (res & p' & Henum & Hall & _).
  - vm_compute; reflexivity.
  - discriminate.
  - exists res, p'. split; [exact Henum|].
    apply Forall2_length in Hall. rewrite Hall. reflexivity.
Defined.

Lemma published_names_resolve_witness :
  exists e,
    ib.GetDeviceEntryByName orphan_result.2 "mlx5_0-port1" = Some e
    /\ e ∈ ib.devices orphan_result.2
    /\ ib.publish e = first_published.
Proof.
  assert (Heq : ib.enumerateExisting (ib.NewProfile "node-1" 0) orphan_hca
                = (orphan_result.1.1, orphan_result.1.2, orphan_result.2)).
  { vm_compute; reflexivity. }
  destruct (published_names_resolve _ _ _ _ _ sim_DeviceNamesUnique_orphan Heq)
    as [Hres _].
  apply (Hres {| ib.Slices := [ {| ib.Devices := orphan_published |} ] |}
              {| ib.Devices := orphan_published |} first_published).
  - vm_compute; reflexivity.
  - constructor.
  - vm_compute. constructor.
Defined.

(** ** Device names and the hook *)

Lemma list_ascii_length (s : string) :
  length (list_ascii_of_string s) = String.length s.
Proof. induction s as [|c s IH]; simpl; congruence. Qed.

Lemma list_ascii_app3 (a b c : string) :
  list_ascii_of_string (a +:+ b +:+ c)
  = list_ascii_of_string a ++ list_ascii_of_string b ++ list_ascii_of_string c.
Proof. rewrite !list_ascii_app. reflexivity. Qed.

(** No "-port" starts inside [a] when [a] itself contains none: the
    separator begins with the only dash it has. *)
Lemma separator_not_before (a n a' p' : string) :
  ~ spec.has_separator a ->
  a +:+ "-port" +:+ n = a' +:+ "-port" +:+ p' ->
  (String.length a <= String.length a')%nat.
Proof.
  intros Hno Heq. apply (f_equal list_ascii_of_string) in Heq.
  rewrite !list_ascii_app3 in Heq.
  rewrite <- !list_ascii_length.
  apply app_eq_app in Heq as [l [[Ha Hl]|[Ha Hl]]].
  - destruct l as [|c1 l]; [rewrite app_nil_r in Ha; rewrite Ha; lia|].
    exfalso. simpl in Hl.
    destruct l as [|c2 l]; [simpl in Hl; discriminate|].
    destruct l as [|c3 l]; [simpl in Hl; discriminate|].
    destruct l as [|c4 l]; [simpl in Hl; discriminate|].
    destruct l as [|c5 l]; [simpl in Hl; discriminate|].
    simpl in Hl. injection Hl as <- <- <- <- <- Hl.
    apply Hno. exists a', (string_of_list_ascii l).
    apply list_ascii_inj. rewrite list_ascii_app3, Ha.
    rewrite list_ascii_of_string_of_list_ascii. reflexivity.
  - rewrite Ha, length_app. lia.
Qed.

(** X9. The name published for a port splits back into its adapter and
    port number when the adapter name contains no "-port": the container
    edits of such a device carry the adapter and the decimal port number,
    and the hook is given the adapter. When the adapter name does
    contain "-port", the first piece is shorter than the adapter name. *)
Theorem deviceName_splits_back adapter portNum config i :
  (~ spec.has_separator adapter ->
   SplitN2 (ib.deviceName adapter portNum) "-port" = [adapter; Itoa portNum]
   /\ let edits :=
        ib.deviceEdits config i {| ib.Device_ := ib.deviceName adapter portNum |} in
      ib.Env edits !! 1%nat
      = Some ("IB_DEVICE_" +:+ Itoa i +:+ "_IBDEV=" +:+ adapter)
      /\ ib.Env edits !! 2%nat
         = Some ("IB_DEVICE_" +:+ Itoa i +:+ "_PORT=" +:+ Itoa portNum)
      /\ ib.Hooks edits
         = [ {| ib.HookName := "createRuntime"; ib.Path := ib.hookPath;
                ib.Args := [ib.hookPath; "move-netdev"; "--ib-dev"; adapter] |} ])
  /\ (spec.has_separator adapter ->
      exists first rest,
        SplitN2 (ib.deviceName adapter portNum) "-port" = [first; rest]
        /\ (String.length first < String.length adapter)%nat).
Proof.
  split.
  - intros Hno.
    assert (Hsplit : SplitN2 (ib.deviceName adapter portNum) "-port"
                     = [adapter; Itoa portNum]).
    { apply SplitN2_splits. split; [reflexivity|].
      intros a p Heq. apply (separator_not_before adapter (Itoa portNum) a p Hno).
      exact Heq. }
    split; [exact Hsplit|]. cbv zeta. unfold ib.deviceEdits.
    cbn [ib.Device_]. rewrite Hsplit. cbn [length Nat.eqb nth].
    split; [|split; [|reflexivity]].
    + destruct (v1alpha1.Pkey config), (v1alpha1.TrafficClass config),
        (v1alpha1.MTU config); reflexivity.
    + destruct (v1alpha1.Pkey config), (v1alpha1.TrafficClass config),
        (v1alpha1.MTU config); reflexivity.
  - intros (a & p & Ha).
    assert (Hsep : spec.has_separator (ib.deviceName adapter portNum)).
    { exists a, (p +:+ "-port" +:+ Itoa portNum). unfold ib.deviceName.
      rewrite Ha. apply list_ascii_inj. rewrite !list_ascii_app.
      rewrite <- !app_assoc. reflexivity. }
    pose proof Hsep as (first & rest & Hsplits)%has_separator_splits.
    exists first, rest. split; [apply SplitN2_splits; exact Hsplits|].
    destruct Hsplits as [_ Hmin].
    assert (Hle : (String.length first <= String.length a)%nat).
    { apply (Hmin a (p +:+ "-port" +:+ Itoa portNum)). unfold ib.deviceName.
      rewrite Ha. apply list_ascii_inj. rewrite !list_ascii_app.
      rewrite <- !app_assoc. reflexivity. }
    rewrite Ha, !string_app_length. simpl String.length. lia.
Qed.

Lemma deviceName_splits_back_witness :
  SplitN2 (ib.deviceName "mlx5_0" 1) "-port" = ["mlx5_0"; "1"]
  /\ exists first rest,
       SplitN2 (ib.deviceName "a-portb" 1) "-port" = [first; rest]
       /\ (String.length first < String.length "a-portb")%nat.
Proof.
  destruct (deviceName_splits_back "mlx5_0" 1 pkey_8001 0) as [Hgood _].
  destruct (deviceName_splits_back "a-portb" 1 pkey_8001 0) as [_ Hbad].
  split.
  - apply Hgood. intros (a & p & Ha).
    destruct a as [|c1 [|c2 [|c3 [|c4 [|c5 [|c6 [|c7 a]]]]]]];
      vm_compute in Ha; discriminate.
  - apply Hbad. exists "a", "b". reflexivity.
Defined.

(** X10. [ApplyConfig] gives edits or an error, never both and never
    neither. An object that is no IbConfig is refused with a fixed text
    whatever the results are, and so is a nil IbConfig pointer: only the
    nil object stands for the default configuration. When edits are
    given, they are keyed by exactly the device names of the results. *)
Theorem ApplyConfig_edits_or_error config results :
  (forall edits err,
      ib.ApplyConfig config results = (edits, err) ->
      (edits = None <-> err <> None)
      /\ (forall m name,
            edits = Some m ->
            is_Some (m !! name) <-> exists r, r ∈ results /\ ib.Device_ r = name))
  /\ (forall typeName,
        config = Some (ib.OtherObject typeName) ->
        ib.ApplyConfig config results
        = (None, Errorf "runtime object is not a recognized configuration"))
  /\ (config = Some (ib.IbConfigObject None) ->
      ib.ApplyConfig config results
      = (None, Errorf "error normalizing IB config: config is 'nil'"))
  /\ (config = None ->
      ib.ApplyConfig config results
      = ib.applyIbConfig (Some v1alpha1.DefaultIbConfig) results).
Proof.
  split; [|split; [|split]].
  - intros edits err. unfold ib.ApplyConfig.
    assert (Happly : forall c,
               ib.applyIbConfig c results = (edits, err) ->
               (edits = None <-> err <> None)
               /\ (forall m name,
                     edits = Some m ->
                     is_Some (m !! name)
                     <-> exists r, r ∈ results /\ ib.Device_ r = name)).
    { intros c. unfold ib.applyIbConfig.
      destruct (v1alpha1.Normalize c);
        [intros [= <- <-]; split; [split; [discriminate|reflexivity]|discriminate]|].
      destruct (v1alpha1.Validate c);
        [intros [= <- <-]; split; [split; [discriminate|reflexivity]|discriminate]|].
      destruct c as [c|];
        [|intros [= <- <-]; split; [split; [discriminate|reflexivity]|discriminate]].
      intros [= <- <-]. split.
      - split; [discriminate|]. intros Hc. contradiction.
      - intros m name [= <-]. apply applyIbConfig_loop_dom. }
    destruct config as [[c|typeName]|].
    + apply Happly.
    + intros [= <- <-]. split; [split; [discriminate|reflexivity]|discriminate].
    + apply Happly.
  - intros typeName ->. reflexivity.
  - intros ->. reflexivity.
  - intros ->. reflexivity.
Qed.

Lemma ApplyConfig_edits_or_error_witness :
  ib.ApplyConfig (Some (ib.OtherObject "GpuConfig")) two_results
  = (None, Errorf "runtime object is not a recognized configuration").
Proof.
  destruct (ApplyConfig_edits_or_error (Some (ib.OtherObject "GpuConfig")) two_results)
    as (_ & Hother & _).
  apply (Hother "GpuConfig"). reflexivity.
Defined.

(** ** Reading sysfs *)

Lemma omap_key_sublist {A B K : Type} (f : A -> option B) (ka : A -> K)
    (kb : B -> K) (l : list A) :
  (forall a b, f a = Some b -> kb b = ka a) ->
  (kb <$> omap f l) `sublist_of` (ka <$> l).
Proof.
  intros Hk. induction l as [|a l IH]; [constructor|].
  cbn [omap list_omap fmap list_fmap]. destruct (f a) as [b|] eqn:E.
  - cbn [fmap list_fmap]. rewrite (Hk a b E). apply sublist_skip. exact IH.
  - apply sublist_cons. exact IH.
Qed.

Lemma omap_length_filter {A B : Type} (f : A -> option B) (P : A -> bool) (l : list A) :
  (forall a b, f a = Some b -> P a = true) ->
  (length (omap f l) <= length (filter (fun a => P a = true) l))%nat.
Proof.
  intros HP. induction l as [|a l IH]; [reflexivity|].
  cbn [omap list_omap]. rewrite filter_cons.
  destruct (f a) as [b|] eqn:E.
  - rewrite decide_True by (eapply HP; exact E). simpl. lia.
  - destruct (decide (P a = true)); simpl; lia.
Qed.

Section sysfs_facts.
Context {W : Type} `{Host W}.

Lemma GetIBDeviceInfo_nil devName (w : W) :
  (sysfs.GetIBDeviceInfo devName w).2 = None
  /\ sysfs.Name (sysfs.GetIBDeviceInfo devName w).1 = devName.
Proof.
  unfold sysfs.GetIBDeviceInfo.
  destruct (filepath_EvalSymlinks _ w) as [pciPath err].
  destruct (os_ReadDir _ w) as [portEntries perr]. split; reflexivity.
Qed.

Lemma ListIBDevices_readable (w : W) entries :
  os_ReadDir sysfs.sysClassInfiniband w = (entries, None) ->
  sysfs.ListIBDevices w
  = ((fun devName => (sysfs.GetIBDeviceInfo devName w).1) <$> entries, None).
Proof.
  intros Hdir. unfold sysfs.ListIBDevices. rewrite Hdir. f_equal. clear Hdir.
  induction entries as [|n l IH]; [reflexivity|].
  cbn [omap list_omap fmap list_fmap].
  pose proof (GetIBDeviceInfo_nil n w) as [Hnil _].
  destruct (sysfs.GetIBDeviceInfo n w) as [info ierr]. simpl in Hnil. subst ierr.
  cbn [fst]. f_equal. exact IH.
Qed.

Lemma ListIBDevices_error (w : W) l e :
  sysfs.ListIBDevices w = (l, Some e) -> l = [].
Proof.
  unfold sysfs.ListIBDevices.
  destruct (os_ReadDir sysfs.sysClassInfiniband w) as [entries [e'|]].
  - destruct (IsNotExist e'); intros [= <- _]; reflexivity.
  - discriminate.
Qed.

(** X11. [ListIBDevices] drops no entry of the InfiniBand class
    directory: when the directory can be read, it returns one record per
    entry, in the order of the directory and under the entry's name. A
    missing directory gives no record and no error, any other failure to
    read it gives no record and an error. In every record, the VF counts
    are 0 unless the device is a PF, and the parent is empty unless it
    is a VF. *)
Theorem ListIBDevices_lists_every_entry (w : W) :
  (forall entries,
      os_ReadDir sysfs.sysClassInfiniband w = (entries, None) ->
      sysfs.ListIBDevices w
      = ((fun devName => (sysfs.GetIBDeviceInfo devName w).1) <$> entries, None)
      /\ sysfs.Name <$> (sysfs.ListIBDevices w).1 = entries)
  /\ (forall entries e,
        os_ReadDir sysfs.sysClassInfiniband w = (entries, Some e) ->
        sysfs.ListIBDevices w
        = ([], if IsNotExist e then None
               else Errorf ("read /sys/class/infiniband: " +:+ errtext e)))
  /\ (forall si,
        si ∈ (sysfs.ListIBDevices w).1 ->
        (sysfs.IsPF si = false ->
         sysfs.SRIOVTotalVFs si = 0 /\ sysfs.SRIOVNumVFs si = 0)
        /\ (sysfs.IsVF si = false -> sysfs.ParentPF si = "")).
Proof.
  split; [|split].
  - intros entries Hdir. rewrite (ListIBDevices_readable w entries Hdir).
    split; [reflexivity|]. cbn [fst].
    rewrite <- list_fmap_compose.
    clear Hdir. induction entries as [|n l IH]; [reflexivity|].
    cbn [fmap list_fmap compose].
    rewrite (proj2 (GetIBDeviceInfo_nil n w)). f_equal. exact IH.
  - intros entries e Hdir. unfold sysfs.ListIBDevices. rewrite Hdir.
    destruct (IsNotExist e); reflexivity.
  - intros si Hsi.
    destruct (os_ReadDir sysfs.sysClassInfiniband w) as [entries [e|]] eqn:Hdir.
    + unfold sysfs.ListIBDevices in Hsi. rewrite Hdir in Hsi.
      destruct (IsNotExist e); simpl in Hsi; apply elem_of_nil in Hsi; contradiction.
    + rewrite (ListIBDevices_readable w entries Hdir) in Hsi. cbn [fst] in Hsi.
      apply list_elem_of_fmap in Hsi as (n & -> & _).
      unfold sysfs.GetIBDeviceInfo.
      destruct (filepath_EvalSymlinks _ w) as [pciPath err].
      destruct (os_ReadDir (filepath_Join [_; "ports"]) w) as [portEntries perr].
      cbn [fst].
      cbn [sysfs.IsPF sysfs.IsVF sysfs.SRIOVTotalVFs sysfs.SRIOVNumVFs sysfs.ParentPF].
      split.
      * intros ->. auto.
      * intros ->. reflexivity.
Qed.

(** X12. [DiscoverSRIOVPFs] returns exactly the listed devices that are
    PFs with a capacity other than 0, in the order of the listing, each
    with the PCI address, name, capacity and VF count of its record; it
    fails exactly when the listing fails. *)
Theorem DiscoverSRIOVPFs_selects_PFs (w : W) :
  (forall pf,
      pf ∈ (sriov.DiscoverSRIOVPFs w).1 <->
      exists dev,
        dev ∈ (sysfs.ListIBDevices w).1
        /\ sysfs.IsPF dev = true
        /\ sysfs.SRIOVTotalVFs dev <> 0
        /\ pf = {| sriov.PCIAddress := sysfs.PCIAddress dev;
                   sriov.IBDevName := sysfs.Name dev;
                   sriov.TotalVFs := sysfs.SRIOVTotalVFs dev;
                   sriov.CurrentVFs := sysfs.SRIOVNumVFs dev |})
  /\ (sriov.IBDevName <$> (sriov.DiscoverSRIOVPFs w).1)
       `sublist_of` (sysfs.Name <$> (sysfs.ListIBDevices w).1)
  /\ ((sriov.DiscoverSRIOVPFs w).2 = None <-> (sysfs.ListIBDevices w).2 = None)
  /\ ((sysfs.ListIBDevices w).2 <> None -> (sriov.DiscoverSRIOVPFs w).1 = []).
Proof.
  unfold sriov.DiscoverSRIOVPFs.
  destruct (sysfs.ListIBDevices w) as [ibDevices [e|]] eqn:Hlist; cbn [fst snd].
  - apply ListIBDevices_error in Hlist as ->.
    split; [|split; [|split]].
    + intros pf. rewrite elem_of_nil. split; [contradiction|].
      intros (dev & Hdev & _). apply elem_of_nil in Hdev. exact Hdev.
    + apply sublist_nil_l.
    + split; discriminate.
    + reflexivity.
  - split; [|split; [|split]].
    + intros pf. rewrite list_elem_of_omap. split.
      * intros (dev & Hdev & Hsel).
        destruct (sysfs.IsPF dev) eqn:Hpf; simpl in Hsel; [|discriminate].
        destruct (sysfs.SRIOVTotalVFs dev =? 0) eqn:Htot; [discriminate|].
        apply Z.eqb_neq in Htot. injection Hsel as <-. exists dev. auto.
      * intros (dev & Hdev & Hpf & Htot & ->). exists dev. split; [exact Hdev|].
        rewrite Hpf. apply Z.eqb_neq in Htot. rewrite Htot. reflexivity.
    + apply omap_key_sublist. intros dev pf Hsel.
      destruct (negb (sysfs.IsPF dev) || (sysfs.SRIOVTotalVFs dev =? 0));
        [discriminate|]. injection Hsel as <-. reflexivity.
    + split; reflexivity.
    + intros Hc. contradiction.
Qed.

End sysfs_facts.

Lemma ListIBDevices_lists_every_entry_witness :
  sysfs.Name <$> (sysfs.ListIBDevices one_pf).1 = ["mlx5_0"]
  /\ sysfs.ListIBDevices vm_host = ([], None).
Proof.
  split.
  - destruct (ListIBDevices_lists_every_entry one_pf) as [Hread _].
    apply (Hread ["mlx5_0"]). vm_compute; reflexivity.
  - destruct (ListIBDevices_lists_every_entry vm_host) as (_ & Hmissing & _).
    apply (Hmissing []
             {| Error := "open /sys/class/infiniband: no such file or directory";
                IsNotExist := true |}).
    vm_compute; reflexivity.
Defined.

Lemma DiscoverSRIOVPFs_selects_PFs_witness :
  exists dev,
    dev ∈ (sysfs.ListIBDevices one_pf).1
    /\ sysfs.IsPF dev = true
    /\ sysfs.SRIOVTotalVFs dev <> 0
    /\ sysfs.Name dev = "mlx5_0".
Proof.
  destruct (DiscoverSRIOVPFs_selects_PFs one_pf) as [Hsel _].
  destruct (proj1 (Hsel {| sriov.PCIAddress := "0000:3b:00.0";
                           sriov.IBDevName := "mlx5_0";
                           sriov.TotalVFs := 8; sriov.CurrentVFs := 4 |}))
    as (dev & Hdev & Hpf & Htot & Heq).
  - vm_compute. constructor.
  - exists dev. split; [exact Hdev|]. split; [exact Hpf|]. split; [exact Htot|].
    injection Heq as _ Hname _ _. symmetry. exact Hname.
Defined.

Section vf_listing_facts.
Context {W : Type} `{Host W}.

Lemma ListVFs_listed pci (w : W) vfs :
  sysfs.ListVFs pci w = (vfs, None) ->
  let pfPath := filepath_Join [sysfs.sysBusPCI; pci] in
  exists entries,
    os_ReadDir pfPath w = (entries, None)
    /\ (length vfs
        <= length (filter (fun name => HasPrefix name "virtfn" = true) entries))%nat
    /\ forall vf,
         vf ∈ vfs ->
         exists name vfPath,
           name ∈ entries /\ HasPrefix name "virtfn" = true
           /\ filepath_EvalSymlinks (filepath_Join [pfPath; name]) w
              = (vfPath, None)
           /\ vf = filepath_Base vfPath.
Proof.
  cbv zeta. unfold sysfs.ListVFs.
  destruct (os_ReadDir _ w) as [entries [e|]]; [discriminate|].
  intros [= <-]. exists entries. split; [reflexivity|]. split.
  - apply omap_length_filter. intros name vf.
    destruct (HasPrefix name "virtfn"); [reflexivity|discriminate].
  - intros vf Hvf. apply list_elem_of_omap in Hvf as (name & Hname & Hsel).
    destruct (HasPrefix name "virtfn") eqn:Hpre; simpl in Hsel; [|discriminate].
    destruct (filepath_EvalSymlinks _ w) as [vfPath [le|]] eqn:Hlink;
      [discriminate|].
    injection Hsel as <-. exists name, vfPath. auto.
Qed.

(** X13. [ListVFs] fails, with no address, exactly when the directory
    of the PF cannot be read. Otherwise every address it returns is the
    last element of the resolved link of a [virtfn] entry of that
    directory, so it returns no more addresses than there are such
    entries. *)
Theorem ListVFs_counts_virtfn pci (w : W) :
  let pfPath := filepath_Join [sysfs.sysBusPCI; pci] in
  (forall entries e,
      os_ReadDir pfPath w = (entries, Some e) ->
      sysfs.ListVFs pci w
      = ([], Errorf ("read " +:+ pfPath +:+ ": " +:+ errtext e)))
  /\ (forall entries,
        os_ReadDir pfPath w = (entries, None) -> (sysfs.ListVFs pci w).2 = None)
  /\ (forall vfs,
        sysfs.ListVFs pci w = (vfs, None) ->
        exists entries,
          os_ReadDir pfPath w = (entries, None)
          /\ (length vfs
              <= length (filter (fun name => HasPrefix name "virtfn" = true) entries))%nat
          /\ forall vf,
               vf ∈ vfs ->
               exists name vfPath,
                 name ∈ entries /\ HasPrefix name "virtfn" = true
                 /\ filepath_EvalSymlinks (filepath_Join [pfPath; name]) w
                    = (vfPath, None)
                 /\ vf = filepath_Base vfPath).
Proof.
  cbv zeta. split; [|split].
  - intros entries e Hdir. unfold sysfs.ListVFs. rewrite Hdir. reflexivity.
  - intros entries Hdir. unfold sysfs.ListVFs. rewrite Hdir. reflexivity.
  - intros vfs Hlist. exact (ListVFs_listed pci w vfs Hlist).
Qed.

(** X14. With enough fuel, [waitForVFs] returns after at most 60 polls.
    When it returns no error, the directory of the PF then lists at
    least the expected number of [virtfn] entries. When the first poll
    already shows the expected number, it returns at once, without
    sleeping. *)
Theorem waitForVFs_sees_entries fuel pci expected (s : St W) :
  laws.SleepAdvances ->
  (61 <= fuel)%nat ->
  exists err s' k,
    sriov.waitForVFs fuel pci expected s = Some (err, s')
    /\ (k <= 60)%nat
    /\ trace s' = trace s ++ replicate k (EvSleep sriov.vfPollInterval)
    /\ (err = None ->
        exists entries,
          os_ReadDir (filepath_Join [sysfs.sysBusPCI; pci]) (world s')
          = (entries, None)
          /\ expected
             <= Z.of_nat (length (filter (fun name => HasPrefix name "virtfn" = true)
                                    entries)))
    /\ (spec.observes pci expected (world s) = true -> err = None /\ s' = s).
Proof.
  intros Hsleep Hfuel.
  destruct (waitForVFs_spec fuel pci expected s Hsleep Hfuel)
    as (k & e & Hwait & Hk & Hbefore & Hend).
  cbv zeta in Hbefore, Hend.
  exists e, (spec.poll_state s k), k.
  split; [exact Hwait|]. split; [exact Hk|].
  split; [apply poll_state_trace|]. split.
  - intros ->. destruct Hend as [(_ & _ & _ & Hobs)|(Hc & _)]; [|discriminate].
    unfold spec.observes in Hobs.
    destruct (sysfs.ListVFs pci (world (spec.poll_state s k))) as [vfs lerr] eqn:Hl.
    destruct lerr as [le|]; [discriminate|]. simpl in Hobs.
    destruct (ListVFs_listed pci (world (spec.poll_state s k)) vfs Hl)
      as (entries & Hdir & Hlen & _).
    exists entries. split; [exact Hdir|]. lia.
  - intros Hobs.
    assert (Hk0 : k = 0%nat).
    { destruct k as [|k]; [reflexivity|]. exfalso.
      destruct (Hbefore 0%nat ltac:(lia)) as [_ Hno].
      change (spec.poll_state s 0) with s in Hno. congruence. }
    subst k. change (spec.poll_state s 0) with s in *.
    split; [|reflexivity].
    destruct Hend as [(-> & _)|(_ & Hlate)]; [reflexivity|].
    exfalso. unfold sriov.vfSettleTimeout, Second in Hlate. lia.
Qed.

Lemma findByPCI_Some pci entries (w : W) name :
  sysfs.findByPCI pci entries w = Some name ->
  name ∈ entries
  /\ exists resolved,
       filepath_EvalSymlinks
         (filepath_Join [sysfs.sysClassInfiniband; name; "device"]) w
       = (resolved, None)
       /\ filepath_Base resolved = pci.
Proof.
  induction entries as [|entry rest IH]; [discriminate|].
  cbn [sysfs.findByPCI].
  destruct (filepath_EvalSymlinks
              (filepath_Join [sysfs.sysClassInfiniband; entry; "device"]) w)
    as [resolved [e|]] eqn:Hlink.
  - intros Hf. destruct (IH Hf) as [Hin Hres]. split; [|exact Hres].
    apply elem_of_cons. auto.
  - destruct (String.eqb (filepath_Base resolved) pci) eqn:E.
    + intros [= <-]. apply String.eqb_eq in E. split; [apply elem_of_cons; auto|].
      exists resolved. auto.
    + intros Hf. destruct (IH Hf) as [Hin Hres]. split; [|exact Hres].
      apply elem_of_cons. auto.
Qed.

Lemma findByPCI_None pci entries (w : W) name resolved :
  sysfs.findByPCI pci entries w = None ->
  name ∈ entries ->
  filepath_EvalSymlinks
    (filepath_Join [sysfs.sysClassInfiniband; name; "device"]) w
  = (resolved, None) ->
  filepath_Base resolved <> pci.
Proof.
  induction entries as [|entry rest IH]; intros Hf Hin Hlink.
  - apply elem_of_nil in Hin. contradiction.
  - cbn [sysfs.findByPCI] in Hf.
    apply elem_of_cons in Hin as [->|Hin].
    + rewrite Hlink in Hf.
      destruct (String.eqb (filepath_Base resolved) pci) eqn:E; [discriminate|].
      apply String.eqb_neq in E. exact E.
    + apply IH; [|exact Hin|exact Hlink].
      destruct (filepath_EvalSymlinks
                  (filepath_Join [sysfs.sysClassInfiniband; entry; "device"]) w)
        as [r [e|]]; [exact Hf|].
      destruct (String.eqb (filepath_Base r) pci); [discriminate|exact Hf].
Qed.

Lemma GetIBDeviceInfo_PCIAddress devName (w : W) :
  laws.JoinNested ->
  sysfs.PCIAddress (sysfs.GetIBDeviceInfo devName w).1
  = let '(pciPath, err) :=
      filepath_EvalSymlinks
        (filepath_Join [sysfs.sysClassInfiniband; devName; "device"]) w in
    if is_nil err then filepath_Base pciPath else "".
Proof.
  intros Hjoin. unfold sysfs.GetIBDeviceInfo. rewrite Hjoin.
  destruct (filepath_EvalSymlinks _ w) as [pciPath err].
  destruct (os_ReadDir (filepath_Join [_; "ports"]) w) as [portEntries perr].
  reflexivity.
Qed.

(** X15. [FindIBDeviceByPCI] and [GetIBDeviceInfo] agree: the name
    found for a PCI address is an entry of the InfiniBand class
    directory whose record has that PCI address, a failure returns the
    empty name, and a non-empty PCI address that some listed record has
    is always found. *)
Theorem FindIBDeviceByPCI_round_trip pci (w : W) :
  laws.JoinNested ->
  (forall name,
      sysfs.FindIBDeviceByPCI pci w = (name, None) ->
      exists entries,
        os_ReadDir sysfs.sysClassInfiniband w = (entries, None)
        /\ name ∈ entries
        /\ sysfs.PCIAddress (sysfs.GetIBDeviceInfo name w).1 = pci)
  /\ (forall name e, sysfs.FindIBDeviceByPCI pci w = (name, Some e) -> name = "")
  /\ (pci <> "" ->
      forall si,
        si ∈ (sysfs.ListIBDevices w).1 ->
        sysfs.PCIAddress si = pci ->
        exists name, sysfs.FindIBDeviceByPCI pci w = (name, None)).
Proof.
  intros Hjoin. unfold sysfs.FindIBDeviceByPCI. split; [|split].
  - intros name.
    destruct (os_ReadDir sysfs.sysClassInfiniband w) as [entries [e|]];
      [discriminate|].
    destruct (sysfs.findByPCI pci entries w) as [found|] eqn:Hf; [|discriminate].
    intros [= <-]. apply findByPCI_Some in Hf as (Hin & resolved & Hlink & Hbase).
    exists entries. split; [reflexivity|]. split; [exact Hin|].
    rewrite (GetIBDeviceInfo_PCIAddress found w Hjoin), Hlink. exact Hbase.
  - intros name e.
    destruct (os_ReadDir sysfs.sysClassInfiniband w) as [entries [e'|]].
    + intros [= <- _]. reflexivity.
    + destruct (sysfs.findByPCI pci entries w); [discriminate|].
      intros [= <- _]. reflexivity.
  - intros Hpci si Hsi Haddr.
    destruct (os_ReadDir sysfs.sysClassInfiniband w) as [entries [e|]] eqn:Hdir.
    + exfalso. unfold sysfs.ListIBDevices in Hsi. rewrite Hdir in Hsi.
      destruct (IsNotExist e); apply elem_of_nil in Hsi; exact Hsi.
    + rewrite (ListIBDevices_readable w entries Hdir) in Hsi. cbn [fst] in Hsi.
      apply list_elem_of_fmap in Hsi as (n & -> & Hn).
      rewrite (GetIBDeviceInfo_PCIAddress n w Hjoin) in Haddr.
      destruct (filepath_EvalSymlinks _ w) as [pciPath [le|]] eqn:Hlink;
        [simpl in Haddr; congruence|]. simpl in Haddr.
      destruct (sysfs.findByPCI pci entries w) as [found|] eqn:Hf; [eauto|].
      exfalso. exact (findByPCI_None pci entries w n pciPath Hf Hn Hlink Haddr).
Qed.

End vf_listing_facts.

Lemma string_app_assoc (a b c : string) : (a +:+ b) +:+ c = a +:+ (b +:+ c).
Proof.
  apply list_ascii_inj. rewrite !list_ascii_app, <- app_assoc. reflexivity.
Qed.

Lemma sim_JoinNested : laws.JoinNested (W := World).
Proof.
  intros a b c.
  change (((a +:+ "/" +:+ b) +:+ "/" +:+ c) = a +:+ "/" +:+ b +:+ "/" +:+ c).
  rewrite !string_app_assoc. reflexivity.
Qed.

Lemma ListVFs_counts_virtfn_witness :
  exists entries,
    os_ReadDir "/sys/bus/pci/devices/0000:3b:00.0" one_pf = (entries, None)
    /\ (4 <= length (filter (fun name => HasPrefix name "virtfn" = true) entries))%nat.
Proof.
  destruct (ListVFs_counts_virtfn "0000:3b:00.0" one_pf) as (_ & _ & Hcount).
  destruct (Hcount (sysfs.ListVFs "0000:3b:00.0" one_pf).1)
    as (entries & Hdir & Hlen & _).
  - vm_compute; reflexivity.
  - exists entries. split; [exact Hdir|].
    change (length (sysfs.ListVFs "0000:3b:00.0" one_pf).1)
      with (length ["virtfn0"; "virtfn1"; "virtfn2"; "virtfn3"]) in Hlen.
    exact Hlen.
Defined.

Lemma waitForVFs_sees_entries_witness :
  exists err s' k,
    sriov.waitForVFs 61 "0000:3b:00.0" 4 (boot one_pf) = Some (err, s')
    /\ (k <= 60)%nat.
Proof.
  destruct (waitForVFs_sees_entries 61 "0000:3b:00.0" 4 (boot one_pf)
              sim_SleepAdvances ltac:(lia))
    as (err & s' & k & Hwait & Hk & _).
  exists err, s', k. split; [exact Hwait|exact Hk].
Defined.

Lemma FindIBDeviceByPCI_round_trip_witness :
  exists name, sysfs.FindIBDeviceByPCI "0000:3b:00.0" one_pf = (name, None).
Proof.
  destruct (FindIBDeviceByPCI_round_trip "0000:3b:00.0" one_pf sim_JoinNested)
    as (_ & _ & Hfound).
  apply (Hfound ltac:(discriminate) (sysfs.GetIBDeviceInfo "mlx5_0" one_pf).1).
  - vm_compute. constructor.
  - vm_compute; reflexivity.
Defined.

(** ** The effects of provisioning *)

Section footprint_facts.
Context {W : Type} `{Host W}.

(** A PF without VFs: the count is written at once. *)
Lemma create_cases fuel pci desired total current (s : St W) :
  laws.SleepAdvances ->
  (61 <= fuel)%nat ->
  sysfs.GetSRIOVTotalVFs pci (world s) = (total, None) ->
  desired <= total ->
  sysfs.GetSRIOVNumVFs pci (world s) = (current, None) ->
  current <= 0 ->
  current <> desired ->
  let create := sysfs.SetSRIOVNumVFs pci desired s in
  exists err s',
    sriov.ProvisionVFs fuel pci desired s = Some (err, s')
    /\ ((exists e, create.1 = Some e
           /\ err = Errorf ("set sriov_numvfs to " +:+ Itoa desired +:+ " for "
                            +:+ pci +:+ ": " +:+ errtext e)
           /\ s' = create.2)
        \/ (create.1 = None
            /\ exists k, s' = spec.poll_state create.2 k
               /\ (k <= 60)%nat
               /\ ((err = None
                    /\ spec.observes pci desired (world s') = true)
                   \/ err = Errorf (spec.timed_out pci desired)))).
Proof.
  intros Hadv Hfuel Htotal Hcap Hcur Hzero Hne create.
  unfold sriov.ProvisionVFs.
  rewrite Htotal, gtb_false, Hcur by lia.
  assert ((current =? desired) = false) as -> by (apply Z.eqb_neq; exact Hne).
  rewrite gtb_false by lia.
  subst create.
  destruct (sysfs.SetSRIOVNumVFs pci desired s) as [[e2|] s2] eqn:E2; simpl.
  { eexists _, s2. split; [reflexivity|]. left. exists e2. repeat split. }
  destruct (waitForVFs_spec fuel pci desired s2 Hadv Hfuel)
    as (k & e & Hrun & Hk & Hbefore & Hend).
  rewrite Hrun.
  destruct Hend as [(-> & Hk' & Ht & Ho)|(-> & Ht)].
  - eexists None, _. split; [reflexivity|]. right.
    split; [reflexivity|]. exists k. auto.
  - eexists _, _. split; [reflexivity|]. right.
    split; [reflexivity|]. exists k. split; [reflexivity|]. split; [exact Hk|].
    right. reflexivity.
Qed.

(** The effects of one call of [ProvisionVFs], whatever the host does. *)
Lemma ProvisionVFs_effects fuel pci desired (s : St W) :
  laws.SleepAdvances ->
  (61 <= fuel)%nat ->
  let ctl := sysfs.numvfs_path pci in
  exists err s' t,
    sriov.ProvisionVFs fuel pci desired s = Some (err, s')
    /\ trace s' = trace s ++ t
    /\ ((t = [] /\ s' = s)
        \/ exists total current k,
             sysfs.GetSRIOVTotalVFs pci (world s) = (total, None)
             /\ desired <= total
             /\ sysfs.GetSRIOVNumVFs pci (world s) = (current, None)
             /\ current <> desired
             /\ (k <= 60)%nat
             /\ ((0 < current /\ t = [EvWriteFile ctl "0"] /\ err <> None)
                 \/ (0 < current
                     /\ t = [EvWriteFile ctl "0"; EvSleep (1 * Second);
                             EvWriteFile ctl (Itoa desired)]
                            ++ replicate k (EvSleep sriov.vfPollInterval))
                 \/ (current <= 0
                     /\ t = [EvWriteFile ctl (Itoa desired)]
                            ++ replicate k (EvSleep sriov.vfPollInterval)))).
Proof.
  intros Hadv Hfuel ctl.
  destruct (sysfs.GetSRIOVTotalVFs pci (world s)) as [total [e|]] eqn:Htotal.
  { unfold sriov.ProvisionVFs. rewrite Htotal.
    eexists _, s, []. rewrite app_nil_r. auto. }
  destruct (Z_le_gt_dec desired total) as [Hcap|Hover].
  2:{ unfold sriov.ProvisionVFs. rewrite Htotal, gtb_true by lia.
      eexists _, s, []. rewrite app_nil_r. auto. }
  destruct (sysfs.GetSRIOVNumVFs pci (world s)) as [current [e|]] eqn:Hcur.
  { unfold sriov.ProvisionVFs. rewrite Htotal, gtb_false, Hcur by lia.
    eexists _, s, []. rewrite app_nil_r. auto. }
  destruct (Z.eq_dec current desired) as [Heq|Hne].
  { unfold sriov.ProvisionVFs. rewrite Htotal, gtb_false, Hcur by lia.
    apply Z.eqb_eq in Heq. rewrite Heq.
    eexists _, s, []. rewrite app_nil_r. auto. }
  destruct (Z_lt_le_dec 0 current) as [Hpos|Hzero].
  - destruct (resize_cases fuel pci desired total current s
                Hadv Hfuel Htotal Hcap Hcur Hpos Hne)
      as (err & s' & Hrun & Hcases).
    cbv zeta in Hcases.
    pose proof (SetSRIOVNumVFs_trace pci 0 s) as Ht0.
    pose proof (SetSRIOVNumVFs_trace pci desired
                  (Sleep (1 * Second) (sysfs.SetSRIOVNumVFs pci 0 s).2)) as Ht1.
    cbn [Sleep trace] in Ht1. rewrite Ht0 in Ht1.
    change (Itoa 0) with "0" in Ht0, Ht1.
    destruct Hcases as [(e & _ & -> & ->)
                       |[(_ & e & _ & -> & ->)
                        |(_ & _ & k & -> & Hk & _)]].
    + eexists _, _, _. split; [exact Hrun|]. split; [exact Ht0|].
      right. exists total, current, 0%nat.
      do 5 (split; [first [assumption|reflexivity|lia]|]). left.
      split; [exact Hpos|]. split; [reflexivity|]. discriminate.
    + eexists _, _, _. split; [exact Hrun|].
      split; [rewrite Ht1, <- !app_assoc; reflexivity|].
      right. exists total, current, 0%nat.
      do 5 (split; [first [assumption|reflexivity|lia]|]). right. left.
      split; [exact Hpos|]. reflexivity.
    + eexists _, _, _. split; [exact Hrun|].
      split; [rewrite poll_state_trace, Ht1, <- !app_assoc; reflexivity|].
      right. exists total, current, k.
      do 5 (split; [first [assumption|reflexivity|lia]|]). right. left.
      split; [exact Hpos|]. reflexivity.
  - destruct (create_cases fuel pci desired total current s
                Hadv Hfuel Htotal Hcap Hcur Hzero Hne)
      as (err & s' & Hrun & Hcases).
    cbv zeta in Hcases.
    pose proof (SetSRIOVNumVFs_trace pci desired s) as Ht1.
    destruct Hcases as [(e & _ & -> & ->)|(_ & k & -> & Hk & _)].
    + eexists _, _, _. split; [exact Hrun|]. split; [exact Ht1|].
      right. exists total, current, 0%nat.
      do 5 (split; [first [assumption|reflexivity|lia]|]). right. right.
      split; [exact Hzero|]. reflexivity.
    + eexists _, _, _. split; [exact Hrun|].
      split; [rewrite poll_state_trace, Ht1, <- !app_assoc; reflexivity|].
      right. exists total, current, k.
      do 5 (split; [first [assumption|reflexivity|lia]|]). right. right.
      split; [exact Hzero|]. reflexivity.
Qed.

Lemma vf_effect_sleeps pcis k d :
  Forall (spec.vf_effect pcis) (replicate k (EvSleep d)).
Proof. apply Forall_replicate. exact I. Qed.

Lemma vf_effect_write pcis pci n :
  pci ∈ pcis -> spec.vf_effect pcis (EvWriteFile (sysfs.numvfs_path pci) (Itoa n)).
Proof. intros Hin. exists pci, n. auto. Qed.

Lemma vf_effect_mono pcis pcis' ev :
  (forall pci, pci ∈ pcis -> pci ∈ pcis') ->
  spec.vf_effect pcis ev -> spec.vf_effect pcis' ev.
Proof.
  intros Hsub. destruct ev as [path data|d|name args]; simpl; auto.
  intros (pci & n & Hin & Hp & Hd). exists pci, n. auto.
Qed.

Lemma ProvisionVFs_vf_effects fuel pci desired (s : St W) :
  laws.SleepAdvances ->
  (61 <= fuel)%nat ->
  exists err s' t,
    sriov.ProvisionVFs fuel pci desired s = Some (err, s')
    /\ trace s' = trace s ++ t
    /\ Forall (spec.vf_effect [pci]) t
    /\ (t = [] -> s' = s).
Proof.
  intros Hadv Hfuel.
  destruct (ProvisionVFs_effects fuel pci desired s Hadv Hfuel)
    as (err & s' & t & Hrun & Htrace & Hshape).
  exists err, s', t. split; [exact Hrun|]. split; [exact Htrace|].
  assert (Hpci : pci ∈ [pci]) by (apply elem_of_cons; auto).
  pose proof (vf_effect_write [pci] pci 0 Hpci) as Hw0.
  change (Itoa 0) with "0" in Hw0.
  pose proof (vf_effect_write [pci] pci desired Hpci) as Hwd.
  cbv zeta in Hshape.
  destruct Hshape as [[-> ->]
    |(total & current & k & _ & _ & _ & _ & _ & [(_ & -> & _)|[(_ & ->)|(_ & ->)]])].
  - split; [constructor|reflexivity].
  - split; [|discriminate]. repeat constructor. exact Hw0.
  - split; [|discriminate]. apply Forall_app. split.
    + repeat constructor; assumption.
    + apply vf_effect_sleeps.
  - split; [|discriminate]. apply Forall_app. split.
    + repeat constructor; assumption.
    + apply vf_effect_sleeps.
Qed.

(** X16. On a PF that has no VF, [ProvisionVFs] writes the requested
    count at once: no reset to 0 and no one-second pause come before it,
    and the only other effects are the polls, at most 60 of them. *)
Theorem ProvisionVFs_from_zero fuel pci desired total current (s : St W) :
  laws.SleepAdvances ->
  (61 <= fuel)%nat ->
  sysfs.GetSRIOVTotalVFs pci (world s) = (total, None) ->
  desired <= total ->
  sysfs.GetSRIOVNumVFs pci (world s) = (current, None) ->
  current <= 0 ->
  current <> desired ->
  let ctl := sysfs.numvfs_path pci in
  exists err s' k,
    sriov.ProvisionVFs fuel pci desired s = Some (err, s')
    /\ (k <= 60)%nat
    /\ trace s'
       = trace s ++ EvWriteFile ctl (Itoa desired)
                    :: replicate k (EvSleep sriov.vfPollInterval)
    /\ writes (trace s') = writes (trace s) ++ [(ctl, Itoa desired)]
    /\ (err = None -> spec.observes pci desired (world s') = true)
    /\ ((sysfs.SetSRIOVNumVFs pci desired s).1 <> None -> k = 0%nat /\ err <> None).
Proof.
  intros Hadv Hfuel Htotal Hcap Hcur Hzero Hne ctl.
  destruct (create_cases fuel pci desired total current s
              Hadv Hfuel Htotal Hcap Hcur Hzero Hne)
    as (err & s' & Hrun & Hcases).
  cbv zeta in Hcases.
  pose proof (SetSRIOVNumVFs_trace pci desired s) as Ht1.
  destruct Hcases as [(e & He & -> & ->)|(Hok & k & -> & Hk & Hend)].
  - eexists _, _, 0%nat. split; [exact Hrun|]. split; [lia|].
    split; [exact Ht1|]. split.
    + rewrite Ht1, writes_app. reflexivity.
    + split; [discriminate|]. intros _. split; [reflexivity|discriminate].
  - eexists _, _, k. split; [exact Hrun|]. split; [exact Hk|].
    split; [rewrite poll_state_trace, Ht1, <- app_assoc; reflexivity|]. split.
    + rewrite poll_state_trace, Ht1, !writes_app, writes_sleeps, app_nil_r.
      reflexivity.
    + split.
      * intros ->. destruct Hend as [[_ Hobs]|Hc]; [exact Hobs|discriminate].
      * intros Hc. rewrite Hok in Hc. contradiction.
Qed.

(** X17. [ProvisionVFs] touches the host only when a change is due: it
    has an effect only if both counts could be read, the request is
    within the capacity and differs from the current count. Its writes
    go to the [sriov_numvfs] file of the PF, there are at most two of
    them, and each is 0 or the requested count; it runs no command. *)
Theorem ProvisionVFs_footprint fuel pci desired (s : St W) :
  laws.SleepAdvances ->
  (61 <= fuel)%nat ->
  exists err s' t,
    sriov.ProvisionVFs fuel pci desired s = Some (err, s')
    /\ trace s' = trace s ++ t
    /\ (t = [] -> s' = s)
    /\ (t <> [] ->
        exists total current,
          sysfs.GetSRIOVTotalVFs pci (world s) = (total, None)
          /\ desired <= total
          /\ sysfs.GetSRIOVNumVFs pci (world s) = (current, None)
          /\ current <> desired)
    /\ (length (writes t) <= 2)%nat
    /\ (forall path data,
          (path, data) ∈ writes t ->
          path = sysfs.numvfs_path pci /\ (data = "0" \/ data = Itoa desired))
    /\ commands t = [].
Proof.
  intros Hadv Hfuel.
  destruct (ProvisionVFs_effects fuel pci desired s Hadv Hfuel)
    as (err & s' & t & Hrun & Htrace & Hshape).
  exists err, s', t. split; [exact Hrun|]. split; [exact Htrace|].
  cbv zeta in Hshape.
  assert (Hsleeps : forall k, commands (replicate k (EvSleep sriov.vfPollInterval)) = []).
  { intros k. induction k; [reflexivity|exact IHk]. }
  destruct Hshape as [[-> ->]
    |(total & current & k & Ht & Hcap & Hc & Hne & _ & Hshape)].
  - split; [reflexivity|]. split; [intros Hc; contradiction|].
    split; [simpl; lia|]. split; [|reflexivity].
    intros path data Hin. apply elem_of_nil in Hin. contradiction.
  - assert (Hreads : exists total current,
               sysfs.GetSRIOVTotalVFs pci (world s) = (total, None)
               /\ desired <= total
               /\ sysfs.GetSRIOVNumVFs pci (world s) = (current, None)
               /\ current <> desired) by eauto 10.
    destruct Hshape as [(_ & -> & _)|[(_ & ->)|(_ & ->)]].
    + split; [discriminate|]. split; [intros _; exact Hreads|].
      split; [simpl; lia|]. split; [|reflexivity].
      intros path data Hin. cbn in Hin.
      apply list_elem_of_singleton in Hin. injection Hin as -> ->. auto.
    + split; [discriminate|]. split; [intros _; exact Hreads|].
      rewrite writes_app, writes_sleeps, app_nil_r.
      split; [simpl; lia|]. split.
      * intros path data Hin. cbn in Hin.
        rewrite !elem_of_cons, elem_of_nil in Hin.
        destruct Hin as [Hin|[Hin|[]]]; injection Hin as -> ->; auto.
      * unfold commands. rewrite omap_app. fold (commands (replicate k (EvSleep sriov.vfPollInterval))).
        rewrite Hsleeps. reflexivity.
    + split; [discriminate|]. split; [intros _; exact Hreads|].
      rewrite writes_app, writes_sleeps, app_nil_r.
      split; [simpl; lia|]. split.
      * intros path data Hin. cbn in Hin.
        apply list_elem_of_singleton in Hin. injection Hin as -> ->. auto.
      * unfold commands. rewrite omap_app. fold (commands (replicate k (EvSleep sriov.vfPollInterval))).
        rewrite Hsleeps. reflexivity.
Qed.

End footprint_facts.

Lemma ProvisionVFs_from_zero_witness :
  exists err s' k,
    sriov.ProvisionVFs 61 "0000:5e:00.0" 2 (boot fresh_pf) = Some (err, s')
    /\ (k <= 60)%nat
    /\ trace s'
       = EvWriteFile "/sys/bus/pci/devices/0000:5e:00.0/sriov_numvfs" "2"
         :: replicate k (EvSleep sriov.vfPollInterval).
Proof.
  destruct (ProvisionVFs_from_zero 61 "0000:5e:00.0" 2 8 0 (boot fresh_pf))
    as (err & s' & k & Hrun & Hk & Htrace & _).
  - exact sim_SleepAdvances.
  - lia.
  - vm_compute; reflexivity.
  - lia.
  - vm_compute; reflexivity.
  - lia.
  - lia.
  - exists err, s', k. split; [exact Hrun|]. split; [exact Hk|]. exact Htrace.
Defined.

Lemma ProvisionVFs_footprint_witness :
  exists err s' t,
    sriov.ProvisionVFs 61 "0000:3b:00.0" 2 (boot one_pf) = Some (err, s')
    /\ trace s' = t
    /\ (length (writes t) <= 2)%nat
    /\ commands t = [].
Proof.
  destruct (ProvisionVFs_footprint 61 "0000:3b:00.0" 2 (boot one_pf)
              sim_SleepAdvances ltac:(lia))
    as (err & s' & t & Hrun & Htrace & _ & _ & Hlen & _ & Hcmd).
  exists err, s', t. auto.
Defined.

Section fleet_footprint_facts.
Context {W : Type} `{Host W}.

Lemma commands_vf_effects pcis t :
  Forall (spec.vf_effect pcis) t -> commands t = [].
Proof.
  induction 1 as [|ev t Hev _ IH]; [reflexivity|].
  destruct ev as [path data|d|name args]; [exact IH|exact IH|].
  simpl in Hev. contradiction.
Qed.

Lemma commands_app (t1 t2 : list Event) :
  commands (t1 ++ t2) = commands t1 ++ commands t2.
Proof. apply omap_app. Qed.

Lemma provisionVFs_loop_vf_effects fuel n pfs (s : St W) :
  laws.SleepAdvances ->
  (61 <= fuel)%nat ->
  exists err s' t,
    ib.provisionVFs_loop fuel n pfs s = Some (err, s')
    /\ trace s' = trace s ++ t
    /\ Forall (spec.vf_effect (sriov.PCIAddress <$> pfs)) t.
Proof.
  intros Hadv Hfuel. revert s.
  induction pfs as [|pf rest IH]; intros s.
  - exists None, s, []. rewrite app_nil_r. repeat split. constructor.
  - cbn [ib.provisionVFs_loop].
    destruct (ProvisionVFs_vf_effects fuel (sriov.PCIAddress pf)
                (if n >? sriov.TotalVFs pf then sriov.TotalVFs pf else n) s
                Hadv Hfuel)
      as (err & s1 & t1 & Hrun & Ht1 & Hall1 & _).
    rewrite Hrun.
    assert (Hall1' : Forall (spec.vf_effect (sriov.PCIAddress <$> pf :: rest)) t1).
    { eapply Forall_impl; [exact Hall1|]. intros ev. apply vf_effect_mono.
      intros pci Hpci. apply list_elem_of_singleton in Hpci as ->.
      rewrite fmap_cons. apply elem_of_cons. auto. }
    destruct err as [e|].
    + eexists _, s1, t1. auto.
    + destruct (IH s1) as (err & s2 & t2 & Hloop & Ht2 & Hall2).
      exists err, s2, (t1 ++ t2). split; [exact Hloop|].
      split; [rewrite Ht2, Ht1, app_assoc; reflexivity|].
      apply Forall_app. split; [exact Hall1'|].
      eapply Forall_impl; [exact Hall2|]. intros ev. apply vf_effect_mono.
      intros pci Hpci. rewrite fmap_cons. apply elem_of_cons. auto.
Qed.

(** X18. All an enumeration does to the host is provisioning: besides
    sleeping, its only effects are writes of a count to the
    [sriov_numvfs] file of a PF that [DiscoverSRIOVPFs] found at the
    start. It runs no command, and with [numVFs] at 0 or below it has no
    effect at all. *)
Theorem EnumerateDevices_footprint fuel p (s : St W) :
  laws.SleepAdvances ->
  (61 <= fuel)%nat ->
  exists res err p' s' t,
    ib.EnumerateDevices fuel p s = Some (res, err, p', s')
    /\ trace s' = trace s ++ t
    /\ Forall (spec.vf_effect
                 (sriov.PCIAddress <$> (sriov.DiscoverSRIOVPFs (world s)).1)) t
    /\ commands (trace s') = commands (trace s)
    /\ (ib.numVFs p <= 0 -> s' = s)
    /\ ((sriov.DiscoverSRIOVPFs (world s)).1 = [] -> s' = s).
Proof.
  intros Hadv Hfuel. unfold ib.EnumerateDevices.
  assert (Hstep : exists err s' t,
             (if ib.numVFs p >? 0 then ib.provisionVFs fuel p s else Some (None, s))
             = Some (err, s')
             /\ trace s' = trace s ++ t
             /\ Forall (spec.vf_effect
                          (sriov.PCIAddress <$> (sriov.DiscoverSRIOVPFs (world s)).1)) t
             /\ (ib.numVFs p <= 0 -> s' = s)
             /\ ((sriov.DiscoverSRIOVPFs (world s)).1 = [] -> s' = s)).
  { destruct (Z_le_gt_dec (ib.numVFs p) 0) as [Hle|Hgt].
    - rewrite gtb_false by lia. exists None, s, []. rewrite app_nil_r.
      repeat split. constructor.
    - rewrite gtb_true by lia. unfold ib.provisionVFs.
      destruct (sriov.DiscoverSRIOVPFs (world s)) as [pfs [e|]]; cbn [fst].
      + eexists _, s, []. rewrite app_nil_r. repeat split. constructor.
      + destruct pfs as [|pf rest].
        * exists None, s, []. rewrite app_nil_r. repeat split. constructor.
        * cbn [length Nat.eqb].
          destruct (provisionVFs_loop_vf_effects fuel (ib.numVFs p) (pf :: rest) s
                      Hadv Hfuel) as (err & s' & t & Hloop & Ht & Hall).
          exists err, s', t. split; [exact Hloop|]. split; [exact Ht|].
          split; [exact Hall|]. split; [lia|discriminate]. }
  destruct Hstep as (err & s' & t & -> & Ht & Hall & Hzero & Hnone).
  destruct (ib.enumerateExisting p (world s')) as [[res eerr] p'].
  exists res, eerr, p', s', t. split; [reflexivity|]. split; [exact Ht|].
  split; [exact Hall|]. split; [|split; assumption].
  rewrite Ht, commands_app, (commands_vf_effects _ t Hall), app_nil_r. reflexivity.
Qed.

(** X19. A fleet whose PFs already have their count stays as it is:
    when each discovered PF reports, through its control files, the
    capacity of its record and a current count equal to the request
    clamped to that capacity, [provisionVFs] returns no error and has no
    effect, with any fuel. *)
Theorem provisionVFs_settled fuel p (s : St W) pfs :
  sriov.DiscoverSRIOVPFs (world s) = (pfs, None) ->
  (forall pf,
      pf ∈ pfs ->
      sysfs.GetSRIOVTotalVFs (sriov.PCIAddress pf) (world s)
      = (sriov.TotalVFs pf, None)
      /\ sysfs.GetSRIOVNumVFs (sriov.PCIAddress pf) (world s)
         = (Z.min (ib.numVFs p) (sriov.TotalVFs pf), None)) ->
  ib.provisionVFs fuel p s = Some (None, s).
Proof.
  intros Hdisc Hsettled. unfold ib.provisionVFs. rewrite Hdisc.
  destruct (length pfs =? 0)%nat; [reflexivity|].
  clear Hdisc. induction pfs as [|pf rest IH]; [reflexivity|].
  cbn [ib.provisionVFs_loop].
  destruct (Hsettled pf ltac:(apply elem_of_cons; auto)) as [Htotal Hcur].
  assert (Hmin : (if ib.numVFs p >? sriov.TotalVFs pf then sriov.TotalVFs pf
                  else ib.numVFs p) = Z.min (ib.numVFs p) (sriov.TotalVFs pf)).
  { destruct (Z_le_gt_dec (ib.numVFs p) (sriov.TotalVFs pf)).
    - rewrite gtb_false by lia. lia.
    - rewrite gtb_true by lia. lia. }
  rewrite Hmin. unfold sriov.ProvisionVFs at 1.
  rewrite Htotal, gtb_false, Hcur, Z.eqb_refl by lia.
  apply IH. intros pf' Hpf'. apply Hsettled. apply elem_of_cons. auto.
Qed.

End fleet_footprint_facts.

Lemma EnumerateDevices_footprint_witness :
  exists res err p' s',
    ib.EnumerateDevices 61 (ib.NewProfile "node-1" 2) (boot one_pf)
    = Some (res, err, p', s')
    /\ commands (trace s') = [].
Proof.
  destruct (EnumerateDevices_footprint 61 (ib.NewProfile "node-1" 2) (boot one_pf)
              sim_SleepAdvances ltac:(lia))
    as (res & err & p' & s' & t & Hrun & _ & _ & Hcmd & _).
  exists res, err, p', s'. auto.
Defined.

Lemma provisionVFs_settled_witness :
  ib.provisionVFs 0 (ib.NewProfile "node-1" 2) resized = Some (None, resized).
Proof.
  apply (provisionVFs_settled 0 (ib.NewProfile "node-1" 2) resized
           [ {| sriov.PCIAddress := "0000:3b:00.0"; sriov.IBDevName := "mlx5_0";
                sriov.TotalVFs := 8; sriov.CurrentVFs := 2 |} ]).
  - vm_compute; reflexivity.
  - intros pf Hpf. apply list_elem_of_singleton in Hpf as ->.
    split; vm_compute; reflexivity.
Defined.

(** ** What libibverbs gives *)

Section verbs_facts.
Context {W : Type} `{Host W}.

Lemma queryPort_ranges ctx portNum (w : W) portInfo :
  ibverbs.queryPort ctx portNum w = (Some portInfo, None) ->
  ibverbs.PortNum portInfo = portNum
  /\ 0 <= ibverbs.LID portInfo < 65536
  /\ ibverbs.ActiveMTU portInfo ∈ [0; 256; 512; 1024; 2048; 4096]
  /\ ibverbs.LinkLayer portInfo ∈ ["InfiniBand"; "Ethernet"; "Unknown"].
Proof.
  unfold ibverbs.queryPort.
  destruct (query_port_compat _ _ _) as [rc attr].
  destruct (negb (rc =? 0)); [discriminate|].
  destruct (ibv_query_gid _ _ _ _) as [grc raw].
  intros [= <-]. cbn [ibverbs.PortNum ibverbs.LID ibverbs.ActiveMTU ibverbs.LinkLayer].
  split; [reflexivity|]. split; [|split].
  - unfold uint16. apply Z.mod_pos_bound. lia.
  - unfold ibverbs.mtuEnumToBytes.
    destruct (active_mtu attr) as [|q|q];
      try (do 3 (try (destruct q as [q|q|]))); set_solver.
  - destruct (link_layer attr =? _); [set_solver|].
    destruct (link_layer attr =? _); set_solver.
Qed.

(** X20. A device that [queryDevice] returns has the port count the
    device query reported, between 0 and 255. The ports it carries are
    exactly the answers of the ports 1 to that count that answered the
    port query: every carried port is such an answer and every such
    answer is carried, in increasing order and each at most once; the
    number passed to the C library for each is the port number itself.
    LID, MTU and link layer of a port lie in their ranges. *)
Theorem queryDevice_ports dev (w : W) devInfo :
  ibverbs.queryDevice dev w = (Some devInfo, None) ->
  ibverbs.Name devInfo = dev_name dev
  /\ 0 <= ibverbs.NumPorts devInfo <= 255
  /\ (ibverbs.PortNum <$> ibverbs.Ports devInfo)
       `sublist_of` seqZ 1 (ibverbs.NumPorts devInfo)
  /\ (length (ibverbs.Ports devInfo) <= Z.to_nat (ibverbs.NumPorts devInfo))%nat
  /\ (forall port,
        port ∈ ibverbs.Ports devInfo ->
        1 <= ibverbs.PortNum port <= ibverbs.NumPorts devInfo
        /\ uint8 (ibverbs.PortNum port) = ibverbs.PortNum port
        /\ ibverbs.queryPort dev (ibverbs.PortNum port) w = (Some port, None)
        /\ 0 <= ibverbs.LID port < 65536
        /\ ibverbs.ActiveMTU port ∈ [0; 256; 512; 1024; 2048; 4096]
        /\ ibverbs.LinkLayer port ∈ ["InfiniBand"; "Ethernet"; "Unknown"])
  /\ ibverbs.NumPorts devInfo = uint8 (phys_port_cnt (ibv_query_device dev w).2)
  /\ (forall portNum port,
        1 <= portNum <= ibverbs.NumPorts devInfo ->
        ibverbs.queryPort dev portNum w = (Some port, None) ->
        port ∈ ibverbs.Ports devInfo)
  /\ (forall port,
        port ∈ ibverbs.Ports devInfo <->
        exists portNum,
          1 <= portNum <= ibverbs.NumPorts devInfo
          /\ ibverbs.queryPort dev portNum w = (Some port, None))
  /\ ibverbs.PortNum <$> ibverbs.Ports devInfo
     = filter (fun portNum =>
                 match ibverbs.queryPort dev portNum w with
                 | (Some _, None) => true
                 | _ => false
                 end = true)
         (seqZ 1 (ibverbs.NumPorts devInfo)).
Proof.
  unfold ibverbs.queryDevice.
  destruct (negb (ibv_open_device dev w)); [discriminate|].
  destruct (ibv_query_device dev w) as [rc deviceAttr].
  destruct (negb (rc =? 0)); [discriminate|].
  intros [= <-]. cbn [ibverbs.Name ibverbs.NumPorts ibverbs.Ports].
  set (numPorts := uint8 (phys_port_cnt deviceAttr)).
  assert (Hrange : 0 <= numPorts <= 255).
  { subst numPorts. unfold uint8.
    pose proof (Z.mod_pos_bound (phys_port_cnt deviceAttr) (2 ^ 8) ltac:(lia)). lia. }
  assert (Hsub : (ibverbs.PortNum <$> ibverbs.queryPorts dev numPorts w)
                   `sublist_of` seqZ 1 numPorts).
  { unfold ibverbs.queryPorts. rewrite <- (list_fmap_id (seqZ 1 numPorts)) at 2.
    apply omap_key_sublist. intros port portInfo Hq.
    destruct (ibverbs.queryPort dev port w) as [[pi|] [e|]] eqn:E;
      try discriminate.
    injection Hq as <-. apply (queryPort_PortNum dev port w pi E). }
  assert (Hin : forall port,
             port ∈ ibverbs.queryPorts dev numPorts w <->
             exists portNum,
               1 <= portNum <= numPorts
               /\ ibverbs.queryPort dev portNum w = (Some port, None)).
  { intros port. unfold ibverbs.queryPorts. rewrite list_elem_of_omap. split.
    - intros (n & Hn & Hq). apply elem_of_seqZ in Hn.
      destruct (ibverbs.queryPort dev n w) as [[pi|] [e|]] eqn:E; try discriminate.
      injection Hq as ->. exists n. split; [lia|exact E].
    - intros (n & Hn & Hq). exists n. split; [apply elem_of_seqZ; lia|].
      rewrite Hq. reflexivity. }
  split; [reflexivity|]. split; [exact Hrange|]. split; [exact Hsub|].
  split; [|split; [|split; [|split; [|split]]]].
  - apply sublist_length in Hsub.
    rewrite length_fmap, length_seqZ in Hsub. exact Hsub.
  - intros port Hport. apply Hin in Hport as (n & Hn & E).
    destruct (queryPort_ranges dev n w port E) as (Hnum & Hlid & Hmtu & Hll).
    rewrite Hnum. split; [lia|]. split.
    + unfold uint8. apply Z.mod_small. lia.
    + auto.
  - reflexivity.
  - intros portNum port Hn Hq. apply Hin. eauto.
  - exact Hin.
  - unfold ibverbs.queryPorts. generalize (seqZ 1 numPorts). intros l.
    induction l as [|n l IH]; [reflexivity|].
    cbn [omap list_omap]. rewrite filter_cons.
    destruct (ibverbs.queryPort dev n w) as [[pi|] [e|]] eqn:E.
    + rewrite decide_False by discriminate. exact IH.
    + rewrite decide_True by reflexivity. cbn [fmap list_fmap].
      rewrite (queryPort_PortNum dev n w pi E). f_equal. exact IH.
    + rewrite decide_False by discriminate. exact IH.
    + rewrite decide_False by discriminate. exact IH.
Qed.

(** X21. An enumeration that finds no usable device publishes nothing
    and leaves the snapshot of the profile as it was. When the device
    list cannot be had, that is an error; when the list is empty, or
    every device of it is NULL or fails to open or to answer the device
    query, it is not. *)
Theorem enumerateExisting_without_devices p (w : W) :
  (ibv_get_device_list w = None ->
   ib.enumerateExisting p w
   = (ib.noResources, Errorf "ibverbs.ListDevices: ibv_get_device_list failed", p))
  /\ (forall devSlice,
        ibv_get_device_list w = Some devSlice ->
        (forall dev,
            Some dev ∈ devSlice ->
            ibv_open_device dev w = false \/ (ibv_query_device dev w).1 <> 0) ->
        ib.enumerateExisting p w = (ib.noResources, None, p)).
Proof.
  unfold ib.enumerateExisting, ibverbs.ListDevices. split.
  - intros ->. reflexivity.
  - intros devSlice -> Hdead.
    destruct (length devSlice =? 0)%nat; [reflexivity|].
    assert (Hnone : omap (fun dev : option ibv_device =>
                            match dev with
                            | None => None
                            | Some dev =>
                                match ibverbs.queryDevice dev w with
                                | (Some devInfo, None) => Some devInfo
                                | _ => None
                                end
                            end) devSlice = []).
    { induction devSlice as [|d l IH]; [reflexivity|].
      cbn [omap list_omap].
      assert (Hd : match d with
                   | None => None
                   | Some dev =>
                       match ibverbs.queryDevice dev w with
                       | (Some devInfo, None) => Some devInfo
                       | _ => None
                       end
                   end = None).
      { destruct d as [dev|]; [|reflexivity].
        unfold ibverbs.queryDevice.
        destruct (Hdead dev ltac:(apply elem_of_cons; auto)) as [Hopen|Hrc].
        - rewrite Hopen. reflexivity.
        - destruct (negb (ibv_open_device dev w)); [reflexivity|].
          destruct (ibv_query_device dev w) as [rc attr]. simpl in Hrc.
          apply Z.eqb_neq in Hrc. rewrite Hrc. reflexivity. }
      rewrite Hd. apply IH. intros dev Hdev. apply Hdead.
      apply elem_of_cons. auto. }
    rewrite Hnone. reflexivity.
Qed.

End verbs_facts.

Lemma queryDevice_ports_witness :
  ibverbs.Name known_device = "mlx5_0"
  /\ 0 <= ibverbs.NumPorts known_device <= 255
  /\ edr_4x ∈ ibverbs.Ports known_device.
Proof.
  destruct (queryDevice_ports
              {| dev_name := "mlx5_0"; node_type := 1; transport_type := 0 |}
              orphan_hca known_device)
    as (Hname & Hports & _ & _ & _ & _ & Hcarried & _).
  - vm_compute; reflexivity.
  - split; [exact Hname|]. split; [exact Hports|].
    apply (Hcarried 1 edr_4x).
    + vm_compute. split; discriminate.
    + vm_compute; reflexivity.
Defined.

Lemma enumerateExisting_without_devices_witness :
  ib.enumerateExisting (ib.NewProfile "node-1" 0) vm_host
  = (ib.noResources, None, ib.NewProfile "node-1" 0).
Proof.
  destruct (enumerateExisting_without_devices (ib.NewProfile "node-1" 0) vm_host)
    as [_ Hempty].
  apply (Hempty []).
  - reflexivity.
  - intros dev Hdev. apply elem_of_nil in Hdev. contradiction.
Defined.

(** ** The commands of the hook *)

Lemma Contains_spec (s substr : string) :
  Contains s substr = true <-> exists a b, s = a +:+ substr +:+ b.
Proof.
  unfold Contains. destruct (Cut s substr) as [[before after]|] eqn:E.
  - split; [|reflexivity]. intros _. apply Cut_Some in E as [Hs _]. eauto.
  - split; [discriminate|]. intros (a & b & Hs).
    exfalso. exact (Cut_None s substr a b E Hs).
Qed.

Section command_facts.
Context {W : Type} `{Host W}.

Lemma CombinedOutput_trace name args (s : St W) :
  trace (CombinedOutput name args s).2 = trace s ++ [EvExec name args].
Proof.
  unfold CombinedOutput. destruct (exec_CombinedOutput name args (world s)).
  reflexivity.
Qed.

Lemma MoveNetdev_trace netDev pid (s : St W) :
  let r := netns.MoveNetdevToContainerNetns netDev pid s in
  let ip := EvExec "ip" (spec.ip_netns netDev pid) in
  let up := EvExec "nsenter" (spec.nsenter_up netDev pid) in
  (r.1 = None /\ trace r.2 = trace s ++ [ip; up])
  \/ (r.1 <> None
      /\ (trace r.2 = trace s ++ [ip] \/ trace r.2 = trace s ++ [ip; up])).
Proof.
  cbv zeta. unfold netns.MoveNetdevToContainerNetns.
  pose proof (CombinedOutput_trace "ip" (spec.ip_netns netDev pid) s) as Ht1.
  unfold spec.ip_netns in Ht1.
  destruct (CombinedOutput "ip" _ s) as [[out1 [e1|]] s1]; cbn [fst snd] in *.
  - right. split; [discriminate|]. left. exact Ht1.
  - pose proof (CombinedOutput_trace "nsenter" (spec.nsenter_up netDev pid) s1) as Ht2.
    unfold spec.nsenter_up in Ht2.
    destruct (CombinedOutput "nsenter" _ s1) as [[out2 [e2|]] s2]; cbn [fst snd] in *.
    + right. split; [discriminate|]. right.
      rewrite Ht2, Ht1, <- app_assoc. reflexivity.
    + left. split; [reflexivity|]. rewrite Ht2, Ht1, <- app_assoc. reflexivity.
Qed.

Lemma moveNetdevs_trace netDevs pid (s : St W) :
  let r := ib.moveNetdevs netDevs pid s in
  let all :=
    netDevs ≫= fun netDev =>
      [EvExec "ip" (spec.ip_netns netDev pid);
       EvExec "nsenter" (spec.nsenter_up netDev pid)] in
  exists t,
    trace r.2 = trace s ++ t
    /\ t `prefix_of` all
    /\ (r.1 = None -> t = all).
Proof.
  cbv zeta. revert s. induction netDevs as [|netDev rest IH]; intros s.
  - exists []. cbn. rewrite app_nil_r. repeat split. apply prefix_nil.
  - cbn [ib.moveNetdevs].
    pose proof (MoveNetdev_trace netDev pid s) as Hone. cbv zeta in Hone.
    destruct (netns.MoveNetdevToContainerNetns netDev pid s) as [[e|] s1];
      cbn [fst snd] in *.
    + destruct Hone as [[Hc _]|[_ [Ht|Ht]]]; [discriminate| |].
      * eexists. split; [exact Ht|]. split; [|discriminate].
        apply (prefix_cons _ [] _), prefix_nil.
      * eexists. split; [exact Ht|]. split; [|discriminate].
        apply (prefix_app [_; _] [] _), prefix_nil.
    + destruct Hone as [[_ Ht]|[Hc _]]; [|contradiction].
      destruct (IH s1) as (t & Ht' & Hpre & Hall).
      exists ([EvExec "ip" (spec.ip_netns netDev pid);
               EvExec "nsenter" (spec.nsenter_up netDev pid)] ++ t).
      split; [rewrite Ht', Ht, <- app_assoc; reflexivity|].
      split; [apply (prefix_app [_; _]); exact Hpre|].
      intros Hnone. rewrite (Hall Hnone). reflexivity.
Qed.

Lemma GetIBDeviceInfo_NetDevices devName (w : W) :
  sysfs.NetDevices (sysfs.GetIBDeviceInfo devName w).1
  = sysfs.findNetDevices devName w.
Proof.
  unfold sysfs.GetIBDeviceInfo.
  destruct (filepath_EvalSymlinks _ w) as [pciPath err].
  destruct (os_ReadDir (filepath_Join [_; "ports"]) w) as [portEntries perr].
  reflexivity.
Qed.

Lemma MoveNetdevHookHelper_trace ibDevName pid (s : St W) :
  let r := ib.MoveNetdevHookHelper ibDevName pid s in
  let all :=
    spec.hook_events ibDevName (sysfs.findNetDevices ibDevName (world s)) pid in
  exists t,
    trace r.2 = trace s ++ t
    /\ t `prefix_of` all
    /\ (r.1 = None <-> t = all).
Proof.
  cbv zeta. unfold ib.MoveNetdevHookHelper, spec.hook_events.
  pose proof (GetIBDeviceInfo_nil ibDevName (world s)) as [Hnil _].
  pose proof (GetIBDeviceInfo_NetDevices ibDevName (world s)) as Hnet.
  destruct (sysfs.GetIBDeviceInfo ibDevName (world s)) as [devInfo err].
  cbn [fst snd] in Hnil, Hnet. subst err. rewrite Hnet.
  set (netDevs := sysfs.findNetDevices ibDevName (world s)).
  pose proof (moveNetdevs_trace netDevs pid s) as (t & Ht & Hpre & Hall).
  destruct (ib.moveNetdevs netDevs pid s) as [[e|] s1]; cbn [fst snd] in *.
  - exists t. split; [exact Ht|]. split; [apply prefix_app_r; exact Hpre|].
    split; [discriminate|]. intros Heq. exfalso.
    apply prefix_length in Hpre. rewrite Heq, length_app in Hpre.
    simpl in Hpre. lia.
  - unfold netns.MoveRDMADevToContainerNetns.
    pose proof (CombinedOutput_trace "rdma" (spec.rdma_netns ibDevName pid) s1) as Hr.
    unfold spec.rdma_netns in Hr.
    destruct (CombinedOutput "rdma" _ s1) as [[out re] s2]; cbn [fst snd] in *.
    exists (t ++ [EvExec "rdma" (spec.rdma_netns ibDevName pid)]).
    rewrite (Hall eq_refl) in *.
    assert (Htrace : trace s2
                     = trace s ++ (netDevs ≫= fun netDev =>
                          [EvExec "ip" (spec.ip_netns netDev pid);
                           EvExec "nsenter" (spec.nsenter_up netDev pid)])
                       ++ [EvExec "rdma" (spec.rdma_netns ibDevName pid)]).
    { rewrite Hr, Ht, <- app_assoc. reflexivity. }
    destruct re as [e|]; cbn [fst snd]; (split; [exact Htrace|]);
      (split; [reflexivity|]); split; reflexivity.
Qed.

(** X22. The hook helper runs commands and nothing else, and they are
    an initial part of one fixed sequence: for each network interface of
    the device, in the order sysfs lists them, the move into the
    namespace and the nsenter that brings it up, and after all of them
    the RDMA move. It returns no error exactly when it ran the whole
    sequence. *)
Theorem MoveNetdevHookHelper_commands ibDevName pid (s s' : St W) err :
  ib.MoveNetdevHookHelper ibDevName pid s = (err, s') ->
  let all :=
    spec.hook_events ibDevName (sysfs.findNetDevices ibDevName (world s)) pid in
  exists t,
    trace s' = trace s ++ t
    /\ t `prefix_of` all
    /\ (err = None <-> t = all)
    /\ writes (trace s') = writes (trace s)
    /\ Forall (fun ev => exists name args, ev = EvExec name args) t.
Proof.
  intros Hrun. cbv zeta.
  pose proof (MoveNetdevHookHelper_trace ibDevName pid s) as (t & Ht & Hpre & Hiff).
  rewrite Hrun in Ht, Hiff. cbn [fst snd] in Ht, Hiff.
  assert (Hexec : Forall (fun ev => exists name args, ev = EvExec name args) t).
  { destruct Hpre as [k Hk]. 
    assert (Hall : Forall (fun ev => exists name args, ev = EvExec name args)
                     (spec.hook_events ibDevName
                        (sysfs.findNetDevices ibDevName (world s)) pid)).
    { unfold spec.hook_events. apply Forall_app. split; [|repeat constructor; eauto].
      apply Forall_forall. intros ev Hev.
      apply list_elem_of_bind in Hev as (netDev & Hev & _).
      rewrite !elem_of_cons, elem_of_nil in Hev.
      destruct Hev as [->|[->|[]]]; eauto. }
    rewrite Hk in Hall. apply Forall_app in Hall as [Hall _]. exact Hall. }
  exists t. split; [exact Ht|]. split; [exact Hpre|]. split; [exact Hiff|].
  split; [|exact Hexec].
  rewrite Ht, writes_app.
  assert (Hw : writes t = []).
  { clear -Hexec. induction Hexec as [|ev t (name & args & ->) _ IH];
      [reflexivity|exact IH]. }
  rewrite Hw, app_nil_r. reflexivity.
Qed.

(** X23. The [move-netdev] subcommand does nothing on the host unless
    the OCI state was decoded and names a process other than 0: in both
    other cases it returns an error and runs no command. Otherwise what
    it runs is an initial part of the hook sequence for that process. *)
Theorem moveNetdevAction_guard ibDevName state derr (s : St W) :
  let r := kubeletplugin.moveNetdevAction ibDevName (state, derr) s in
  (derr <> None \/ kubeletplugin.Pid state = 0 -> r.1 <> None /\ r.2 = s)
  /\ exists t,
       trace r.2 = trace s ++ t
       /\ t `prefix_of`
            spec.hook_events ibDevName
              (sysfs.findNetDevices ibDevName (world s)) (kubeletplugin.Pid state)
       /\ (t <> [] -> derr = None /\ kubeletplugin.Pid state <> 0)
       /\ (r.1 = None ->
           derr = None /\ kubeletplugin.Pid state <> 0
           /\ t = spec.hook_events ibDevName
                    (sysfs.findNetDevices ibDevName (world s))
                    (kubeletplugin.Pid state)).
Proof.
  cbv zeta. unfold kubeletplugin.moveNetdevAction.
  destruct derr as [e|].
  - cbn [fst snd]. split; [intros _; split; [discriminate|reflexivity]|].
    exists []. rewrite app_nil_r. split; [reflexivity|]. split; [apply prefix_nil|].
    split; [intros Hc; contradiction|discriminate].
  - destruct (kubeletplugin.Pid state =? 0) eqn:Hpid.
    + cbn [fst snd]. split; [intros _; split; [discriminate|reflexivity]|].
      exists []. rewrite app_nil_r. split; [reflexivity|]. split; [apply prefix_nil|].
      split; [intros Hc; contradiction|discriminate].
    + apply Z.eqb_neq in Hpid. split.
      * intros [Hc|Hc]; contradiction.
      * pose proof (MoveNetdevHookHelper_trace ibDevName (kubeletplugin.Pid state) s)
          as (t & Ht & Hpre & Hiff).
        exists t. split; [exact Ht|]. split; [exact Hpre|]. split; [auto|].
        intros Hnone. split; [reflexivity|]. split; [exact Hpid|].
        apply Hiff. exact Hnone.
Qed.

(** X24. [EnsureRDMAExclusiveMode] first asks for the mode. It runs the
    command that sets the mode exactly when the query succeeded and its
    output does not contain the word exclusive; it runs nothing else.
    When the output contains the word, it returns no error after the
    query alone. *)
Theorem EnsureRDMAExclusiveMode_commands (s : St W) out qerr s1 :
  CombinedOutput "rdma" ["system"] s = ((out, qerr), s1) ->
  let r := netns.EnsureRDMAExclusiveMode s in
  let query := EvExec "rdma" ["system"] in
  let set_ := EvExec "rdma" ["system"; "set"; "netns"; "exclusive"] in
  (trace r.2 = trace s ++ [query] \/ trace r.2 = trace s ++ [query; set_])
  /\ (trace r.2 = trace s ++ [query; set_]
      <-> qerr = None /\ ~ exists a b, out = a +:+ "exclusive" +:+ b)
  /\ (qerr = None -> (exists a b, out = a +:+ "exclusive" +:+ b) ->
      r = (None, s1))
  /\ (qerr <> None -> r.1 <> None /\ r.2 = s1).
Proof.
  intros Hq. cbv zeta. unfold netns.EnsureRDMAExclusiveMode.
  pose proof (CombinedOutput_trace "rdma" ["system"] s) as Ht1.
  rewrite Hq in *. cbn [fst snd] in Ht1.
  assert (Hshort : forall ev : Event, trace s ++ [ev] <> trace s ++ [ev; EvExec "rdma" ["system"; "set"; "netns"; "exclusive"]]).
  { intros ev Hc. apply app_inv_head in Hc. discriminate. }
  destruct qerr as [e|]; cbn [fst snd].
  - split; [left; exact Ht1|]. split; [|split; [discriminate|]].
    + rewrite Ht1. split; [intros Hc; exfalso; exact (Hshort _ Hc)|].
      intros [Hc _]. discriminate.
    + intros _. split; [discriminate|reflexivity].
  - destruct (Contains out "exclusive") eqn:Hc; cbn [fst snd].
    + apply Contains_spec in Hc.
      split; [left; exact Ht1|]. split; [|split; [reflexivity|]].
      * rewrite Ht1. split; [intros Hx; exfalso; exact (Hshort _ Hx)|].
        intros [_ Hno]. contradiction.
      * intros Hx. contradiction.
    + assert (Hno : ~ exists a b, out = a +:+ "exclusive" +:+ b).
      { intros Hx. apply Contains_spec in Hx. congruence. }
      pose proof (CombinedOutput_trace "rdma" ["system"; "set"; "netns"; "exclusive"] s1)
        as Ht2.
      destruct (CombinedOutput "rdma" ["system"; "set"; "netns"; "exclusive"] s1)
        as [[out2 serr] s2]; cbn [fst snd] in *.
      assert (Htrace : trace s2
                       = trace s ++ [EvExec "rdma" ["system"];
                                     EvExec "rdma" ["system"; "set"; "netns"; "exclusive"]]).
      { rewrite Ht2, Ht1, <- app_assoc. reflexivity. }
      destruct serr as [e|]; cbn [fst snd];
        (split; [right; exact Htrace|]);
        (split; [split; [intros _; split; [reflexivity|exact Hno]
                        |intros _; exact Htrace]|]);
        (split; [intros _ Hx; contradiction|intros Hx; contradiction]).
Qed.

End command_facts.

Lemma MoveNetdevHookHelper_commands_witness :
  exists t, trace hooked = t /\ writes (trace hooked) = [].
Proof.
  destruct (MoveNetdevHookHelper_commands "mlx5_0" 4242 (boot one_pf) hooked None)
    as (t & Ht & _ & _ & Hw & _).
  - vm_compute; reflexivity.
  - exists t. split; [exact Ht|exact Hw].
Defined.

Lemma moveNetdevAction_guard_witness :
  (kubeletplugin.moveNetdevAction "mlx5_0" ({| kubeletplugin.Pid := 0 |}, None)
     (boot one_pf)).2 = boot one_pf.
Proof.
  destruct (moveNetdevAction_guard "mlx5_0" {| kubeletplugin.Pid := 0 |} None
              (boot one_pf)) as [Hguard _].
  apply Hguard. right. reflexivity.
Defined.

Lemma EnsureRDMAExclusiveMode_commands_witness :
  trace (netns.EnsureRDMAExclusiveMode (boot one_pf)).2
  = [EvExec "rdma" ["system"];
     EvExec "rdma" ["system"; "set"; "netns"; "exclusive"]].
Proof.
  destruct (EnsureRDMAExclusiveMode_commands (boot one_pf) "" None
              (CombinedOutput "rdma" ["system"] (boot one_pf)).2)
    as (_ & Hset & _).
  - vm_compute; reflexivity.
  - apply Hset. split; [reflexivity|].
    intros (a & b & Hc). destruct a; vm_compute in Hc; discriminate.
Defined.

Section destroy_facts.
Context {W : Type} `{Host W}.

(** X25. After [DestroyVFs] succeeded, the PF reads 0 VFs, a request
    for 0 VFs is then met without any effect, and a request for another
    count within the capacity writes that count directly: the two calls
    together write 0 and the count, with no pause between them. *)
Theorem DestroyVFs_then_ProvisionVFs fuel pci desired total (s s1 : St W) :
  laws.SleepAdvances ->
  (61 <= fuel)%nat ->
  laws.NumVFsReadBack pci 0 ->
  laws.WriteKeepsTotalVFs pci ->
  sysfs.GetSRIOVTotalVFs pci (world s) = (total, None) ->
  desired <= total ->
  desired <> 0 ->
  sriov.DestroyVFs pci s = (None, s1) ->
  let ctl := sysfs.numvfs_path pci in
  trace s1 = trace s ++ [EvWriteFile ctl "0"]
  /\ sysfs.GetSRIOVNumVFs pci (world s1) = (0, None)
  /\ (0 <= total -> sriov.ProvisionVFs fuel pci 0 s1 = Some (None, s1))
  /\ exists err s2 k,
       sriov.ProvisionVFs fuel pci desired s1 = Some (err, s2)
       /\ (k <= 60)%nat
       /\ trace s2
          = trace s ++ [EvWriteFile ctl "0"; EvWriteFile ctl (Itoa desired)]
                    ++ replicate k (EvSleep sriov.vfPollInterval).
Proof.
  intros Hadv Hfuel Hback Hkeep Htotal Hcap Hne Hdestroy ctl.
  unfold sriov.DestroyVFs in Hdestroy.
  pose proof (SetSRIOVNumVFs_trace pci 0 s) as Ht0.
  pose proof (SetSRIOVNumVFs_world pci 0 s) as [Hw0 He0].
  rewrite Hdestroy in Ht0, Hw0, He0. cbn [fst snd] in Ht0, Hw0, He0.
  change (Itoa 0) with "0" in Ht0.
  assert (Hcur : sysfs.GetSRIOVNumVFs pci (world s1) = (0, None)).
  { apply (Hback (world s)). rewrite Hw0.
    destruct (os_WriteFile (sysfs.numvfs_path pci) (Itoa 0) (world s)) as [e w'].
    cbn [fst snd] in *. subst e. reflexivity. }
  assert (Htotal1 : sysfs.GetSRIOVTotalVFs pci (world s1) = (total, None)).
  { rewrite Hw0, Hkeep. exact Htotal. }
  split; [exact Ht0|]. split; [exact Hcur|]. split.
  - intros Hpos. unfold sriov.ProvisionVFs.
    rewrite Htotal1, gtb_false, Hcur by lia. reflexivity.
  - destruct (create_cases fuel pci desired total 0 s1
                Hadv Hfuel Htotal1 Hcap Hcur ltac:(lia) ltac:(congruence))
      as (err & s2 & Hrun & Hcases).
    cbv zeta in Hcases.
    pose proof (SetSRIOVNumVFs_trace pci desired s1) as Ht1.
    rewrite Ht0 in Ht1.
    destruct Hcases as [(e & _ & -> & ->)|(_ & k & -> & Hk & _)].
    + eexists _, _, 0%nat. split; [exact Hrun|]. split; [lia|].
      rewrite Ht1, <- !app_assoc. reflexivity.
    + eexists _, _, k. split; [exact Hrun|]. split; [exact Hk|].
      rewrite poll_state_trace, Ht1, <- !app_assoc. reflexivity.
Qed.

End destroy_facts.

(** X26. The command line of [GenerateMoveNetdevCommand] is the plugin
    binary with the subcommand, the interface under --netdev and, when
    an RDMA device is given, that device under --rdma-dev. It differs
    from the arguments of every hook that [deviceEdits] builds, which
    name the adapter under --ib-dev. *)
Theorem GenerateMoveNetdevCommand_flags pluginBinary netdev rdmaDev :
  let '(bin, args) := netns.GenerateMoveNetdevCommand pluginBinary netdev rdmaDev in
  bin = pluginBinary
  /\ (rdmaDev = "" -> args = ["move-netdev"; "--netdev"; netdev])
  /\ (rdmaDev <> "" ->
      args = ["move-netdev"; "--netdev"; netdev; "--rdma-dev"; rdmaDev])
  /\ forall config i result hook,
       hook ∈ ib.Hooks (ib.deviceEdits config i result) ->
       ib.Args hook !! 2%nat = Some "--ib-dev"
       /\ args !! 1%nat = Some "--netdev"
       /\ ib.Args hook <> bin :: args.
Proof.
  unfold netns.GenerateMoveNetdevCommand.
  split; [reflexivity|]. split; [|split].
  - intros ->. reflexivity.
  - intros Hne. apply String.eqb_neq in Hne. rewrite Hne. reflexivity.
  - intros config i result hook Hhook. unfold ib.deviceEdits in Hhook.
    cbn [ib.Hooks] in Hhook.
    destruct (length (SplitN2 (ib.Device_ result) "-port") =? 2)%nat;
      [|apply elem_of_nil in Hhook; contradiction].
    apply list_elem_of_singleton in Hhook as ->. cbn [ib.Args].
    split; [reflexivity|].
    destruct (negb (String.eqb rdmaDev "")); (split; [reflexivity|]);
      intros Hc; discriminate.
Qed.

Lemma sim_NumVFsReadBack_3b_0 : laws.NumVFsReadBack (W := World) "0000:3b:00.0" 0.
Proof.
  intros w w'. simpl. unfold write.
  destruct (bool_decide _); [discriminate|].
  intros [= <-].
  unfold sysfs.GetSRIOVNumVFs, sysfs.readIntFileErr. simpl.
  rewrite lookup_insert_eq. reflexivity.
Qed.

Lemma DestroyVFs_then_ProvisionVFs_witness :
  trace destroyed
  = [EvWriteFile "/sys/bus/pci/devices/0000:3b:00.0/sriov_numvfs" "0"]
  /\ sysfs.GetSRIOVNumVFs "0000:3b:00.0" (world destroyed) = (0, None).
Proof.
  destruct (DestroyVFs_then_ProvisionVFs 61 "0000:3b:00.0" 2 8 (boot one_pf) destroyed)
    as (Htrace & Hcur & _).
  - exact sim_SleepAdvances.
  - lia.
  - exact sim_NumVFsReadBack_3b_0.
  - exact sim_WriteKeepsTotalVFs_3b.
  - vm_compute; reflexivity.
  - lia.
  - lia.
  - vm_compute; reflexivity.
  - split; [exact Htrace|exact Hcur].
Defined.

Lemma GenerateMoveNetdevCommand_flags_witness :
  netns.GenerateMoveNetdevCommand "/usr/bin/plugin" "ib0" ""
  = ("/usr/bin/plugin", ["move-netdev"; "--netdev"; "ib0"]).
Proof.
  pose proof (GenerateMoveNetdevCommand_flags "/usr/bin/plugin" "ib0" "") as Hflags.
  destruct (netns.GenerateMoveNetdevCommand "/usr/bin/plugin" "ib0" "") as [bin args].
  destruct Hflags as (-> & Hargs & _). rewrite (Hargs eq_refl). reflexivity.
Defined.
